(** * django-multipleformwizard: the step-state machine of [forms.py]

    A shallow embedding of [multipleformwizard/forms.py]: the class
    [MultipleFormWizardView] (several forms per wizard step) and its
    URL-addressed subclass [NamedUrlWizardView], followed by the properties
    of the wizard that the specification states.

    Python objects are modelled as follows.
    - Text is [string]; [None] is the [None] of an [option].
    - A plain [dict] is a [gmap]; an [OrderedDict] is an association list
      kept in insertion order (see [odict_set]).
    - An exception is a value [Raise e] of the result type [Res]; code that
      mutates the storage backend or calls the terminal callback runs in
      the state-and-exception monad [M] over [World].
    - The two view classes are the two values of [Variant]; a call through
      [self] is a function that dispatches on the variant of the wizard. *)

From stdpp Require Import gmap strings list fin_maps pretty sorting.

Open Scope string_scope.
Open Scope list_scope.

(** ** Exceptions and results *)

Inductive exn : Type :=
| AssertionError (msg : string)
| NoFileStorageConfigured
| ValidationError (code : string)
| AttributeError
| TypeError
| KeyError (key : string)
| IndexError
| ValueError
| UnboundLocalError
| NoReverseMatch
| CallbackError (msg : string).

Inductive Res (A : Type) : Type :=
| Ok (a : A)
| Raise (e : exn).

Arguments Ok {A} a.
Arguments Raise {A} e.

Definition Res_bind {A B} (r : Res A) (k : A -> Res B) : Res B :=
  match r with
  | Ok a => k a
  | Raise e => Raise e
  end.

Declare Scope wizard_scope.
Delimit Scope wizard_scope with wiz.

Notation "'try' x <- r ; k" := (Res_bind r (fun x => k))
  (at level 10, x name, r at level 100, k at level 200) : wizard_scope.

(** ** Ordered dictionaries

    [d[k] = v] on an [OrderedDict]: an existing key keeps its position, a
    new key goes to the end. *)

Fixpoint odict_set {V} (k : string) (v : V) (d : list (string * V)) : list (string * V) :=
  match d with
  | [] => [(k, v)]
  | (k', v') :: d' =>
      if String.eqb k k' then (k, v) :: d' else (k', v') :: odict_set k v d'
  end.

Fixpoint odict_get {V} (k : string) (d : list (string * V)) : option V :=
  match d with
  | [] => None
  | (k', v') :: d' => if String.eqb k k' then Some v' else odict_get k d'
  end.

Definition odict_keys {V} (d : list (string * V)) : list string := map fst d.

Definition odict_mem {V} (k : string) (d : list (string * V)) : bool :=
  match odict_get k d with Some _ => true | None => false end.

(** ** [sorted] on a list of text keys *)

Fixpoint insert_sorted (k : string) (l : list string) : list string :=
  match l with
  | [] => [k]
  | k' :: l' => if String.leb k k' then k :: l else k' :: insert_sorted k l'
  end.

Definition sorted (l : list string) : list string :=
  foldr insert_sorted [] l.

(** ** Request data, opaque Python values *)

(** A [QueryDict] (POST, FILES, GET, stored step data). *)
Abbreviation QueryDict := (gmap string string).

(** The values found in [initial_dict], [instance_dict] and in the extra
    keyword arguments of a form: [None], an opaque object, or a dictionary
    of such values. *)
Inductive PyObj : Type :=
| PyNone
| PyAtom (repr : string)
| PyDict (items : PyItems)
with PyItems : Type :=
| PyNil
| PyItem (key : string) (value : PyObj) (rest : PyItems).

Fixpoint py_lookup (name : string) (items : PyItems) : option PyObj :=
  match items with
  | PyNil => None
  | PyItem k v rest => if String.eqb name k then Some v else py_lookup name rest
  end.

(** Truth value of a Python object. *)
Definition truthy (o : PyObj) : bool :=
  match o with
  | PyNone => false
  | PyAtom _ => true
  | PyDict PyNil => false
  | PyDict (PyItem _ _ _) => true
  end.

(** [o.get(name, None)]: only dictionaries have [get]. *)
Definition py_get (o : PyObj) (name : string) : Res PyObj :=
  match o with
  | PyDict items => Ok (default PyNone (py_lookup name items))
  | _ => Raise AttributeError
  end.

(** ** Form classes and form objects *)

Inductive Field : Type := CharField | IntegerField | FileField | ImageField.

(** [isinstance(field, forms.FileField)]; [ImageField] derives from
    [FileField]. *)
Definition is_FileField (f : Field) : bool :=
  match f with FileField | ImageField => true | _ => false end.

(** The keyword arguments a form object is constructed with. *)
Record FormKwargs : Type := mkFormKwargs {
  kw_data : option QueryDict;
  kw_files : option QueryDict;
  kw_prefix : string;
  kw_initial : PyObj;
  kw_extra : gmap string PyObj
}.

Inductive FormBase : Type := Form_ | ModelForm_.
Inductive FormSetBase : Type := BaseFormSet_ | BaseModelFormSet_ | BaseInlineFormSet_.

(** A form class is a [forms.Form] or [forms.ModelForm] subclass with its
    [base_fields], or a formset class with its item form class [form].
    [clean] is the class's own validation of a bound form. *)
Inductive FormClass : Type :=
| FormCls (name : string) (base : FormBase)
    (base_fields : list (string * Field)) (clean : FormKwargs -> bool)
| FormSetCls (name : string) (base : FormSetBase)
    (form : FormClass) (clean : FormKwargs -> bool).

(** [issubclass] against the framework's base classes.  [ModelForm] does not
    derive from [Form]; [BaseInlineFormSet] derives from [BaseModelFormSet],
    which derives from [BaseFormSet]. *)
Definition issubclass_Form (c : FormClass) : bool :=
  match c with FormCls _ Form_ _ _ => true | _ => false end.

Definition issubclass_ModelForm (c : FormClass) : bool :=
  match c with FormCls _ ModelForm_ _ _ => true | _ => false end.

Definition issubclass_BaseFormSet (c : FormClass) : bool :=
  match c with FormSetCls _ _ _ _ => true | _ => false end.

Definition issubclass_BaseModelFormSet (c : FormClass) : bool :=
  match c with
  | FormSetCls _ BaseModelFormSet_ _ _ | FormSetCls _ BaseInlineFormSet_ _ _ => true
  | _ => false
  end.

Definition issubclass_BaseInlineFormSet (c : FormClass) : bool :=
  match c with FormSetCls _ BaseInlineFormSet_ _ _ => true | _ => false end.

(** The constructors of the framework take the keyword [instance] in
    [ModelForm] and in inline formsets only; a class called with a keyword
    it does not take raises [TypeError]. *)
Definition accepts_instance (c : FormClass) : bool :=
  issubclass_ModelForm c || issubclass_BaseInlineFormSet c.

(** [cls.base_fields]: formset classes have no such attribute. *)
Definition base_fields_of (c : FormClass) : Res (list (string * Field)) :=
  match c with
  | FormCls _ _ fs _ => Ok fs
  | FormSetCls _ _ _ _ => Raise AttributeError
  end.

Definition clean_of (c : FormClass) : FormKwargs -> bool :=
  match c with
  | FormCls _ _ _ cl => cl
  | FormSetCls _ _ _ cl => cl
  end.

(** What a step is declared with: one form class, or a dictionary from
    form name to form class. *)
Inductive FormStruct : Type :=
| SClass (c : FormClass)
| SDict (forms : gmap string FormClass).

(** A form object: its class, the keyword arguments it was built with, and
    the dynamic attribute [_tag] ([None] when the attribute is absent). *)
Record FormObj : Type := mkForm {
  form_class : FormClass;
  form_kwargs : FormKwargs;
  _tag : option string
}.

(** Calling the form class with keyword arguments it takes: a fresh form
    object, without [_tag].  The form classes keep the constructor of
    their framework base class, and the keywords that the hook
    [get_form_kwargs] adds are taken to be ones the class takes; the
    keyword [instance] is checked where the view passes it to any class
    (see [accepts_instance] and [build_tagged_forms]). *)
Definition construct (c : FormClass) (kw : FormKwargs) : FormObj :=
  mkForm c kw None.

(** [form._tag = name] and [delattr(form, '_tag')]. *)
Definition set_tag (name : string) (f : FormObj) : FormObj :=
  mkForm (form_class f) (form_kwargs f) (Some name).

Definition del_tag (f : FormObj) : FormObj :=
  mkForm (form_class f) (form_kwargs f) None.

(** A form is bound when it was given data or files; only a bound form can
    be valid. *)
Definition is_bound (f : FormObj) : bool :=
  match kw_data (form_kwargs f), kw_files (form_kwargs f) with
  | None, None => false
  | _, _ => true
  end.

Definition is_valid (f : FormObj) : bool :=
  is_bound f && clean_of (form_class f) (form_kwargs f).

(** [form.data] and [form.files] ([data or {}], [files or {}]). *)
Definition form_data (f : FormObj) : QueryDict := default ∅ (kw_data (form_kwargs f)).
Definition form_files (f : FormObj) : QueryDict := default ∅ (kw_files (form_kwargs f)).

(** ** The storage backend (WizardState)

    The view reaches the storage only through [self.storage]: the attribute
    [current_step], [get_step_data] / [set_step_data], [get_step_files] /
    [set_step_files], [extra_data] and [reset]. *)

Record WizardState : Type := mkState {
  current_step : option string;
  step_data : gmap string QueryDict;
  step_files : gmap string QueryDict;
  extra_data : gmap string string
}.

Module Storage.

Definition init : WizardState := mkState None ∅ ∅ ∅.

Definition reset (st : WizardState) : WizardState := init.

Definition set_current_step (s : option string) (st : WizardState) : WizardState :=
  mkState s (step_data st) (step_files st) (extra_data st).

(** [None] for a step that has no stored data. *)
Definition get_step_data (k : option string) (st : WizardState) : option QueryDict :=
  k ≫= λ k, step_data st !! k.

Definition set_step_data (k : string) (d : QueryDict) (st : WizardState) : WizardState :=
  mkState (current_step st) (<[k := d]> (step_data st)) (step_files st) (extra_data st).

(** [files or None]: a step without stored files gives [None].  Files
    are stored by [set_step_files] only, hence only with a file storage,
    and the check of [get_step_files] for one is left out. *)
Definition get_step_files (k : option string) (st : WizardState) : option QueryDict :=
  k ≫= λ k,
    match step_files st !! k with
    | Some f => if decide (f = ∅) then None else Some f
    | None => None
    end.

(** The storage after the files [f] were saved for the step: the entry of
    the step, created empty when missing, takes the files field by
    field. *)
Definition store_step_files (k : string) (f : QueryDict) (st : WizardState) : WizardState :=
  mkState (current_step st) (step_data st)
    (<[k := f ∪ default ∅ (step_files st !! k)]> (step_files st)) (extra_data st).

(** [set_step_files(step, files)]: files given to a storage without
    [file_storage] are refused. *)
Definition set_step_files (file_storage : bool) (k : string) (f : QueryDict)
    (st : WizardState) : Res WizardState :=
  if negb (bool_decide (f = ∅)) && negb file_storage
  then Raise NoFileStorageConfigured
  else Ok (store_step_files k f st).

End Storage.

(** ** What a request produces *)

(** The value given to the template as [wizard.forms]: [render] receives a
    list of forms, the revalidation-failure handler hands it one form. *)
Inductive FormsArg : Type :=
| FormList (l : list FormObj)
| OneForm (f : FormObj).

(** The template context of [get_context_data]: the keyword arguments, the
    storage's [extra_data], and under [wizard] the forms and the step the
    management form declares as current. *)
Record Context : Type := mkContext {
  ctx_kwargs : gmap string string;
  ctx_extra_data : gmap string string;
  ctx_forms : FormsArg;
  ctx_management_current_step : string
}.

Inductive Response : Type :=
| TemplateResponse (ctx : Context)
| HttpResponseRedirect (url_name : string) (step : string) (query : QueryDict)
| HttpResponse (body : string).

(** One step's entry in the results of the wizard: the form object of the
    step, or a dictionary from form name to form object. *)
Inductive StepResult : Type :=
| RForm (f : FormObj)
| RForms (d : gmap string FormObj).

(** A call of the terminal callback [done(form_list=..., form_dict=...,
    **kwargs)]. *)
Record DoneCall : Type := mkDoneCall {
  dc_form_list : list StepResult;
  dc_form_dict : gmap string StepResult;
  dc_kwargs : gmap string string
}.

(** ** The state-and-exception monad

    The world a request runs in: the storage backend and the log of calls
    of [done].  An exception leaves the world as it is at the [raise]. *)

Record World : Type := mkWorld {
  storage : WizardState;
  done_calls : list DoneCall
}.

Definition M (A : Type) : Type := World -> World * Res A.

Definition ret {A} (a : A) : M A := fun w => (w, Ok a).

Definition raise {A} (e : exn) : M A := fun w => (w, Raise e).

Definition bind {A B} (m : M A) (k : A -> M B) : M B :=
  fun w =>
    match m w with
    | (w', Ok a) => k a w'
    | (w', Raise e) => (w', Raise e)
    end.

Notation "'do' x <- m ; k" := (bind m (fun x => k))
  (at level 10, x name, m at level 100, k at level 200) : wizard_scope.
Notation "'run' m ; k" := (bind m (fun _ => k))
  (at level 10, m at level 100, k at level 200) : wizard_scope.

Open Scope wizard_scope.

(** A pure computation that may raise. *)
Definition lift {A} (r : Res A) : M A := fun w => (w, r).

(** Reading and updating [self.storage]. *)
Definition read {A} (f : WizardState -> A) : M A := fun w => (w, Ok (f (storage w))).

Definition update (f : WizardState -> WizardState) : M unit :=
  fun w => (mkWorld (f (storage w)) (done_calls w), Ok tt).

(** A read of the storage that may raise. *)
Definition attempt {A} (f : WizardState -> Res A) : M A := fun w => (w, f (storage w)).

(** An update of the storage that may raise and then leaves it as it is. *)
Definition update_or_raise (f : WizardState -> Res WizardState) : M unit :=
  fun w =>
    match f (storage w) with
    | Ok st => (mkWorld st (done_calls w), Ok tt)
    | Raise e => (w, Raise e)
    end.

(** Unfolding the operations of the monad in a goal. *)
Ltac unfold_monad :=
  unfold bind, ret, raise, read, attempt, lift, update in *; simpl in *.

(** ** The wizard view *)

Inductive Variant : Type :=
| MultipleFormWizardView
| NamedUrlWizardView (url_name done_step_name : string).

(** A configured view: the class attributes that [as_view] sets from
    [get_initkwargs], whether the class has [file_storage], the hooks a
    subclass may override, and the terminal callback [done], which may
    read and change the storage and may raise. *)
Record Wizard : Type := mkWizard {
  variant : Variant;
  prefix : string;
  form_list : list (string * FormStruct);
  initial_dict : gmap string PyObj;
  instance_dict : gmap string PyObj;
  condition_dict : gmap string (WizardState -> bool);
  file_storage : bool;
  get_form_kwargs : string -> gmap string PyObj;
  get_form_prefix : string -> FormClass -> string;
  done : DoneCall -> WizardState -> WizardState * Res Response
}.

(** A request: the POST and FILES of a POST request, the query parameters
    of a GET request. *)
Record Request : Type := mkRequest {
  POST : QueryDict;
  FILES : QueryDict;
  GET : QueryDict
}.

(** *** Inherited from the framework's [WizardView]

    The methods [forms.py] calls without defining them. *)
Module Base.

(** [get_form_list]: the declared steps whose condition holds, in the
    declared order; a step without a condition is kept. *)
Definition condition (w : Wizard) (st : WizardState) (k : string) : bool :=
  match condition_dict w !! k with
  | Some c => c st
  | None => true
  end.

Definition get_form_list (w : Wizard) (st : WizardState) : list (string * FormStruct) :=
  List.filter (fun kv => condition w st (fst kv)) (form_list w).

(** [steps.first], [steps.last]: [all[0]] and [all[-1]]. *)
Definition steps_first (w : Wizard) (st : WizardState) : Res string :=
  match odict_keys (get_form_list w st) with
  | [] => Raise IndexError
  | k :: _ => Ok k
  end.

Definition steps_last (w : Wizard) (st : WizardState) : Res string :=
  match List.rev (odict_keys (get_form_list w st)) with
  | [] => Raise IndexError
  | k :: _ => Ok k
  end.

(** [steps.current]: [storage.current_step or self.first]; the empty text
    is false. *)
Definition steps_current (w : Wizard) (st : WizardState) : Res string :=
  match current_step st with
  | Some s => if String.eqb s "" then steps_first w st else Ok s
  | None => steps_first w st
  end.

(** [keys.index(step)]. *)
Fixpoint index_of (k : string) (l : list string) : option nat :=
  match l with
  | [] => None
  | k' :: l' => if String.eqb k k' then Some 0 else S <$> index_of k l'
  end.

(** [get_next_step()]: the key after the current step, [None] after the
    last one. *)
Definition get_next_step (w : Wizard) (st : WizardState) : Res (option string) :=
  match steps_current w st with
  | Raise e => Raise e
  | Ok step =>
      let keys := odict_keys (get_form_list w st) in
      match index_of step keys with
      | None => Raise ValueError
      | Some i => Ok (keys !! (i + 1))
      end
  end.

(** [get_form_initial(step)] and [get_form_instance(step)]. *)
Definition get_form_initial (w : Wizard) (step : string) : PyObj :=
  default (PyDict PyNil) (initial_dict w !! step).

Definition get_form_instance (w : Wizard) (step : string) : PyObj :=
  default PyNone (instance_dict w !! step).

(** [kwargs.update({'data': ..., 'files': ..., 'prefix': ..., 'initial':
    ...})]: these four keys are held by the fields of [FormKwargs]. *)
Definition other_kwargs (kw : gmap string PyObj) : gmap string PyObj :=
  delete "data" (delete "files" (delete "prefix" (delete "initial" kw))).

(** [kwargs.setdefault(key, value)]. *)
Definition setdefault (key : string) (v : PyObj) (kw : gmap string PyObj)
  : gmap string PyObj :=
  match kw !! key with
  | Some _ => kw
  | None => <[key := v]> kw
  end.

(** [get_form(step, data, files)], the single-form constructor of the
    framework; [issubclass] on a dictionary raises [TypeError]. *)
Definition get_form (w : Wizard) (step : option string)
    (data files : option QueryDict) (st : WizardState) : Res FormObj :=
  match (match step with Some s => Ok s | None => steps_current w st end) with
  | Raise e => Raise e
  | Ok step =>
      match odict_get step (form_list w) with
      | None => Raise (KeyError step)
      | Some (SDict _) => Raise TypeError
      | Some (SClass c) =>
          let kw := other_kwargs (get_form_kwargs w step) in
          let kw :=
            if issubclass_ModelForm c || issubclass_BaseInlineFormSet c
            then setdefault "instance" (get_form_instance w step) kw
            else if issubclass_BaseModelFormSet c
            then setdefault "queryset" (get_form_instance w step) kw
            else kw in
          Ok (construct c
                (mkFormKwargs data files (get_form_prefix w step c)
                   (get_form_initial w step) kw))
      end
  end.

(** [process_step(form)] and [process_step_files(form)]. *)
Definition process_step (f : FormObj) : QueryDict := form_data f.
Definition process_step_files (f : FormObj) : QueryDict := form_files f.

(** The management form bound to the POST data: valid when the field
    [<prefix>-current_step] is present and not empty; its cleaned value. *)
Definition management_current_step (w : Wizard) (post : QueryDict) : option string :=
  match post !! (prefix w +:+ "-current_step") with
  | Some s => if String.eqb s "" then None else Some s
  | None => None
  end.

End Base.

(** ** [MultipleFormWizardView.get_initkwargs] *)

(** An element of the declared [form_list]: a form class or dictionary on
    its own, or a pair [(step_name, form)]. *)
Inductive FormListEntry : Type :=
| Bare (form : FormStruct)
| Pair (step_name : string) (form : FormStruct).

Record InitKwargs : Type := mkInitKwargs {
  ik_form_list : list (string * FormStruct);
  ik_initial_dict : gmap string PyObj;
  ik_instance_dict : gmap string PyObj;
  ik_condition_dict : gmap string (WizardState -> bool)
}.

(** The body of the first loop, for the element [form] at index [i]. *)
Definition add_step (i : nat) (form : FormListEntry)
    (computed_form_list : list (string * FormStruct)) : list (string * FormStruct) :=
  match form with
  | Pair step_name (SDict form_mapping) =>
      odict_set step_name (SDict form_mapping) computed_form_list
  | Pair step_name (SClass form) =>
      if issubclass_Form form
      then odict_set step_name (SClass form) computed_form_list
      else computed_form_list
  | Bare form => odict_set (pretty i) form computed_form_list
  end.

(** [for i, form in enumerate(form_list)], from index [i] on. *)
Fixpoint walk_form_list (i : nat) (form_list : list FormListEntry)
    (computed_form_list : list (string * FormStruct)) : list (string * FormStruct) :=
  match form_list with
  | [] => computed_form_list
  | form :: rest => walk_form_list (S i) rest (add_step i form computed_form_list)
  end.

Definition compute_form_list (form_list : list FormListEntry) : list (string * FormStruct) :=
  walk_form_list 0 form_list [].

(** The forms of a step whose fields the second loop looks at. *)
Definition form_collection_of (form : FormStruct) : list FormClass :=
  match form with
  | SDict d => (map_to_list d).*2
  | SClass (FormSetCls _ _ item _) => [item]
  | SClass (FormCls _ _ _ _) => []
  end.

(** [for field in itervalues(form.base_fields)]: raise at a file field when
    the view class has no [file_storage]. *)
Fixpoint check_fields (has_file_storage : bool) (fields : list (string * Field)) : Res unit :=
  match fields with
  | [] => Ok tt
  | (_, field) :: rest =>
      if is_FileField field && negb has_file_storage
      then Raise NoFileStorageConfigured
      else check_fields has_file_storage rest
  end.

Fixpoint check_forms (has_file_storage : bool) (form_collection : list FormClass) : Res unit :=
  match form_collection with
  | [] => Ok tt
  | form :: rest =>
      match base_fields_of form with
      | Raise e => Raise e
      | Ok fields =>
          match check_fields has_file_storage fields with
          | Raise e => Raise e
          | Ok _ => check_forms has_file_storage rest
          end
      end
  end.

(** [for form in itervalues(computed_form_list)]. *)
Fixpoint check_steps (has_file_storage : bool)
    (computed_form_list : list (string * FormStruct)) : Res unit :=
  match computed_form_list with
  | [] => Ok tt
  | (_, form) :: rest =>
      match check_forms has_file_storage (form_collection_of form) with
      | Raise e => Raise e
      | Ok _ => check_steps has_file_storage rest
      end
  end.

(** [get_initkwargs] from the computed form list on, for a view class that
    has ([has_file_storage]) or has not the attribute [file_storage]; the
    form list and the three dictionaries are the resolved ones (see
    [MultipleFormWizardView_get_initkwargs]). *)
Definition get_initkwargs (has_file_storage : bool) (form_list : list FormListEntry)
    (initial_dict instance_dict : gmap string PyObj)
    (condition_dict : gmap string (WizardState -> bool)) : Res InitKwargs :=
  if Nat.ltb 0 (length form_list) then
    let computed_form_list := compute_form_list form_list in
    match check_steps has_file_storage computed_form_list with
    | Raise e => Raise e
    | Ok _ => Ok (mkInitKwargs computed_form_list initial_dict instance_dict condition_dict)
    end
  else Raise (AssertionError "at least one form is needed").

(** The attributes of the view class that [get_initkwargs] reads:
    [file_storage], present or not, and the defaults [form_list],
    [initial_dict], [instance_dict] and [condition_dict]; an attribute
    that is missing or [None] is the empty value here, which is false as
    well. *)
Record ViewClass : Type := mkViewClass {
  cls_file_storage : bool;
  cls_form_list : list FormListEntry;
  cls_initial_dict : gmap string PyObj;
  cls_instance_dict : gmap string PyObj;
  cls_condition_dict : gmap string (WizardState -> bool)
}.

(** [arg or kwargs.pop(name, getattr(cls, name, None)) or empty]: the
    argument when it is not empty, else the attribute of the class.  The
    name is a parameter of the method, so it is never among the other
    keyword arguments. *)
Definition list_or {A} (arg attr : list A) : list A :=
  match arg with
  | [] => attr
  | _ :: _ => arg
  end.

Definition dict_or {V} (arg attr : gmap string V) : gmap string V :=
  match map_to_list arg with
  | [] => attr
  | _ :: _ => arg
  end.

(** [MultipleFormWizardView.get_initkwargs(form_list, initial_dict,
    instance_dict, condition_dict)] on the class [cls]. *)
Definition MultipleFormWizardView_get_initkwargs (cls : ViewClass)
    (form_list : list FormListEntry) (initial_dict instance_dict : gmap string PyObj)
    (condition_dict : gmap string (WizardState -> bool)) : Res InitKwargs :=
  get_initkwargs (cls_file_storage cls)
    (list_or form_list (cls_form_list cls))
    (dict_or initial_dict (cls_initial_dict cls))
    (dict_or instance_dict (cls_instance_dict cls))
    (dict_or condition_dict (cls_condition_dict cls)).

(** [NamedUrlWizardView.get_initkwargs]: [url_name] is required,
    [done_step_name] defaults to ["done"] and must not name a step.  The
    form list and the three dictionaries are the resolved ones, as in
    [get_initkwargs]. *)
Definition NamedUrlWizardView_get_initkwargs (has_file_storage : bool)
    (url_name done_step_name : option string) (form_list : list FormListEntry)
    (initial_dict instance_dict : gmap string PyObj)
    (condition_dict : gmap string (WizardState -> bool))
    : Res (InitKwargs * Variant) :=
  match url_name with
  | None => Raise (AssertionError "URL name is needed to resolve correct wizard URLs")
  | Some url_name =>
      let done_step_name := default "done" done_step_name in
      match get_initkwargs has_file_storage form_list initial_dict instance_dict
              condition_dict with
      | Raise e => Raise e
      | Ok initkwargs =>
          if odict_mem done_step_name (ik_form_list initkwargs)
          then Raise (AssertionError "step name is reserved for done view")
          else Ok (initkwargs, NamedUrlWizardView url_name done_step_name)
      end
  end.

(** ** [MultipleFormWizardView.get_forms] *)

(** [d.get(form_name, None) if d else None]. *)
Definition get_if_truthy (d : PyObj) (form_name : string) : Res PyObj :=
  if truthy d then py_get d form_name else Ok PyNone.

(** The loop over [form_struct.items()] of a step declared with a
    dictionary: one tagged form per entry.  Every form class of the step is
    called with the keyword [instance]. *)
Fixpoint build_tagged_forms (w : Wizard) (step : string) (data files : option QueryDict)
    (initial_dict instance_dict : PyObj) (items : list (string * FormClass))
    : Res (list FormObj) :=
  match items with
  | [] => Ok []
  | (form_name, form_class) :: rest =>
      try initial <- get_if_truthy initial_dict form_name;
      try instance <- get_if_truthy instance_dict form_name;
      let kwargs :=
        mkFormKwargs data files (get_form_prefix w step form_class) initial
          (Base.setdefault "instance" instance
             (Base.other_kwargs (get_form_kwargs w step))) in
      try form <- (if accepts_instance form_class
                   then Ok (set_tag form_name (construct form_class kwargs))
                   else Raise TypeError);
      try forms <- build_tagged_forms w step data files initial_dict instance_dict rest;
      Ok (form :: forms)
  end.

Definition get_forms (w : Wizard) (step : option string) (data files : option QueryDict)
    (st : WizardState) : Res (list FormObj) :=
  try step <- match step with Some s => Ok s | None => Base.steps_current w st end;
  match odict_get step (form_list w) with
  | None => Raise (KeyError step)
  | Some (SDict form_struct) =>
      build_tagged_forms w step data files
        (Base.get_form_initial w step) (Base.get_form_instance w step)
        (map_to_list form_struct)
  | Some (SClass form_class) =>
      let kwargs extra :=
        mkFormKwargs data files (get_form_prefix w step form_class)
          (Base.get_form_initial w step) extra in
      let base_kwargs := Base.other_kwargs (get_form_kwargs w step) in
      if issubclass_ModelForm form_class || issubclass_BaseInlineFormSet form_class then
        Ok [construct form_class
              (kwargs (Base.setdefault "instance" (Base.get_form_instance w step)
                         base_kwargs))]
      else if issubclass_Form form_class then
        Ok [construct form_class (kwargs base_kwargs)]
      else if issubclass_BaseModelFormSet form_class then
        Ok [construct form_class
              (kwargs (Base.setdefault "queryset" (Base.get_form_instance w step)
                         base_kwargs))]
      else Ok []
  end.

(** The prefixes of the forms of one step are pairwise different. *)
Definition distinct_prefixes (forms : list FormObj) : Prop :=
  NoDup (map (fun f => kw_prefix (form_kwargs f)) forms).

(** ** Rendering and redirecting *)

(** [MultipleFormWizardView.get_context_data(forms, **kwargs)]. *)
Definition MultipleFormWizardView_get_context_data (w : Wizard) (forms : FormsArg)
    (kwargs : gmap string string) : M Context :=
  do extra <- read extra_data;
  do current <- attempt (Base.steps_current w);
  ret (mkContext kwargs extra forms current).

(** [self.get_context_data(forms=forms, **kwargs)] as [render] calls it.
    [NamedUrlWizardView.get_context_data(self, form, **kwargs)] has a
    required parameter [form] that this call does not supply; the keyword
    arguments of a request are those of the address of the wizard, which
    has the parameter [step] and none named [form]. *)
Definition get_context_data (w : Wizard) (forms : FormsArg)
    (kwargs : gmap string string) : M Context :=
  match variant w with
  | MultipleFormWizardView => MultipleFormWizardView_get_context_data w forms kwargs
  | NamedUrlWizardView _ _ => raise TypeError
  end.

Definition forms_truthy (forms : FormsArg) : bool :=
  match forms with
  | FormList [] => false
  | _ => true
  end.

(** [render(forms, **kwargs)]: [forms or self.get_forms()], then the
    template response of the context. *)
Definition render (w : Wizard) (forms : FormsArg) (kwargs : gmap string string)
    : M Response :=
  do forms <- (if forms_truthy forms then ret forms
               else do fs <- attempt (get_forms w None None None); ret (FormList fs));
  do context <- get_context_data w forms kwargs;
  ret (TemplateResponse context).

(** [redirect(self.get_step_url(step))]: the address of a step is
    [reverse(url_name, kwargs={'step': step})], kept symbolic; no address
    exists for [None]. *)
Definition redirect_to_step (url_name : string) (step : option string)
    (query : QueryDict) : M Response :=
  match step with
  | Some step => ret (HttpResponseRedirect url_name step query)
  | None => raise NoReverseMatch
  end.

(** ** Revalidation failure *)

(** [self.render_revalidation_failure(step, form, **kwargs)]: the
    framework's method for [MultipleFormWizardView], the override of
    [NamedUrlWizardView]. *)
Definition render_revalidation_failure (w : Wizard) (failed_step : string)
    (form : FormObj) (kwargs : gmap string string) : M Response :=
  match variant w with
  | MultipleFormWizardView =>
      run update (Storage.set_current_step (Some failed_step));
      render w (OneForm form) kwargs
  | NamedUrlWizardView url_name _ =>
      run update (Storage.set_current_step (Some failed_step));
      redirect_to_step url_name (Some failed_step) ∅
  end.

(** ** [render_done] *)

(** The inner loop [for form_obj in form_objs]: the first form that is not
    valid, if any. *)
Fixpoint first_invalid (form_objs : list FormObj) : option FormObj :=
  match form_objs with
  | [] => None
  | form_obj :: rest => if is_valid form_obj then first_invalid rest else Some form_obj
  end.

(** The loop [for form_key in self.get_form_list()]: either the first step
    and form that fail, or [final_forms]. *)
Fixpoint revalidate (w : Wizard) (form_keys : list string)
    (final_forms : list (string * list FormObj)) (st : WizardState)
    : Res ((string * FormObj) + list (string * list FormObj)) :=
  match form_keys with
  | [] => Ok (inr final_forms)
  | form_key :: rest =>
      try form_objs <- get_forms w (Some form_key)
                         (Storage.get_step_data (Some form_key) st)
                         (Storage.get_step_files (Some form_key) st) st;
      match first_invalid form_objs with
      | Some form_obj => Ok (inl (form_key, form_obj))
      | None => revalidate w rest (odict_set form_key form_objs final_forms) st
      end
  end.

(** [formcollection_dict[form._tag] = form; delattr(form, '_tag')] for each
    form: the dictionary holds the form object itself, so the form it maps
    to has lost the attribute. *)
Fixpoint collect_tagged (formcollection : list FormObj)
    (formcollection_dict : gmap string FormObj) : Res (gmap string FormObj) :=
  match formcollection with
  | [] => Ok formcollection_dict
  | form :: rest =>
      match _tag form with
      | None => Raise AttributeError
      | Some tag => collect_tagged rest (<[tag := del_tag form]> formcollection_dict)
      end
  end.

(** The loop [for form_key in final_forms]. *)
Fixpoint collect_results (final_forms : list (string * list FormObj))
    (result_forms : gmap string StepResult) : Res (gmap string StepResult) :=
  match final_forms with
  | [] => Ok result_forms
  | (form_key, formcollection) :: rest =>
      match formcollection with
      | [form] => collect_results rest (<[form_key := RForm form]> result_forms)
      | [] => collect_results rest result_forms
      | _ =>
          try formcollection_dict <- collect_tagged formcollection ∅;
          collect_results rest (<[form_key := RForms formcollection_dict]> result_forms)
      end
  end.

(** [[result_forms[key] for key in keys]]. *)
Fixpoint lookup_each (result_forms : gmap string StepResult) (keys : list string)
    : Res (list StepResult) :=
  match keys with
  | [] => Ok []
  | key :: rest =>
      match result_forms !! key with
      | None => Raise (KeyError key)
      | Some r => try rs <- lookup_each result_forms rest; Ok (r :: rs)
      end
  end.

(** [[result_forms[key] for key in sorted(result_forms.keys())]]. *)
Definition result_list (result_forms : gmap string StepResult) : Res (list StepResult) :=
  lookup_each result_forms (sorted (map_to_list result_forms).*1).

(** [self.done(form_list=form_list, form_dict=result_forms, **kwargs)]. *)
Definition call_done (w : Wizard) (call : DoneCall) : M Response :=
  fun world =>
    let (st, r) := done w call (storage world) in
    (mkWorld st (done_calls world ++ [call]), r).

Definition MultipleFormWizardView_render_done (w : Wizard) (kwargs : gmap string string)
    : M Response :=
  do form_keys <- read (fun st => odict_keys (Base.get_form_list w st));
  do outcome <- attempt (revalidate w form_keys []);
  match outcome with
  | inl (form_key, form_obj) => render_revalidation_failure w form_key form_obj kwargs
  | inr final_forms =>
      do result_forms <- lift (collect_results final_forms ∅);
      do form_list <- lift (result_list result_forms);
      do done_response <- call_done w (mkDoneCall form_list result_forms kwargs);
      run update Storage.reset;
      ret done_response
  end.

(** [self.render_done(form, **kwargs)]; the argument [form] is not read by
    either class. *)
Definition render_done (w : Wizard) (kwargs : gmap string string) : M Response :=
  match variant w with
  | MultipleFormWizardView => MultipleFormWizardView_render_done w kwargs
  | NamedUrlWizardView url_name done_step_name =>
      if decide (kwargs !! "step" = Some done_step_name)
      then MultipleFormWizardView_render_done w kwargs
      else redirect_to_step url_name (Some done_step_name) ∅
  end.

(** [MultipleFormWizardView.render_done] in direct style: what it does by
    the outcome of the revalidation loop, of the assembly of the results
    and of the terminal callback (see [render_done_cases]). *)
Definition render_done_outcome (w : Wizard) (kwargs : gmap string string)
    (world : World) : World * Res Response :=
  let st := storage world in
  match revalidate w (odict_keys (Base.get_form_list w st)) [] st with
  | Raise e => (world, Raise e)
  | Ok (inl (form_key, form_obj)) =>
      render_revalidation_failure w form_key form_obj kwargs world
  | Ok (inr final_forms) =>
      match collect_results final_forms ∅ with
      | Raise e => (world, Raise e)
      | Ok result_forms =>
          match result_list result_forms with
          | Raise e => (world, Raise e)
          | Ok form_list =>
              let call := mkDoneCall form_list result_forms kwargs in
              match done w call st with
              | (st', Ok response) =>
                  (mkWorld Storage.init (done_calls world ++ [call]), Ok response)
              | (st', Raise e) => (mkWorld st' (done_calls world ++ [call]), Raise e)
              end
          end
      end
  end.

(** The forms of a step, rebuilt from the stored data and files of the
    step as the revalidation loop does. *)
Definition stored_forms (w : Wizard) (st : WizardState) (form_key : string)
    : Res (list FormObj) :=
  get_forms w (Some form_key) (Storage.get_step_data (Some form_key) st)
    (Storage.get_step_files (Some form_key) st) st.

(** The step revalidates: its forms are rebuilt and all of them are valid. *)
Definition revalidates (w : Wizard) (st : WizardState) (form_key : string) : bool :=
  match stored_forms w st form_key with
  | Ok form_objs => forallb is_valid form_objs
  | Raise _ => false
  end.

(** The first rebuilt form of the step that is not valid. *)
Definition failing_form (w : Wizard) (st : WizardState) (form_key : string)
    : option FormObj :=
  match stored_forms w st form_key with
  | Ok form_objs => first_invalid form_objs
  | Raise _ => None
  end.

(** ** Changing step *)

Definition render_next_step (w : Wizard) : M Response :=
  match variant w with
  | MultipleFormWizardView =>
      do next_step <- attempt (Base.get_next_step w);
      do new_forms <- attempt (fun st =>
                        get_forms w next_step (Storage.get_step_data next_step st)
                          (Storage.get_step_files next_step st) st);
      run update (Storage.set_current_step next_step);
      render w (FormList new_forms) ∅
  | NamedUrlWizardView url_name _ =>
      do next_step <- attempt (Base.get_next_step w);
      run update (Storage.set_current_step next_step);
      redirect_to_step url_name next_step ∅
  end.

Definition render_goto_step (w : Wizard) (goto_step : string) : M Response :=
  match variant w with
  | MultipleFormWizardView =>
      run update (Storage.set_current_step (Some goto_step));
      do current <- attempt (Base.steps_current w);
      do data <- read (Storage.get_step_data (Some current));
      do current <- attempt (Base.steps_current w);
      do files <- read (Storage.get_step_files (Some current));
      do forms <- attempt (get_forms w None data files);
      render w (FormList forms) ∅
  | NamedUrlWizardView url_name _ =>
      run update (Storage.set_current_step (Some goto_step));
      redirect_to_step url_name (Some goto_step) ∅
  end.

(** ** [post] *)

(** [wizard_goto_step and wizard_goto_step in self.get_form_list()]. *)
Definition accepted_goto (w : Wizard) (request : Request) (st : WizardState)
    : option string :=
  match POST request !! "wizard_goto_step" with
  | Some goto_step =>
      if negb (String.eqb goto_step "") && odict_mem goto_step (Base.get_form_list w st)
      then Some goto_step
      else None
  | None => None
  end.

(** "Check if form was refreshed": the stored current step follows the
    step declared by the management form when they differ and the storage
    has a current step. *)
Definition sync_current_step (w : Wizard) (form_current_step : string) : M unit :=
  do current <- attempt (Base.steps_current w);
  do stored <- read current_step;
  if negb (String.eqb form_current_step current) && bool_decide (stored ≠ None)
  then update (Storage.set_current_step (Some form_current_step))
  else ret tt.

(** The storage after that check, when [steps.current] does not raise. *)
Definition synced_storage (w : Wizard) (form_current_step : string) (st : WizardState)
    : WizardState :=
  match Base.steps_current w st with
  | Ok current =>
      if negb (String.eqb form_current_step current) && bool_decide (current_step st ≠ None)
      then Storage.set_current_step (Some form_current_step) st
      else st
  | Raise _ => st
  end.

(** From "get the form for the current step" to the end of [post]. *)
Definition validate_and_store (w : Wizard) (request : Request)
    (kwargs : gmap string string) : M Response :=
  do forms <- attempt (get_forms w None (Some (POST request)) (Some (FILES request)));
  if forallb is_valid forms then
    match last forms with
    | None => raise UnboundLocalError
    | Some form =>
        do current <- attempt (Base.steps_current w);
        run update (Storage.set_step_data current (Base.process_step form));
        do current <- attempt (Base.steps_current w);
        run update_or_raise
              (Storage.set_step_files (file_storage w) current
                 (Base.process_step_files form));
        do current <- attempt (Base.steps_current w);
        do last_step <- attempt (Base.steps_last w);
        if String.eqb current last_step
        then render_done w kwargs
        else render_next_step w
    end
  else render w (FormList forms) ∅.

Definition MultipleFormWizardView_post (w : Wizard) (request : Request)
    (kwargs : gmap string string) : M Response :=
  do goto <- read (accepted_goto w request);
  match goto with
  | Some wizard_goto_step => render_goto_step w wizard_goto_step
  | None =>
      match Base.management_current_step w (POST request) with
      | None => raise (ValidationError "missing_management_form")
      | Some form_current_step =>
          run sync_current_step w form_current_step;
          validate_and_store w request kwargs
      end
  end.

Definition post (w : Wizard) (request : Request) (kwargs : gmap string string)
    : M Response :=
  match variant w with
  | MultipleFormWizardView => MultipleFormWizardView_post w request kwargs
  | NamedUrlWizardView _ _ =>
      do goto <- read (accepted_goto w request);
      match goto with
      | Some wizard_goto_step => render_goto_step w wizard_goto_step
      | None => MultipleFormWizardView_post w request kwargs
      end
  end.

(** ** [get] *)

Definition MultipleFormWizardView_get (w : Wizard) : M Response :=
  run update Storage.reset;
  do first <- attempt (Base.steps_first w);
  run update (Storage.set_current_step (Some first));
  do forms <- attempt (get_forms w None None None);
  render w (FormList forms) ∅.

(** [self.render(self.get_form(data=self.storage.current_step_data,
    files=self.storage.current_step_files), **kwargs)]. *)
Definition render_stored_step (w : Wizard) (kwargs : gmap string string) : M Response :=
  do data <- read (fun st => Storage.get_step_data (current_step st) st);
  do files <- read (fun st => Storage.get_step_files (current_step st) st);
  do form <- attempt (Base.get_form w None data files);
  render w (OneForm form) kwargs.

Definition NamedUrlWizardView_get (w : Wizard) (url_name done_step_name : string)
    (request : Request) (kwargs : gmap string string) : M Response :=
  match kwargs !! "step" with
  | None =>
      run (if bool_decide (is_Some (GET request !! "reset"))
           then run update Storage.reset;
                do first <- attempt (Base.steps_first w);
                update (Storage.set_current_step (Some first))
           else ret tt);
      do current <- attempt (Base.steps_current w);
      redirect_to_step url_name (Some current) (GET request)
  | Some step_url =>
      if String.eqb step_url done_step_name then
        do last_step <- attempt (Base.steps_last w);
        do data <- read (Storage.get_step_data (Some last_step));
        do files <- read (Storage.get_step_files (Some last_step));
        do form <- attempt (Base.get_form w (Some last_step) data files);
        render_done w kwargs
      else
        do current <- attempt (Base.steps_current w);
        if String.eqb step_url current then render_stored_step w kwargs
        else
          do form_list <- read (Base.get_form_list w);
          if odict_mem step_url form_list then
            run update (Storage.set_current_step (Some step_url));
            render_stored_step w kwargs
          else
            do first <- attempt (Base.steps_first w);
            run update (Storage.set_current_step (Some first));
            do first <- attempt (Base.steps_first w);
            redirect_to_step url_name (Some first) ∅
  end.

Definition get (w : Wizard) (request : Request) (kwargs : gmap string string)
    : M Response :=
  match variant w with
  | MultipleFormWizardView => MultipleFormWizardView_get w
  | NamedUrlWizardView url_name done_step_name =>
      NamedUrlWizardView_get w url_name done_step_name request kwargs
  end.

(** ** Predicates used in the properties *)

(** [fields] has a file field. *)
Definition has_file_field (fields : list (string * Field)) : bool :=
  existsb (fun nf => is_FileField nf.2) fields.

(** The form [f] bound to other data and files. *)
Definition rebind (data files : option QueryDict) (f : FormObj) : FormObj :=
  mkForm (form_class f)
    (mkFormKwargs data files (kw_prefix (form_kwargs f)) (kw_initial (form_kwargs f))
       (kw_extra (form_kwargs f)))
    (_tag f).

(** The plain formset classes, made with [formset_factory]: they derive
    from [BaseFormSet] and not from [BaseModelFormSet]. *)
Definition is_plain_formset (c : FormClass) : bool :=
  issubclass_BaseFormSet c && negb (issubclass_BaseModelFormSet c).

(** The forms of a step are at most one, or all of them carry [_tag]. *)
Definition one_or_tagged (forms : list FormObj) : Prop :=
  length forms <= 1 \/ Forall (fun f => is_Some (_tag f)) forms.

(** A computation that leaves the world as it is, whatever it returns. *)
Definition quiet {A} (m : M A) : Prop := forall world, (m world).1 = world.

(** ** Example wizards

    Form classes, view configurations and storage contents used to run the
    views on concrete requests. *)
Module Examples.

(** Validation of a form that requires the field [field]: the bound data
    holds a value under the prefixed name. *)
Definition requires (field : string) (kw : FormKwargs) : bool :=
  match kw_data kw with
  | Some d => bool_decide (is_Some (d !! (kw_prefix kw +:+ "-" +:+ field)))
  | None => false
  end.

Definition ContactForm : FormClass :=
  FormCls "ContactForm" Form_ [("email", CharField)] (requires "email").

Definition AgeForm : FormClass :=
  FormCls "AgeForm" Form_ [("age", IntegerField)] (requires "age").

Definition UploadForm : FormClass :=
  FormCls "UploadForm" Form_ [("title", CharField); ("document", FileField)]
    (requires "title").

Definition UploadFormSet : FormClass :=
  FormSetCls "UploadFormSet" BaseFormSet_ UploadForm (requires "TOTAL_FORMS").

Definition AddressForm : FormClass :=
  FormCls "AddressForm" ModelForm_ [("street", CharField)] (requires "street").

Definition PersonForm : FormClass :=
  FormCls "PersonForm" ModelForm_ [("name", CharField)] (requires "name").

(** The hooks as the framework defines them: the prefix of a form is the
    name of its step, no extra keyword arguments. *)
Definition default_prefix (step : string) (form : FormClass) : string := step.
Definition no_kwargs (step : string) : gmap string PyObj := ∅.

(** A terminal callback that answers, and one that raises. *)
Definition done_ok (call : DoneCall) (st : WizardState) : WizardState * Res Response :=
  (st, Ok (HttpResponse "thanks")).

Definition done_raises (call : DoneCall) (st : WizardState) : WizardState * Res Response :=
  (st, Raise (CallbackError "could not save")).

Definition wizard_of (v : Variant) (steps : list (string * FormStruct))
    (done : DoneCall -> WizardState -> WizardState * Res Response) : Wizard :=
  mkWizard v "wizard" steps ∅ ∅ ∅ false no_kwargs default_prefix done.

Definition world_of (st : WizardState) : World := mkWorld st [].

(** A wizard with one step that holds two addresses, both collected with
    the form class [AddressForm]. *)
Definition two_addresses : Wizard :=
  wizard_of MultipleFormWizardView
    [("address", SDict {["billing" := AddressForm; "shipping" := AddressForm]})]
    done_ok.

(** The forms [get_forms] builds for that step from no data. *)
Definition address_form (tag : string) : FormObj :=
  mkForm AddressForm
    (mkFormKwargs None None "address" PyNone {["instance" := PyNone]}) (Some tag).

Definition billing_form : FormObj := address_form "billing".
Definition shipping_form : FormObj := address_form "shipping".

(** The URL-addressed wizard with the steps ["a"] and ["b"]. *)
Definition steps_a_b : Wizard :=
  wizard_of (NamedUrlWizardView "signup" "done")
    [("a", SClass ContactForm); ("b", SClass AgeForm)] done_ok.

Definition kwargs_done : gmap string string := {["step" := "done"]}.

(** Step ["a"] was submitted with valid data, step ["b"] never was. *)
Definition only_a_submitted : WizardState :=
  mkState (Some "b") {["a" := {["a-email" := "ada@example.org"]}]} ∅ ∅.

(** Both steps were submitted; the stored data of ["a"] then lost its
    field. *)
Definition a_corrupted : WizardState :=
  mkState (Some "b") {["a" := ∅; "b" := {["b-age" := "36"]}]} ∅ ∅.

(** The form rebuilt for the step ["b"] when nothing is stored for it. *)
Definition unbound_b : FormObj :=
  mkForm AgeForm (mkFormKwargs None None "b" (PyDict PyNil) ∅) None.

(** The same steps in the plain view, with a terminal callback that
    raises; both steps were submitted with valid data. *)
Definition steps_a_b_raising : Wizard :=
  wizard_of MultipleFormWizardView
    [("a", SClass ContactForm); ("b", SClass AgeForm)] done_raises.

Definition both_submitted : WizardState :=
  mkState (Some "b")
    {["a" := {["a-email" := "ada@example.org"]}; "b" := {["b-age" := "36"]}]} ∅ ∅.

Definition valid_a : FormObj :=
  mkForm ContactForm
    (mkFormKwargs (Some {["a-email" := "ada@example.org"]}) None "a" (PyDict PyNil) ∅)
    None.

Definition valid_b : FormObj :=
  mkForm AgeForm
    (mkFormKwargs (Some {["b-age" := "36"]}) None "b" (PyDict PyNil) ∅) None.

Definition call_a_b : DoneCall :=
  mkDoneCall [RForm valid_a; RForm valid_b]
    {["a" := RForm valid_a; "b" := RForm valid_b]} ∅.

(** A wizard whose first step is ["contact"] and whose second step is
    ["age"], both submitted with valid data. *)
Definition contact_then_age : Wizard :=
  wizard_of MultipleFormWizardView
    [("contact", SClass ContactForm); ("age", SClass AgeForm)] done_ok.

Definition contact_age_submitted : WizardState :=
  mkState (Some "age")
    {["contact" := {["contact-email" := "ada@example.org"]};
      "age" := {["age-age" := "36"]}]} ∅ ∅.

Definition valid_contact : FormObj :=
  mkForm ContactForm
    (mkFormKwargs (Some {["contact-email" := "ada@example.org"]}) None "contact"
       (PyDict PyNil) ∅) None.

Definition valid_age : FormObj :=
  mkForm AgeForm
    (mkFormKwargs (Some {["age-age" := "36"]}) None "age" (PyDict PyNil) ∅) None.

(** A wizard declared with eleven form classes without step names, all
    steps submitted with valid data. *)
Definition eleven_forms : list FormListEntry := replicate 11 (Bare (SClass ContactForm)).

Definition eleven_steps : Wizard :=
  wizard_of MultipleFormWizardView (compute_form_list eleven_forms) done_ok.

Definition data_of_step (k : string) : QueryDict := {[k +:+ "-email" := "ada@example.org"]}.

Definition eleven_submitted : WizardState :=
  mkState (Some "10")
    (list_to_map ((fun k => (k, data_of_step k)) <$> odict_keys (form_list eleven_steps)))
    ∅ ∅.

Definition valid_step (k : string) : FormObj :=
  mkForm ContactForm (mkFormKwargs (Some (data_of_step k)) None k (PyDict PyNil) ∅) None.

(** A wizard with one step, ["profile"], declared with a dictionary of
    two forms, and the same step declared with a dictionary of one
    form; the step was submitted with valid data. *)
Definition profile_two : Wizard :=
  wizard_of MultipleFormWizardView
    [("profile", SDict {["person" := PersonForm; "home" := AddressForm]})] done_ok.

Definition profile_one : Wizard :=
  wizard_of MultipleFormWizardView
    [("profile", SDict {["person" := PersonForm]})] done_ok.

Definition profile_data : QueryDict :=
  {["profile-name" := "Ada"; "profile-street" := "12 Mill Lane"]}.

Definition profile_submitted : WizardState :=
  mkState (Some "profile") {["profile" := profile_data]} ∅ ∅.

(** The form of class [c] that is rebuilt for the step, carrying
    [tag]. *)
Definition profile_form (c : FormClass) (tag : option string) : FormObj :=
  mkForm c
    (mkFormKwargs (Some profile_data) None "profile" PyNone {["instance" := PyNone]})
    tag.

Definition profile_mapping : gmap string FormObj :=
  {["person" := profile_form PersonForm None; "home" := profile_form AddressForm None]}.

Definition call_profile_two : DoneCall :=
  mkDoneCall [RForms profile_mapping] {["profile" := RForms profile_mapping]} ∅.

Definition call_profile_one : DoneCall :=
  mkDoneCall [RForm (profile_form PersonForm (Some "person"))]
    {["profile" := RForm (profile_form PersonForm (Some "person"))]} ∅.

(** A POST for the step ["contact"] without an e-mail address, sent
    while the storage is at the step ["age"]. *)
Definition post_contact_empty : Request :=
  mkRequest {["wizard-current_step" := "contact"]} ∅ ∅.

Definition contact_empty : FormObj :=
  mkForm ContactForm
    (mkFormKwargs (Some {["wizard-current_step" := "contact"]}) (Some ∅) "contact"
       (PyDict PyNil) ∅) None.

(** A GET of the address of the done view. *)
Definition get_done : Request := mkRequest ∅ ∅ ∅.

(** A POST that asks for the step ["a"]. *)
Definition post_goto_a : Request :=
  mkRequest {["wizard_goto_step" := "a"]} ∅ ∅.

(** The wizard is at its first step, ["a"], and nothing is stored; a POST
    submits the step with an e-mail address. *)
Definition at_step_a : WizardState := mkState (Some "a") ∅ ∅ ∅.

Definition post_a_valid : Request :=
  mkRequest {["wizard-current_step" := "a"; "a-email" := "ada@example.org"]} ∅ ∅.

Definition a_stored_at_b : WizardState :=
  mkState (Some "b") {["a" := POST post_a_valid]} {["a" := ∅]} ∅.

(** The second step, ["b"], is submitted with an age. *)
Definition post_b_valid : Request :=
  mkRequest {["wizard-current_step" := "b"; "b-age" := "36"]} ∅ ∅.

Definition a_b_stored : WizardState :=
  mkState (Some "b")
    {["a" := POST post_a_valid; "b" := POST post_b_valid]} {["a" := ∅; "b" := ∅]} ∅.

(** A wizard whose only step is declared with a plain formset class. *)
Definition uploads_only : Wizard :=
  wizard_of MultipleFormWizardView [("uploads", SClass UploadFormSet)] done_ok.

Definition post_uploads : Request :=
  mkRequest {["wizard-current_step" := "uploads"; "uploads-TOTAL_FORMS" := "1"]} ∅ ∅.

(** The URL-addressed wizard whose last step, ["profile"], is declared
    with a dictionary of two forms; the step ["a"] was submitted with
    valid data and ["profile"] never was. *)
Definition a_then_profile : Wizard :=
  wizard_of (NamedUrlWizardView "signup" "done")
    [("a", SClass ContactForm);
     ("profile", SDict {["person" := PersonForm; "home" := AddressForm]})] done_ok.

Definition a_submitted_at_profile : WizardState :=
  mkState (Some "profile") {["a" := {["a-email" := "ada@example.org"]}]} ∅ ∅.

(** A wizard whose only step is declared with a dictionary that holds a
    [forms.Form] class next to a [ModelForm] class. *)
Definition person_and_contact : Wizard :=
  wizard_of MultipleFormWizardView
    [("profile", SDict {["person" := PersonForm; "contact" := ContactForm]})] done_ok.

(** A view class that declares its steps in the attribute [form_list]
    and has no [file_storage]. *)
Definition signup_view : ViewClass :=
  mkViewClass false
    [Pair "contact" (SClass ContactForm); Bare (SClass AgeForm);
     Pair "contact" (SClass AgeForm)] ∅ ∅ ∅.

(** A wizard with an upload step followed by the step ["age"]; the view
    has no file storage, or has one.  A POST submits the upload step with
    a title and a file. *)
Definition upload_then_age (file_storage : bool) : Wizard :=
  mkWizard MultipleFormWizardView "wizard"
    [("upload", SClass UploadForm); ("age", SClass AgeForm)] ∅ ∅ ∅ file_storage
    no_kwargs default_prefix done_ok.

Definition at_upload : WizardState := mkState (Some "upload") ∅ ∅ ∅.

Definition post_upload : Request :=
  mkRequest {["wizard-current_step" := "upload"; "upload-title" := "Report"]}
    {["upload-document" := "report.pdf"]} ∅.

Definition upload_form : FormObj :=
  mkForm UploadForm
    (mkFormKwargs (Some (POST post_upload)) (Some (FILES post_upload)) "upload"
       (PyDict PyNil) ∅) None.

Definition unbound_age : FormObj :=
  mkForm AgeForm (mkFormKwargs None None "age" (PyDict PyNil) ∅) None.

End Examples.

(** * Properties *)

(** ** Ordered dictionaries *)

Lemma odict_set_length {V} (k : string) (v : V) (d : list (string * V)) :
  length (odict_set k v d) <= S (length d).
Proof.
  induction d as [|[k' v'] d IH]; simpl; [lia|].
  destruct (String.eqb k k'); simpl; lia.
Qed.

Lemma odict_get_set_eq {V} (k : string) (v : V) (d : list (string * V)) :
  odict_get k (odict_set k v d) = Some v.
Proof.
  induction d as [|[k' v'] d IH]; simpl.
  - by rewrite String.eqb_refl.
  - destruct (String.eqb k k') eqn:E; simpl.
    + by rewrite String.eqb_refl.
    + by rewrite E.
Qed.

Lemma odict_get_set_ne {V} (k k0 : string) (v : V) (d : list (string * V)) :
  k0 ≠ k -> odict_get k0 (odict_set k v d) = odict_get k0 d.
Proof.
  intros Hne. induction d as [|[k' v'] d IH]; simpl.
  - destruct (String.eqb k0 k) eqn:E; [|done].
    by apply String.eqb_eq in E.
  - destruct (String.eqb k k') eqn:E; simpl.
    + apply String.eqb_eq in E. subst k'.
      destruct (String.eqb k0 k) eqn:E'; [|done].
      by apply String.eqb_eq in E'.
    + by rewrite IH.
Qed.

Lemma odict_keys_set {V} (k : string) (v : V) (d : list (string * V)) :
  odict_keys (odict_set k v d) =
  if odict_mem k d then odict_keys d else odict_keys d ++ [k].
Proof.
  unfold odict_mem, odict_keys. induction d as [|[k' v'] d IH]; simpl; [done|].
  destruct (String.eqb k k') eqn:E; simpl.
  - apply String.eqb_eq in E. by subst.
  - rewrite IH. by destruct (odict_get k d).
Qed.

Lemma odict_mem_keys {V} (k : string) (d : list (string * V)) :
  odict_mem k d = true <-> k ∈ odict_keys d.
Proof.
  unfold odict_mem, odict_keys. induction d as [|[k' v'] d IH]; simpl.
  - split; [done|]. by intros ?%elem_of_nil.
  - destruct (String.eqb k k') eqn:E.
    + apply String.eqb_eq in E. subst. split; [|done]. intros _. apply elem_of_cons. by left.
    + apply String.eqb_neq in E. rewrite IH, elem_of_cons.
      split; [by right|]. by intros [?|?].
Qed.

Lemma odict_keys_set_NoDup {V} (k : string) (v : V) (d : list (string * V)) :
  NoDup (odict_keys d) -> NoDup (odict_keys (odict_set k v d)).
Proof.
  intros Hnd. rewrite odict_keys_set.
  destruct (odict_mem k d) eqn:E; [done|].
  apply NoDup_app. split_and!; [done| |apply NoDup_singleton].
  intros x Hx ->%list_elem_of_singleton.
  apply odict_mem_keys in Hx. congruence.
Qed.

(** ** [get_initkwargs] *)

Lemma add_step_length (i : nat) (form : FormListEntry) (acc : list (string * FormStruct)) :
  length (add_step i form acc) <= S (length acc).
Proof.
  destruct form as [f|name [c|d]]; simpl; try apply odict_set_length.
  destruct (issubclass_Form c); [apply odict_set_length|lia].
Qed.

Lemma walk_form_list_length (i : nat) (l : list FormListEntry)
    (acc : list (string * FormStruct)) :
  length (walk_form_list i l acc) <= length acc + length l.
Proof.
  revert i acc. induction l as [|e l IH]; intros i acc; simpl; [lia|].
  specialize (IH (S i) (add_step i e acc)).
  pose proof (add_step_length i e acc). lia.
Qed.

Lemma walk_form_list_app (i : nat) (l1 l2 : list FormListEntry)
    (acc : list (string * FormStruct)) :
  walk_form_list i (l1 ++ l2) acc =
  walk_form_list (i + length l1) l2 (walk_form_list i l1 acc).
Proof.
  revert i acc. induction l1 as [|e l1 IH]; intros i acc; simpl.
  - by rewrite Nat.add_0_r.
  - rewrite IH. f_equal. lia.
Qed.

(** An empty [form_list] is refused. *)
Lemma get_initkwargs_empty (has_file_storage : bool)
    (initial instance : gmap string PyObj) (cond : gmap string (WizardState -> bool)) :
  get_initkwargs has_file_storage [] initial instance cond =
  Raise (AssertionError "at least one form is needed").
Proof. reflexivity. Qed.

(** A file field among the forms the second loop looks at is refused when
    the view class has no [file_storage]. *)
Lemma check_fields_file (fields : list (string * Field)) :
  Exists (fun nf => is_FileField nf.2 = true) fields ->
  check_fields false fields = Raise NoFileStorageConfigured.
Proof.
  induction 1 as [[n f] fields Hf|[n f] fields _ IH]; simpl in *.
  - by rewrite Hf.
  - rewrite IH. by destruct (is_FileField f).
Qed.

(** A step declared with a form class that is not a formset contributes no
    form to the file-field check. *)
Lemma form_collection_of_form (name : string) (base : FormBase)
    (fields : list (string * Field)) (clean : FormKwargs -> bool) :
  form_collection_of (SClass (FormCls name base fields clean)) = [].
Proof. reflexivity. Qed.

(** C10. In [get_initkwargs] an element [(step_name, X)] where [X] is a
    class that does not derive from [forms.Form] (a formset class, a
    [ModelForm]) is skipped without an error: the loop body leaves the
    computed form list as it was, the steps are those of the other
    elements, the step collection is shorter than the declared list, and
    declared on its own the element gives a configuration without any
    step, whatever the fields of [X] and without [file_storage]. *)
Theorem pair_without_Form_class_is_skipped
    (l1 l2 : list FormListEntry) (step_name : string) (X : FormClass)
    (has_file_storage : bool) (initial instance : gmap string PyObj)
    (cond : gmap string (WizardState -> bool)) :
  issubclass_Form X = false ->
  (forall i acc, add_step i (Pair step_name (SClass X)) acc = acc) /\
  compute_form_list (l1 ++ Pair step_name (SClass X) :: l2) =
    walk_form_list (S (length l1)) l2 (compute_form_list l1) /\
  length (compute_form_list (l1 ++ Pair step_name (SClass X) :: l2)) <
    length (l1 ++ Pair step_name (SClass X) :: l2) /\
  get_initkwargs has_file_storage [Pair step_name (SClass X)] initial instance cond =
    Ok (mkInitKwargs [] initial instance cond).
Proof.
  intros HX.
  assert (Hskip : forall i acc, add_step i (Pair step_name (SClass X)) acc = acc).
  { intros i acc. simpl. by rewrite HX. }
  assert (Hwalk : compute_form_list (l1 ++ Pair step_name (SClass X) :: l2) =
                  walk_form_list (S (length l1)) l2 (compute_form_list l1)).
  { unfold compute_form_list. rewrite walk_form_list_app. cbn [walk_form_list].
    rewrite Hskip. f_equal. }
  split_and!; [done|done| |].
  - rewrite Hwalk, length_app. simpl.
    pose proof (walk_form_list_length (S (length l1)) l2 (compute_form_list l1)).
    pose proof (walk_form_list_length 0 l1 []). unfold compute_form_list in *.
    simpl in *. lia.
  - unfold get_initkwargs, compute_form_list. simpl. by rewrite HX.
Qed.

Lemma pair_without_Form_class_is_skipped_witness :
  issubclass_Form Examples.UploadFormSet = false /\
  compute_form_list
    ([Bare (SClass Examples.ContactForm)] ++
     Pair "uploads" (SClass Examples.UploadFormSet) :: [Bare (SClass Examples.AgeForm)]) =
  [("0", SClass Examples.ContactForm); ("2", SClass Examples.AgeForm)].
Proof.
  split; [reflexivity|].
  destruct (pair_without_Form_class_is_skipped
              [Bare (SClass Examples.ContactForm)] [Bare (SClass Examples.AgeForm)]
              "uploads" Examples.UploadFormSet false ∅ ∅ ∅ eq_refl)
    as (_ & -> & _).
  reflexivity.
Defined.

(** C9, at the failing input.  A view class without [file_storage] is
    configured with one step, the form class [UploadForm], which has a
    file field: [get_initkwargs] returns the configuration.  The same form
    class is refused as a sub-form of a dictionary step and as the item
    form of a formset. *)
Theorem single_form_file_field_is_not_checked :
  get_initkwargs false [Bare (SClass Examples.UploadForm)] ∅ ∅ ∅ =
    Ok (mkInitKwargs [("0", SClass Examples.UploadForm)] ∅ ∅ ∅) /\
  get_initkwargs false [Pair "upload" (SClass Examples.UploadForm)] ∅ ∅ ∅ =
    Ok (mkInitKwargs [("upload", SClass Examples.UploadForm)] ∅ ∅ ∅) /\
  get_initkwargs false [Pair "upload" (SDict {["file" := Examples.UploadForm]})] ∅ ∅ ∅ =
    Raise NoFileStorageConfigured /\
  get_initkwargs false [Bare (SClass Examples.UploadFormSet)] ∅ ∅ ∅ =
    Raise NoFileStorageConfigured.
Proof. split_and!; vm_compute; reflexivity. Qed.

(** ** [get_forms] *)

(** What the loop over the entries of a dictionary step builds: one form
    per entry, in order, tagged with the entry's name, of the entry's
    class, bound to the given data and files, with the prefix that
    [get_form_prefix] gives for the step and the class. *)
Lemma build_tagged_forms_Forall2 (w : Wizard) (step : string)
    (data files : option QueryDict) (ini inst : PyObj)
    (items : list (string * FormClass)) (forms : list FormObj) :
  build_tagged_forms w step data files ini inst items = Ok forms ->
  Forall2 (fun item f =>
             _tag f = Some item.1 /\ form_class f = item.2 /\
             kw_data (form_kwargs f) = data /\ kw_files (form_kwargs f) = files /\
             kw_prefix (form_kwargs f) = get_form_prefix w step item.2)
          items forms.
Proof.
  revert forms. induction items as [|[form_name form_class] items IH]; intros forms; simpl.
  - intros [= <-]. constructor.
  - destruct (get_if_truthy ini form_name) as [initial|]; simpl; [|done].
    destruct (get_if_truthy inst form_name) as [instance|]; simpl; [|done].
    destruct (accepts_instance form_class); simpl; [|done].
    destruct (build_tagged_forms w step data files ini inst items) as [rest|]; simpl; [|done].
    intros [= <-]. constructor; [done|]. by apply IH.
Qed.

(** C7, as amended.  In a step declared with a dictionary, [get_forms]
    builds exactly one form per tag, and the prefix of each form is
    [get_form_prefix(step, form_class)]: it is determined by the step name
    and the class of the sub-form, the tag takes no part in it, so two
    sub-forms of the same class receive the same prefix. *)
Theorem grouped_prefix_from_step_and_class
    (w : Wizard) (step : string) (d : gmap string FormClass)
    (data files : option QueryDict) (st : WizardState) (forms : list FormObj) :
  odict_get step (form_list w) = Some (SDict d) ->
  get_forms w (Some step) data files st = Ok forms ->
  (forall tag c, d !! tag = Some c <->
     exists f, f ∈ forms /\ _tag f = Some tag /\ form_class f = c) /\
  (forall f, f ∈ forms ->
     kw_prefix (form_kwargs f) = get_form_prefix w step (form_class f)) /\
  (forall f1 f2, f1 ∈ forms -> f2 ∈ forms -> form_class f1 = form_class f2 ->
     kw_prefix (form_kwargs f1) = kw_prefix (form_kwargs f2)).
Proof.
  intros Hstep Hforms. unfold get_forms in Hforms. simpl in Hforms.
  rewrite Hstep in Hforms. apply build_tagged_forms_Forall2 in Hforms.
  assert (Hprefix : forall f, f ∈ forms ->
            kw_prefix (form_kwargs f) = get_form_prefix w step (form_class f)).
  { intros f Hf. apply list_elem_of_lookup in Hf as [i Hi].
    destruct (Forall2_lookup_r _ _ _ _ _ Hforms Hi) as ([tag c] & _ & _ & Hc & _ & _ & Hp).
    simpl in *. by rewrite Hc. }
  split_and!; [|done|].
  - intros tag c. rewrite <- elem_of_map_to_list. split.
    + intros Hin. apply list_elem_of_lookup in Hin as [i Hi].
      destruct (Forall2_lookup_l _ _ _ _ _ Hforms Hi) as (f & Hf & Ht & Hc & _).
      exists f. split_and!; [|done|done]. apply list_elem_of_lookup. eauto.
    + intros (f & Hf & Ht & Hc). apply list_elem_of_lookup in Hf as [i Hi].
      destruct (Forall2_lookup_r _ _ _ _ _ Hforms Hi) as ([tag' c'] & Hi' & Ht' & Hc' & _).
      simpl in *. assert (tag' = tag) by congruence. subst.
      apply list_elem_of_lookup. eauto.
  - intros f1 f2 H1 H2 Hc. by rewrite (Hprefix f1), (Hprefix f2), Hc.
Qed.

Lemma grouped_prefix_from_step_and_class_witness :
  kw_prefix (form_kwargs Examples.shipping_form) =
    Examples.default_prefix "address" (form_class Examples.shipping_form) /\
  kw_prefix (form_kwargs Examples.shipping_form) =
    kw_prefix (form_kwargs Examples.billing_form).
Proof.
  destruct (grouped_prefix_from_step_and_class Examples.two_addresses "address"
              {["billing" := Examples.AddressForm; "shipping" := Examples.AddressForm]}
              None None Storage.init [Examples.shipping_form; Examples.billing_form])
    as (_ & Hprefix & Hsame); [vm_compute; reflexivity..|].
  split.
  - apply Hprefix, elem_of_cons. by left.
  - apply Hsame; [apply elem_of_cons; by left| |reflexivity].
    apply elem_of_cons. right. apply elem_of_cons. by left.
Defined.

(** C7, as stated, fails: the two forms of the step ["address"], built for
    the tags ["billing"] and ["shipping"], both have the prefix
    ["address"]. *)
Lemma grouped_forms_share_prefix :
  get_forms Examples.two_addresses (Some "address") None None Storage.init =
    Ok [Examples.shipping_form; Examples.billing_form] /\
  _tag Examples.billing_form ≠ _tag Examples.shipping_form /\
  kw_prefix (form_kwargs Examples.billing_form) =
    kw_prefix (form_kwargs Examples.shipping_form) /\
  ~ distinct_prefixes [Examples.shipping_form; Examples.billing_form].
Proof.
  split_and!; [vm_compute; reflexivity|done|done|].
  unfold distinct_prefixes. simpl. intros Hnd.
  apply NoDup_cons in Hnd as [Hnotin _]. apply Hnotin. apply elem_of_cons. by left.
Qed.

(** ** Rendering leaves the world alone *)

Lemma get_context_data_world (w : Wizard) (forms : FormsArg)
    (kwargs : gmap string string) (world : World) :
  (get_context_data w forms kwargs world).1 = world.
Proof.
  unfold get_context_data, MultipleFormWizardView_get_context_data.
  destruct (variant w); unfold_monad; [|done].
  by destruct (Base.steps_current w (storage world)).
Qed.

Lemma render_world (w : Wizard) (forms : FormsArg) (kwargs : gmap string string)
    (world : World) :
  (render w forms kwargs world).1 = world.
Proof.
  unfold render. unfold bind at 1.
  assert (Hctx : forall fs,
            (bind (get_context_data w fs kwargs)
               (fun context => ret (TemplateResponse context)) world).1 = world).
  { intros fs. pose proof (get_context_data_world w fs kwargs world) as H.
    unfold bind, ret. destruct (get_context_data w fs kwargs world) as [w' [c|e]];
      simpl in *; by subst. }
  destruct (forms_truthy forms).
  - unfold ret at 1. apply Hctx.
  - unfold bind at 1, attempt, ret.
    destruct (get_forms w None None None (storage world)); [apply Hctx|done].
Qed.

Lemma redirect_to_step_world (url_name : string) (step : option string)
    (query : QueryDict) (world : World) :
  (redirect_to_step url_name step query world).1 = world.
Proof. by destruct step. Qed.

(** The revalidation-failure handler sets the stored current step to the
    failed step and does nothing else to the world. *)
Lemma render_revalidation_failure_world (w : Wizard) (failed_step : string)
    (form : FormObj) (kwargs : gmap string string) (world : World) :
  (render_revalidation_failure w failed_step form kwargs world).1 =
  mkWorld (Storage.set_current_step (Some failed_step) (storage world))
    (done_calls world).
Proof.
  unfold render_revalidation_failure.
  destruct (variant w); unfold bind, update; simpl.
  - apply render_world.
  - reflexivity.
Qed.

(** In the URL-addressed view the handler answers with a redirect to the
    address of the failed step. *)
Lemma render_revalidation_failure_redirects (w : Wizard) (url_name done_step_name : string)
    (failed_step : string) (form : FormObj) (kwargs : gmap string string)
    (world : World) :
  variant w = NamedUrlWizardView url_name done_step_name ->
  render_revalidation_failure w failed_step form kwargs world =
  (mkWorld (Storage.set_current_step (Some failed_step) (storage world))
     (done_calls world),
   Ok (HttpResponseRedirect url_name failed_step ∅)).
Proof. intros Hv. unfold render_revalidation_failure. by rewrite Hv. Qed.

(** ** [render_done], case by case *)

Lemma render_done_cases (w : Wizard) (kwargs : gmap string string) (world : World) :
  MultipleFormWizardView_render_done w kwargs world = render_done_outcome w kwargs world.
Proof.
  unfold MultipleFormWizardView_render_done, render_done_outcome.
  destruct world as [st calls]. unfold bind at 1, read. simpl.
  unfold bind at 1, attempt. simpl.
  destruct (revalidate w _ [] st) as [[[k f]|ff]|e]; [done| |done].
  unfold bind at 1, lift.
  destruct (collect_results ff ∅) as [rf|e]; [|done].
  unfold bind at 1, lift.
  destruct (result_list rf) as [fl|e]; [|done].
  unfold bind at 1, call_done. simpl.
  destruct (done w (mkDoneCall fl rf kwargs) st) as [st' [r|e]]; [|done].
  reflexivity.
Qed.

(** The calls of [done] that a run of [render_done] adds: none, or one. *)
Lemma render_done_calls (w : Wizard) (kwargs : gmap string string) (world : World) :
  let out := MultipleFormWizardView_render_done w kwargs world in
  done_calls out.1 = done_calls world \/
  exists final_forms result_forms form_list,
    revalidate w (odict_keys (Base.get_form_list w (storage world))) [] (storage world) =
      Ok (inr final_forms) /\
    collect_results final_forms ∅ = Ok result_forms /\
    result_list result_forms = Ok form_list /\
    done_calls out.1 = done_calls world ++ [mkDoneCall form_list result_forms kwargs].
Proof.
  simpl. rewrite render_done_cases. unfold render_done_outcome.
  destruct (revalidate w _ [] (storage world)) as [[[k f]|ff]|e] eqn:Hrev; [| |by left].
  - left. by rewrite render_revalidation_failure_world.
  - destruct (collect_results ff ∅) as [rf|e] eqn:Hrf; [|by left].
    destruct (result_list rf) as [fl|e] eqn:Hfl; [|by left].
    right. exists ff, rf, fl. split_and!; try done.
    destruct (done w (mkDoneCall fl rf kwargs) (storage world)) as [st' [r|e]]; reflexivity.
Qed.

(** ** The revalidation loop *)

Lemma first_invalid_None (forms : list FormObj) :
  first_invalid forms = None <-> forallb is_valid forms = true.
Proof.
  induction forms as [|f forms IH]; simpl; [done|].
  destruct (is_valid f); simpl; [done|]. split; discriminate.
Qed.

Lemma first_invalid_Some (forms : list FormObj) (f : FormObj) :
  first_invalid forms = Some f -> f ∈ forms /\ is_valid f = false.
Proof.
  induction forms as [|f0 forms IH]; simpl; [done|].
  destruct (is_valid f0) eqn:E.
  - intros H. destruct (IH H). split; [|done]. apply elem_of_cons. by right.
  - intros [= <-]. split; [|done]. apply elem_of_cons. by left.
Qed.

(** The loop stops at the first step that has a form that is not valid. *)
Lemma revalidate_first_failure (w : Wizard) (st : WizardState)
    (keys1 : list string) (k : string) (keys2 : list string) (f : FormObj)
    (acc : list (string * list FormObj)) :
  forallb (revalidates w st) keys1 = true ->
  failing_form w st k = Some f ->
  revalidate w (keys1 ++ k :: keys2) acc st = Ok (inl (k, f)).
Proof.
  unfold revalidates, failing_form, stored_forms.
  intros Hvalid Hfail. revert acc.
  induction keys1 as [|k1 keys1 IH]; intros acc; simpl in *.
  - destruct (get_forms w (Some k) _ _ st) as [forms|]; [|done]. simpl.
    by rewrite Hfail.
  - apply andb_prop in Hvalid as [H1 Hrest].
    destruct (get_forms w (Some k1) _ _ st) as [forms|]; [|done]. simpl.
    apply first_invalid_None in H1. rewrite H1. by apply IH.
Qed.

(** C1, as amended.  Finalize rebuilds and revalidates the steps in the
    order of the step collection.  When the steps before [k] revalidate and
    [f] is the first form of step [k] that is not valid, [render_done]
    ends in the revalidation-failure handling of [k] and [f]; the terminal
    callback is not called; the stored data, files and extra data are those
    of before, and the stored current step is now [k]. *)
Theorem first_failing_step_aborts_finalize
    (w : Wizard) (kwargs : gmap string string) (world : World)
    (keys1 : list string) (k : string) (keys2 : list string) (f : FormObj) :
  odict_keys (Base.get_form_list w (storage world)) = keys1 ++ k :: keys2 ->
  forallb (revalidates w (storage world)) keys1 = true ->
  failing_form w (storage world) k = Some f ->
  let out := MultipleFormWizardView_render_done w kwargs world in
  out = render_revalidation_failure w k f kwargs world /\
  done_calls out.1 = done_calls world /\
  storage out.1 = Storage.set_current_step (Some k) (storage world) /\
  step_data (storage out.1) = step_data (storage world) /\
  step_files (storage out.1) = step_files (storage world) /\
  extra_data (storage out.1) = extra_data (storage world).
Proof.
  intros Hkeys Hvalid Hfail out.
  assert (Hout : out = render_revalidation_failure w k f kwargs world).
  { unfold out. rewrite render_done_cases. unfold render_done_outcome.
    by rewrite Hkeys, (revalidate_first_failure w _ keys1 k keys2 f []). }
  split; [done|]. rewrite Hout, render_revalidation_failure_world. by simpl.
Qed.

Lemma first_failing_step_aborts_finalize_witness :
  let out :=
    MultipleFormWizardView_render_done Examples.steps_a_b Examples.kwargs_done
      (Examples.world_of Examples.only_a_submitted) in
  done_calls out.1 = [] /\
  storage out.1 = Storage.set_current_step (Some "b") Examples.only_a_submitted.
Proof.
  destruct (first_failing_step_aborts_finalize Examples.steps_a_b Examples.kwargs_done
              (Examples.world_of Examples.only_a_submitted)
              ["a"] "b" [] Examples.unbound_b)
    as (_ & Hcalls & Hst & _); [vm_compute; reflexivity..|].
  split; [exact Hcalls|exact Hst].
Defined.

(** C1, as stated, fails: finalize of the wizard with the steps ["a"] and
    ["b"], with the stored data of ["a"] corrupted and ["b"] the stored
    current step, changes the storage: the stored current step becomes
    ["a"]. *)
Lemma revalidation_failure_changes_current_step :
  render_done Examples.steps_a_b Examples.kwargs_done
    (Examples.world_of Examples.a_corrupted) =
  (Examples.world_of (Storage.set_current_step (Some "a") Examples.a_corrupted),
   Ok (HttpResponseRedirect "signup" "a" ∅)) /\
  current_step Examples.a_corrupted = Some "b" /\
  Storage.set_current_step (Some "a") Examples.a_corrupted ≠ Examples.a_corrupted.
Proof.
  split_and!; [vm_compute; reflexivity|reflexivity|].
  intros H. apply (f_equal current_step) in H. discriminate H.
Qed.

(** ** The terminal callback and the reset *)

Lemma app_singleton_neq {A} (l : list A) (x : A) : l ≠ l ++ [x].
Proof.
  intros H. apply (f_equal length) in H. rewrite length_app in H. simpl in H. lia.
Qed.

(** C4, as amended.  [render_done] resets the storage after the terminal
    callback has returned, and then returns the callback's response.  When
    the callback raises, the exception leaves [render_done] at once: the
    storage is as the callback left it, not reset.  A run that does not
    reach the callback leaves the stored data, files and extra data in
    place. *)
Theorem reset_after_callback_returns
    (w : Wizard) (kwargs : gmap string string) (world : World) :
  let out := MultipleFormWizardView_render_done w kwargs world in
  (forall call, done_calls out.1 = done_calls world ++ [call] ->
     match done w call (storage world) with
     | (st', Ok response) =>
         out = (mkWorld Storage.init (done_calls world ++ [call]), Ok response)
     | (st', Raise e) =>
         out = (mkWorld st' (done_calls world ++ [call]), Raise e)
     end) /\
  (done_calls out.1 = done_calls world ->
     step_data (storage out.1) = step_data (storage world) /\
     step_files (storage out.1) = step_files (storage world) /\
     extra_data (storage out.1) = extra_data (storage world)).
Proof.
  simpl. rewrite render_done_cases. unfold render_done_outcome.
  destruct (revalidate w _ [] (storage world)) as [[[k f]|ff]|e].
  - rewrite render_revalidation_failure_world. simpl. split; [|done].
    by intros call ?%app_singleton_neq.
  - destruct (collect_results ff ∅) as [rf|e];
      [|split; [by intros call ?%app_singleton_neq|done]].
    destruct (result_list rf) as [fl|e];
      [|split; [by intros call ?%app_singleton_neq|done]].
    destruct (done w (mkDoneCall fl rf kwargs) (storage world)) as [st' [r|e]] eqn:Hdone;
      simpl; (split; [|by intros ?%eq_sym%app_singleton_neq]);
      intros call [= <-]%app_inv_head; by rewrite Hdone.
  - split; [by intros call ?%app_singleton_neq|done].
Qed.

Lemma reset_after_callback_returns_witness :
  MultipleFormWizardView_render_done Examples.steps_a_b_raising ∅
    (Examples.world_of Examples.both_submitted) =
  (mkWorld Examples.both_submitted [Examples.call_a_b],
   Raise (CallbackError "could not save")).
Proof.
  refine (proj1 (reset_after_callback_returns Examples.steps_a_b_raising ∅
                   (Examples.world_of Examples.both_submitted))
            Examples.call_a_b _).
  vm_compute; reflexivity.
Defined.

(** C4, as stated, fails: the terminal callback raises, the exception
    leaves [render_done], and the storage still holds the current step and
    the data of both steps. *)
Lemma callback_exception_skips_reset :
  MultipleFormWizardView_render_done Examples.steps_a_b_raising ∅
    (Examples.world_of Examples.both_submitted) =
  (mkWorld Examples.both_submitted [Examples.call_a_b],
   Raise (CallbackError "could not save")) /\
  Examples.both_submitted ≠ Storage.reset Examples.both_submitted.
Proof.
  split; [vm_compute; reflexivity|].
  intros H. apply (f_equal current_step) in H. discriminate H.
Qed.

(** ** The order of the result list *)

(** C2, at the failing input.  The wizard declares the step ["contact"]
    first and the step ["age"] second; both revalidate.  The list given to
    the terminal callback holds the form of ["age"] first and the form of
    ["contact"] second: it is ordered by the text of the step names. *)
Theorem result_list_follows_step_names :
  odict_keys (form_list Examples.contact_then_age) = ["contact"; "age"] /\
  MultipleFormWizardView_render_done Examples.contact_then_age ∅
    (Examples.world_of Examples.contact_age_submitted) =
  (mkWorld Storage.init
     [mkDoneCall [RForm Examples.valid_age; RForm Examples.valid_contact]
        {["contact" := RForm Examples.valid_contact; "age" := RForm Examples.valid_age]}
        ∅],
   Ok (HttpResponse "thanks")).
Proof. split; [reflexivity|vm_compute; reflexivity]. Qed.

(** With eleven steps named by their counters ["0"] to ["10"], the form
    of the last step, ["10"], is third in the list given to the terminal
    callback. *)
Lemma eleventh_step_comes_third :
  odict_keys (form_list Examples.eleven_steps) =
    ["0"; "1"; "2"; "3"; "4"; "5"; "6"; "7"; "8"; "9"; "10"] /\
  dc_form_list <$>
    done_calls (MultipleFormWizardView_render_done Examples.eleven_steps ∅
                  (Examples.world_of Examples.eleven_submitted)).1 =
  [RForm <$> (Examples.valid_step <$>
     ["0"; "1"; "10"; "2"; "3"; "4"; "5"; "6"; "7"; "8"; "9"])].
Proof. split; vm_compute; reflexivity. Qed.

Lemma insert_sorted_perm (k : string) (l : list string) : insert_sorted k l ≡ₚ k :: l.
Proof.
  induction l as [|k' l IH]; simpl; [done|].
  destruct (String.leb k k'); [done|].
  rewrite IH. apply Permutation_swap.
Qed.

Lemma sorted_perm (l : list string) : sorted l ≡ₚ l.
Proof.
  induction l as [|k l IH]; simpl; [done|].
  by rewrite insert_sorted_perm, IH.
Qed.

Lemma lookup_each_Forall2 (rf : gmap string StepResult) (keys : list string)
    (fl : list StepResult) :
  lookup_each rf keys = Ok fl ->
  Forall2 (fun k r => rf !! k = Some r) keys fl.
Proof.
  revert fl. induction keys as [|k keys IH]; intros fl; simpl.
  - intros [= <-]. constructor.
  - destruct (rf !! k) as [r|] eqn:Hk; [|done].
    destruct (lookup_each rf keys) as [rs|]; simpl; [|done].
    intros [= <-]. constructor; [done|]. by apply IH.
Qed.

(** Each entry of [result_forms] has its slot in the result list, at the
    position of its key among the sorted keys. *)
Lemma result_list_slot (rf : gmap string StepResult) (fl : list StepResult)
    (k : string) (r : StepResult) :
  result_list rf = Ok fl -> rf !! k = Some r ->
  exists i, sorted (map_to_list rf).*1 !! i = Some k /\ fl !! i = Some r.
Proof.
  unfold result_list. intros Hfl%lookup_each_Forall2 Hk.
  assert (Hin : k ∈ sorted (map_to_list rf).*1).
  { rewrite sorted_perm. apply list_elem_of_fmap. exists (k, r).
    split; [done|]. by apply elem_of_map_to_list. }
  apply list_elem_of_lookup in Hin as [i Hi]. exists i. split; [done|].
  destruct (Forall2_lookup_l _ _ _ _ _ Hfl Hi) as (r' & Hr' & Hk').
  congruence.
Qed.

(** ** Assembling the results *)

Lemma odict_get_not_key {V} (k : string) (d : list (string * V)) :
  k ∉ odict_keys d -> odict_get k d = None.
Proof.
  intros Hk. destruct (odict_get k d) eqn:E; [|done].
  exfalso. apply Hk, odict_mem_keys. unfold odict_mem. by rewrite E.
Qed.

(** [final_forms] after the revalidation loop: every step of the loop maps
    to its rebuilt forms, which are all valid. *)
Lemma revalidate_final_forms (w : Wizard) (st : WizardState) (keys : list string)
    (acc ff : list (string * list FormObj)) :
  revalidate w keys acc st = Ok (inr ff) ->
  NoDup (odict_keys acc) ->
  NoDup (odict_keys ff) /\
  forall k,
    (k ∈ keys -> exists forms,
       stored_forms w st k = Ok forms /\ forallb is_valid forms = true /\
       odict_get k ff = Some forms) /\
    (k ∉ keys -> odict_get k ff = odict_get k acc).
Proof.
  revert acc. induction keys as [|key keys IH]; intros acc; simpl.
  - intros [= <-] Hnd. split; [done|]. intros k. split; [by intros ?%elem_of_nil|done].
  - destruct (get_forms w (Some key) _ _ st) as [forms|] eqn:Hforms; simpl; [|done].
    destruct (first_invalid forms) eqn:Hvalid; [done|].
    intros Hrec Hnd.
    destruct (IH _ Hrec (odict_keys_set_NoDup key forms acc Hnd)) as [Hff Hlook].
    split; [done|]. intros k. split.
    + intros Hk. destruct (decide (k ∈ keys)) as [Hin|Hnotin]; [by apply Hlook|].
      apply elem_of_cons in Hk as [->|?]; [|done].
      exists forms. split_and!; [done|by apply first_invalid_None|].
      destruct (Hlook key) as [_ Hkey]. rewrite Hkey by done. apply odict_get_set_eq.
    + intros Hk. apply not_elem_of_cons in Hk as [Hne Hnotin].
      destruct (Hlook k) as [_ Hk']. rewrite Hk' by done. by apply odict_get_set_ne.
Qed.

(** The entry of [result_forms] for a step, by the number of its forms. *)
Lemma collect_results_lookup (ff : list (string * list FormObj))
    (acc rf : gmap string StepResult) (k : string) :
  NoDup (odict_keys ff) -> collect_results ff acc = Ok rf ->
  match odict_get k ff with
  | None | Some [] => rf !! k = acc !! k
  | Some [f] => rf !! k = Some (RForm f)
  | Some forms => exists d, collect_tagged forms ∅ = Ok d /\ rf !! k = Some (RForms d)
  end.
Proof.
  revert acc. induction ff as [|[k0 fc] ff IH]; intros acc Hnd; simpl.
  - by intros [= <-].
  - apply NoDup_cons in Hnd as [Hk0 Hnd]. fold (odict_keys ff) in Hk0, Hnd.
    intros Hrf.
    assert (Hstep : exists acc',
              collect_results ff acc' = Ok rf /\
              (forall k', k' ≠ k0 -> acc' !! k' = acc !! k') /\
              match fc with
              | [] => acc' !! k0 = acc !! k0
              | [f] => acc' !! k0 = Some (RForm f)
              | _ => exists d, collect_tagged fc ∅ = Ok d /\ acc' !! k0 = Some (RForms d)
              end).
    { destruct fc as [|f1 [|f2 fc]].
      - by exists acc.
      - exists (<[k0 := RForm f1]> acc). split_and!; [done| |apply lookup_insert_eq].
        intros k' Hne. by apply lookup_insert_ne.
      - destruct (collect_tagged (f1 :: f2 :: fc) ∅) as [d|] eqn:Hd; [|done].
        exists (<[k0 := RForms d]> acc). split_and!; [done| |].
        + intros k' Hne. by apply lookup_insert_ne.
        + exists d. split; [done|]. apply lookup_insert_eq. }
    destruct Hstep as (acc' & Hrest & Hother & Hk0').
    specialize (IH acc' Hnd Hrest).
    destruct (String.eqb k k0) eqn:E.
    + apply String.eqb_eq in E. subst k0.
      rewrite (odict_get_not_key k ff Hk0) in IH.
      destruct fc as [|f1 [|f2 fc]]; [congruence|congruence|].
      destruct Hk0' as (d & Hd & Hk). exists d. split; [done|congruence].
    + apply String.eqb_neq in E. rewrite (Hother k E) in IH. exact IH.
Qed.

(** The dictionary built from the tagged forms of a step: under each tag
    the form built for it, without its [_tag]. *)
Lemma collect_tagged_lookup (items : list (string * FormClass)) (forms : list FormObj)
    (acc : gmap string FormObj) :
  Forall2 (fun item f => _tag f = Some item.1 /\ form_class f = item.2) items forms ->
  NoDup items.*1 ->
  exists m,
    collect_tagged forms acc = Ok m /\
    forall tag,
      (forall c, (tag, c) ∈ items -> exists f,
         f ∈ forms /\ form_class f = c /\ m !! tag = Some (del_tag f)) /\
      (tag ∉ items.*1 -> m !! tag = acc !! tag).
Proof.
  intros HF. revert acc.
  induction HF as [|[t0 c0] f0 items forms [Ht Hc] HF IH]; intros acc Hnd; simpl in *.
  - exists acc. split; [done|]. intros tag. split; [by intros c ?%elem_of_nil|done].
  - apply NoDup_cons in Hnd as [Ht0 Hnd]. rewrite Ht.
    destruct (IH (<[t0 := del_tag f0]> acc) Hnd) as (m & Hm & Hlook).
    exists m. split; [done|]. intros tag. split.
    + intros c [[= -> ->]|Hin]%elem_of_cons.
      * exists f0. split_and!; [apply elem_of_cons; by left|done|].
        destruct (Hlook t0) as [_ Ht0']. rewrite Ht0' by done. apply lookup_insert_eq.
      * destruct (Hlook tag) as [Hfound _]. destruct (Hfound c Hin) as (f & ? & ? & ?).
        exists f. split_and!; [apply elem_of_cons; by right|done|done].
    + intros [Hne Hnotin]%not_elem_of_cons.
      destruct (Hlook tag) as [_ Htag]. rewrite Htag by done. by apply lookup_insert_ne.
Qed.

Lemma is_valid_del_tag (f : FormObj) : is_valid (del_tag f) = is_valid f.
Proof. reflexivity. Qed.

(** The results of a step declared with a dictionary of two or more
    forms, in terms of [final_forms] and [result_forms]. *)
Lemma grouped_step_entry (w : Wizard) (st : WizardState) (step : string)
    (d : gmap string FormClass) (forms : list FormObj)
    (ff : list (string * list FormObj)) (rf : gmap string StepResult) :
  odict_get step (form_list w) = Some (SDict d) ->
  2 <= size d ->
  stored_forms w st step = Ok forms ->
  forallb is_valid forms = true ->
  NoDup (odict_keys ff) ->
  odict_get step ff = Some forms ->
  collect_results ff ∅ = Ok rf ->
  exists m : gmap string FormObj,
    rf !! step = Some (RForms m) /\
    (forall tag, is_Some (m !! tag) <-> is_Some (d !! tag)) /\
    (forall tag f, m !! tag = Some f ->
       d !! tag = Some (form_class f) /\ is_valid f = true /\ _tag f = None).
Proof.
  intros Hstep Hsize Hforms Hvalid Hnd Hff Hrf.
  unfold stored_forms, get_forms in Hforms. simpl in Hforms. rewrite Hstep in Hforms.
  apply build_tagged_forms_Forall2 in Hforms.
  assert (Hlen : length forms = size d).
  { rewrite <- (Forall2_length _ _ _ Hforms). apply length_map_to_list. }
  pose proof (collect_results_lookup ff ∅ rf step Hnd Hrf) as Hentry.
  rewrite Hff in Hentry.
  destruct (collect_tagged_lookup (map_to_list d) forms ∅) as (m & Hm & Hlook).
  { eapply Forall2_impl; [exact Hforms|]. intros item f (? & ? & _). by split. }
  { apply NoDup_fst_map_to_list. }
  exists m. split_and!.
  - destruct forms as [|f1 [|f2 forms]]; simpl in Hlen; [lia|lia|].
    destruct Hentry as (m' & Hm' & Hrf'). congruence.
  - intros tag. split.
    + intros [f Hf]. destruct (decide (tag ∈ (map_to_list d).*1)) as [Hin|Hnotin].
      * apply list_elem_of_fmap in Hin as ([tag' c] & -> & Hin). simpl.
        apply elem_of_map_to_list in Hin. by exists c.
      * destruct (Hlook tag) as [_ Hnone]. rewrite Hnone in Hf by done.
        by rewrite lookup_empty in Hf.
    + intros [c Hc]. apply elem_of_map_to_list in Hc.
      destruct (Hlook tag) as [Hfound _]. destruct (Hfound c Hc) as (f & _ & _ & Hf).
      by exists (del_tag f).
  - intros tag g Hg.
    destruct (decide (tag ∈ (map_to_list d).*1)) as [Hin|Hnotin].
    + apply list_elem_of_fmap in Hin as ([tag' c] & -> & Hin). simpl in *.
      destruct (Hlook tag') as [Hfound _].
      destruct (Hfound c Hin) as (f & Hf & Hc & Hmf).
      assert (g = del_tag f) as -> by congruence.
      split_and!; [|rewrite is_valid_del_tag|done].
      * simpl. rewrite Hc. by apply elem_of_map_to_list.
      * rewrite forallb_forall in Hvalid. by apply Hvalid, list_elem_of_In.
    + destruct (Hlook tag) as [_ Hnone]. rewrite Hnone in Hg by done.
      by rewrite lookup_empty in Hg.
Qed.

(** C3, as amended.  When finalize reaches the terminal callback, a step
    declared with a dictionary of two or more forms contributes a
    dictionary: under the name of the step in the name-keyed results, and
    in the slot of the step in the result list.  The dictionary has the
    tags of the step as its keys; under each tag is a valid form of the
    class declared for the tag, and the form has no [_tag] attribute. *)
Theorem grouped_step_finalizes_into_mapping
    (w : Wizard) (kwargs : gmap string string) (world : World) (call : DoneCall)
    (step : string) (d : gmap string FormClass) :
  let out := MultipleFormWizardView_render_done w kwargs world in
  done_calls out.1 = done_calls world ++ [call] ->
  step ∈ odict_keys (Base.get_form_list w (storage world)) ->
  odict_get step (form_list w) = Some (SDict d) ->
  2 <= size d ->
  exists m : gmap string FormObj,
    dc_form_dict call !! step = Some (RForms m) /\
    (exists i, sorted (map_to_list (dc_form_dict call)).*1 !! i = Some step /\
               dc_form_list call !! i = Some (RForms m)) /\
    (forall tag, is_Some (m !! tag) <-> is_Some (d !! tag)) /\
    (forall tag f, m !! tag = Some f ->
       d !! tag = Some (form_class f) /\ is_valid f = true /\ _tag f = None).
Proof.
  intros out Hcall Hactive Hstep Hsize.
  destruct (render_done_calls w kwargs world) as [Hnone|(ff & rf & fl & Hrev & Hrf & Hfl & Hcalls)].
  { fold out in Hnone. rewrite Hnone in Hcall. by apply app_singleton_neq in Hcall. }
  fold out in Hcalls. rewrite Hcalls in Hcall. apply app_inv_head in Hcall.
  injection Hcall as <-.
  destruct (revalidate_final_forms w _ _ [] ff Hrev) as [Hnd Hlook]; [constructor|].
  destruct (Hlook step) as [Hfound _].
  destruct (Hfound Hactive) as (forms & Hforms & Hvalid & Hff).
  destruct (grouped_step_entry w _ step d forms ff rf Hstep Hsize Hforms Hvalid Hnd Hff Hrf)
    as (m & Hm & Hdom & Hvals).
  exists m. simpl. split_and!; [done| |done|done].
  by apply result_list_slot.
Qed.

Lemma grouped_step_finalizes_into_mapping_witness :
  exists m : gmap string FormObj,
    dc_form_dict Examples.call_profile_two !! "profile" = Some (RForms m) /\
    (exists i,
       sorted (map_to_list (dc_form_dict Examples.call_profile_two)).*1 !! i =
         Some "profile" /\
       dc_form_list Examples.call_profile_two !! i = Some (RForms m)) /\
    (forall tag,
       is_Some (m !! tag) <->
       is_Some (({["person" := Examples.PersonForm; "home" := Examples.AddressForm]}
                   : gmap string FormClass) !! tag)) /\
    (forall tag f, m !! tag = Some f ->
       ({["person" := Examples.PersonForm; "home" := Examples.AddressForm]}
          : gmap string FormClass) !! tag = Some (form_class f) /\
       is_valid f = true /\ _tag f = None).
Proof.
  apply (grouped_step_finalizes_into_mapping Examples.profile_two ∅
           (Examples.world_of Examples.profile_submitted) Examples.call_profile_two
           "profile" {["person" := Examples.PersonForm; "home" := Examples.AddressForm]}).
  - vm_compute; reflexivity.
  - vm_compute. apply elem_of_cons. by left.
  - vm_compute; reflexivity.
  - vm_compute. lia.
Defined.

(** C3, as stated, fails: the step ["profile"] is declared with a
    dictionary of one form, tagged ["person"].  Finalize gives the terminal
    callback the form object itself, in the result list and under the name
    of the step, and the form still has its [_tag]. *)
Lemma single_tag_step_keeps_form_and_tag :
  odict_get "profile" (form_list Examples.profile_one) =
    Some (SDict {["person" := Examples.PersonForm]}) /\
  MultipleFormWizardView_render_done Examples.profile_one ∅
    (Examples.world_of Examples.profile_submitted) =
  (mkWorld Storage.init [Examples.call_profile_one], Ok (HttpResponse "thanks")) /\
  dc_form_dict Examples.call_profile_one !! "profile" =
    Some (RForm (Examples.profile_form Examples.PersonForm (Some "person"))) /\
  dc_form_list Examples.call_profile_one =
    [RForm (Examples.profile_form Examples.PersonForm (Some "person"))] /\
  _tag (Examples.profile_form Examples.PersonForm (Some "person")) = Some "person".
Proof. split_and!; vm_compute; reflexivity. Qed.

(** ** [post] *)

Lemma accepted_goto_absent (w : Wizard) (request : Request) (st : WizardState) :
  POST request !! "wizard_goto_step" = None -> accepted_goto w request st = None.
Proof. unfold accepted_goto. by intros ->. Qed.

Lemma sync_current_step_spec (w : Wizard) (declared : string) (world : World) :
  sync_current_step w declared world =
  (mkWorld (synced_storage w declared (storage world)) (done_calls world),
   match Base.steps_current w (storage world) with
   | Ok _ => Ok tt
   | Raise e => Raise e
   end).
Proof.
  unfold sync_current_step, synced_storage. destruct world as [st calls].
  unfold bind, attempt, read, update, ret. simpl.
  destruct (Base.steps_current w st) as [current|e]; [|done].
  by destruct (negb (String.eqb declared current) && bool_decide (current_step st ≠ None)).
Qed.

(** A POST without a goto directive is the POST of [MultipleFormWizardView]
    in both view classes, from the management form on. *)
Lemma post_without_goto (w : Wizard) (request : Request) (kwargs : gmap string string)
    (world : World) :
  POST request !! "wizard_goto_step" = None ->
  post w request kwargs world =
  match Base.management_current_step w (POST request) with
  | None => (world, Raise (ValidationError "missing_management_form"))
  | Some declared =>
      bind (sync_current_step w declared)
        (fun _ => validate_and_store w request kwargs) world
  end.
Proof.
  intros Hgoto.
  assert (Hbase : MultipleFormWizardView_post w request kwargs world =
            match Base.management_current_step w (POST request) with
            | None => (world, Raise (ValidationError "missing_management_form"))
            | Some declared =>
                bind (sync_current_step w declared)
                  (fun _ => validate_and_store w request kwargs) world
            end).
  { unfold MultipleFormWizardView_post. unfold bind at 1, read.
    rewrite (accepted_goto_absent w request _ Hgoto).
    by destruct (Base.management_current_step w (POST request)). }
  unfold post. destruct (variant w); [done|].
  unfold bind at 1, read. by rewrite (accepted_goto_absent w request _ Hgoto).
Qed.

(** C5.  A POST without a goto directive.  When the management form is
    not valid, the request raises [ValidationError] and the storage is as
    before.  When it is valid and declares a step that differs from the
    tracked current step, the request goes on from a storage whose
    current step is the declared one if and only if the storage had a
    current step; a storage without a current step is left as it is. *)
Theorem post_checks_management_form
    (w : Wizard) (request : Request) (kwargs : gmap string string) (world : World) :
  POST request !! "wizard_goto_step" = None ->
  (Base.management_current_step w (POST request) = None ->
     post w request kwargs world =
     (world, Raise (ValidationError "missing_management_form"))) /\
  (forall declared tracked,
     Base.management_current_step w (POST request) = Some declared ->
     Base.steps_current w (storage world) = Ok tracked ->
     declared ≠ tracked ->
     let synced := synced_storage w declared (storage world) in
     post w request kwargs world =
       validate_and_store w request kwargs (mkWorld synced (done_calls world)) /\
     (current_step synced = Some declared <-> current_step (storage world) ≠ None) /\
     (current_step (storage world) ≠ None ->
        synced = Storage.set_current_step (Some declared) (storage world)) /\
     (current_step (storage world) = None -> synced = storage world)).
Proof.
  intros Hgoto. split.
  - intros Hmf. by rewrite (post_without_goto _ _ _ _ Hgoto), Hmf.
  - intros declared tracked Hmf Htracked Hne synced.
    assert (Hsynced : synced =
              if bool_decide (current_step (storage world) ≠ None)
              then Storage.set_current_step (Some declared) (storage world)
              else storage world).
    { unfold synced, synced_storage. rewrite Htracked.
      apply String.eqb_neq in Hne. by rewrite Hne. }
    split_and!.
    + rewrite (post_without_goto _ _ _ _ Hgoto), Hmf.
      unfold bind. rewrite sync_current_step_spec. by rewrite Htracked.
    + rewrite Hsynced. case_bool_decide as Hcur; simpl; [done|].
      split; [intros Hd; congruence|intros Hn; by destruct Hn].
    + intros Hcur. by rewrite Hsynced, bool_decide_eq_true_2.
    + intros Hcur. rewrite Hsynced, bool_decide_eq_false_2; [done|]. by intros [].
Qed.

Lemma post_checks_management_form_witness :
  post Examples.contact_then_age Examples.post_contact_empty ∅
    (Examples.world_of Examples.contact_age_submitted) =
  validate_and_store Examples.contact_then_age Examples.post_contact_empty ∅
    (Examples.world_of
       (Storage.set_current_step (Some "contact") Examples.contact_age_submitted)).
Proof.
  destruct (proj2 (post_checks_management_form Examples.contact_then_age
                     Examples.post_contact_empty ∅
                     (Examples.world_of Examples.contact_age_submitted) eq_refl)
              "contact" "age") as (Hpost & _ & Hset & _);
    [vm_compute; reflexivity|vm_compute; reflexivity|discriminate|].
  rewrite Hpost, Hset; [reflexivity|discriminate].
Defined.

Lemma synced_storage_frame (w : Wizard) (declared : string) (st : WizardState) :
  step_data (synced_storage w declared st) = step_data st /\
  step_files (synced_storage w declared st) = step_files st /\
  extra_data (synced_storage w declared st) = extra_data st.
Proof.
  unfold synced_storage. destruct (Base.steps_current w st) as [current|e]; [|done].
  by destruct (negb (String.eqb declared current) && bool_decide (current_step st ≠ None)).
Qed.

Lemma get_forms_current_step (w : Wizard) (data files : option QueryDict)
    (st : WizardState) (forms : list FormObj) :
  get_forms w None data files st = Ok forms ->
  exists current, Base.steps_current w st = Ok current.
Proof.
  unfold get_forms. destruct (Base.steps_current w st) as [current|e]; [|done].
  by exists current.
Qed.

(** The stored current step after the check of the management form: the
    declared step when it differs from the tracked one and a current step
    was stored, the stored one otherwise. *)
Lemma synced_storage_current (w : Wizard) (declared tracked : string) (st : WizardState) :
  Base.steps_current w st = Ok tracked ->
  (declared = tracked \/ current_step st = None -> synced_storage w declared st = st) /\
  (declared ≠ tracked -> current_step st ≠ None ->
     synced_storage w declared st = Storage.set_current_step (Some declared) st).
Proof.
  intros Htracked. unfold synced_storage. rewrite Htracked. split.
  - intros [->|Hnone].
    + by rewrite String.eqb_refl.
    + rewrite (bool_decide_eq_false_2 (current_step st ≠ None)); [|by rewrite Hnone; intros []].
      by rewrite andb_false_r.
  - intros Hne Hcur. apply String.eqb_neq in Hne. rewrite Hne.
    by rewrite bool_decide_eq_true_2.
Qed.

(** A POST without a goto directive whose management form is valid, when
    a form built for the current step is not valid: nothing is written
    after the check of the management form, and the answer is that of
    [render] on the forms. *)
Lemma post_invalid_path (w : Wizard) (request : Request) (kwargs : gmap string string)
    (world : World) (declared : string) (forms : list FormObj) :
  POST request !! "wizard_goto_step" = None ->
  Base.management_current_step w (POST request) = Some declared ->
  get_forms w None (Some (POST request)) (Some (FILES request))
    (synced_storage w declared (storage world)) = Ok forms ->
  forallb is_valid forms = false ->
  post w request kwargs world =
  render w (FormList forms) ∅
    (mkWorld (synced_storage w declared (storage world)) (done_calls world)).
Proof.
  intros Hgoto Hmf Hforms Hinvalid.
  destruct (get_forms_current_step _ _ _ _ _ Hforms) as [current Hcurrent].
  assert (Htracked : exists tracked, Base.steps_current w (storage world) = Ok tracked).
  { destruct (Base.steps_current w (storage world)) as [tracked|e] eqn:E; [by eexists|].
    exfalso. unfold synced_storage in Hcurrent. rewrite E in Hcurrent. congruence. }
  destruct Htracked as [tracked Htracked].
  rewrite (post_without_goto _ _ _ _ Hgoto), Hmf.
  unfold bind at 1. rewrite sync_current_step_spec, Htracked.
  unfold validate_and_store. unfold bind at 1, attempt. cbn [storage].
  by rewrite Hforms, Hinvalid.
Qed.

(** C6, as amended.  A POST without a goto directive and with a valid
    management form, where a form built for the current step from the
    submitted data is not valid, in either view class.  Nothing is written
    after the management form was checked: the request ends with the
    storage that check left, and [done] is not called.  The stored data,
    files and extra data are those of before the request.  The stored
    current step is the one of before the request when the management form
    declares the tracked step or no current step was stored; otherwise it
    is the declared step, which is the step the forms were built for.
    [MultipleFormWizardView] answers with the template of those forms;
    the URL-addressed view raises [TypeError] in [render]. *)
Theorem invalid_submission_writes_no_step_data
    (w : Wizard) (request : Request) (kwargs : gmap string string) (world : World)
    (declared : string) (forms : list FormObj) :
  POST request !! "wizard_goto_step" = None ->
  Base.management_current_step w (POST request) = Some declared ->
  let st1 := synced_storage w declared (storage world) in
  get_forms w None (Some (POST request)) (Some (FILES request)) st1 = Ok forms ->
  forallb is_valid forms = false ->
  (post w request kwargs world).1 = mkWorld st1 (done_calls world) /\
  step_data st1 = step_data (storage world) /\
  step_files st1 = step_files (storage world) /\
  extra_data st1 = extra_data (storage world) /\
  (exists tracked,
     Base.steps_current w (storage world) = Ok tracked /\
     (declared = tracked \/ current_step (storage world) = None -> st1 = storage world) /\
     (declared ≠ tracked -> current_step (storage world) ≠ None ->
        st1 = Storage.set_current_step (Some declared) (storage world) /\
        Base.steps_current w st1 = Ok declared)) /\
  (variant w = MultipleFormWizardView ->
     exists current,
       Base.steps_current w st1 = Ok current /\
       (post w request kwargs world).2 =
         Ok (TemplateResponse
               (mkContext ∅ (extra_data (storage world)) (FormList forms) current))) /\
  (forall url_name done_step_name,
     variant w = NamedUrlWizardView url_name done_step_name ->
     (post w request kwargs world).2 = Raise TypeError).
Proof.
  intros Hgoto Hmf st1 Hforms Hinvalid.
  pose proof (post_invalid_path w request kwargs world declared forms
                Hgoto Hmf Hforms Hinvalid) as Hpost.
  fold st1 in Hpost.
  destruct (get_forms_current_step _ _ _ _ _ Hforms) as [current Hcurrent].
  destruct (synced_storage_frame w declared (storage world)) as (Hdata & Hfiles & Hextra).
  fold st1 in Hdata, Hfiles, Hextra.
  assert (Htracked : exists tracked, Base.steps_current w (storage world) = Ok tracked).
  { destruct (Base.steps_current w (storage world)) as [tracked|e] eqn:E; [by eexists|].
    exfalso. unfold st1, synced_storage in Hcurrent. rewrite E in Hcurrent. congruence. }
  destruct Htracked as [tracked Htracked].
  assert (Htruthy : forms_truthy (FormList forms) = true).
  { destruct forms; [discriminate Hinvalid|done]. }
  split_and!; try done.
  - rewrite Hpost. apply render_world.
  - exists tracked. split; [done|].
    destruct (synced_storage_current w declared tracked (storage world) Htracked)
      as [Hsame Hmoved].
    split; [done|]. intros Hne Hcur. split; [by apply Hmoved|].
    unfold st1. rewrite (Hmoved Hne Hcur). unfold Base.steps_current. simpl.
    destruct (String.eqb declared "") eqn:Hempty; [|done].
    apply String.eqb_eq in Hempty. subst declared.
    unfold Base.management_current_step in Hmf.
    destruct (POST request !! (prefix w +:+ "-current_step")) as [s|]; [|done].
    destruct (String.eqb s "") eqn:Hs; [done|].
    injection Hmf as ->. done.
  - intros Hvariant. exists current. split; [done|].
    rewrite Hpost. unfold render. rewrite Htruthy.
    unfold get_context_data. rewrite Hvariant.
    unfold MultipleFormWizardView_get_context_data.
    unfold bind, read, attempt, ret. simpl. by rewrite Hcurrent, Hextra.
  - intros url_name done_step_name Hvariant.
    rewrite Hpost. unfold render. rewrite Htruthy.
    unfold get_context_data. rewrite Hvariant. reflexivity.
Qed.

Lemma invalid_submission_writes_no_step_data_witness :
  post Examples.contact_then_age Examples.post_contact_empty ∅
    (Examples.world_of Examples.contact_age_submitted) =
  (Examples.world_of
     (Storage.set_current_step (Some "contact") Examples.contact_age_submitted),
   Ok (TemplateResponse
         (mkContext ∅ ∅ (FormList [Examples.contact_empty]) "contact"))).
Proof.
  destruct (invalid_submission_writes_no_step_data Examples.contact_then_age
              Examples.post_contact_empty ∅
              (Examples.world_of Examples.contact_age_submitted)
              "contact" [Examples.contact_empty])
    as (Hworld & _ & _ & _ & (tracked & Htracked & _ & Hmoved) & Hplain & _);
    [vm_compute; reflexivity..|].
  vm_compute in Htracked. injection Htracked as <-.
  destruct Hmoved as [Hst1 _]; [discriminate..|].
  destruct Hplain as (current & Hcurrent & Hresponse); [reflexivity|].
  rewrite Hst1 in Hworld, Hcurrent.
  vm_compute in Hcurrent. injection Hcurrent as <-.
  destruct (post Examples.contact_then_age Examples.post_contact_empty ∅
              (Examples.world_of Examples.contact_age_submitted)) as [world' response].
  simpl in Hworld, Hresponse. rewrite Hworld, Hresponse. reflexivity.
Defined.

(** C6 as stated fails: the wizard is at the step ["age"] and a POST
    that declares the step ["contact"] arrives without an e-mail address.
    The form of ["contact"] is not valid and is rendered again, and the
    stored current step, ["age"] before the request, is ["contact"] after
    it. *)
Lemma invalid_submission_changes_current_step :
  get_forms Examples.contact_then_age None
    (Some (POST Examples.post_contact_empty)) (Some (FILES Examples.post_contact_empty))
    (Storage.set_current_step (Some "contact") Examples.contact_age_submitted) =
    Ok [Examples.contact_empty] /\
  is_valid Examples.contact_empty = false /\
  current_step (storage (Examples.world_of Examples.contact_age_submitted)) = Some "age" /\
  post Examples.contact_then_age Examples.post_contact_empty ∅
    (Examples.world_of Examples.contact_age_submitted) =
  (Examples.world_of
     (Storage.set_current_step (Some "contact") Examples.contact_age_submitted),
   Ok (TemplateResponse
         (mkContext ∅ ∅ (FormList [Examples.contact_empty]) "contact"))) /\
  current_step
    (storage (post Examples.contact_then_age Examples.post_contact_empty ∅
                (Examples.world_of Examples.contact_age_submitted)).1) ≠
  current_step (storage (Examples.world_of Examples.contact_age_submitted)).
Proof. split_and!; [vm_compute; reflexivity..|]. vm_compute. discriminate. Qed.

(** ** The address of the done view *)

(** A GET of the address of the done view, when the last step is declared
    with a form class: [get_form] builds the form of the last step, which
    [render_done] does not read, and the request is [render_done] of
    [MultipleFormWizardView] on the storage as it is. *)
Lemma done_address_runs_render_done (w : Wizard) (url_name done_step_name : string)
    (request : Request) (kwargs : gmap string string) (world : World)
    (last : string) (c : FormClass) :
  variant w = NamedUrlWizardView url_name done_step_name ->
  kwargs !! "step" = Some done_step_name ->
  Base.steps_last w (storage world) = Ok last ->
  odict_get last (form_list w) = Some (SClass c) ->
  get w request kwargs world = MultipleFormWizardView_render_done w kwargs world.
Proof.
  intros Hvariant Hstep Hlast Hclass.
  unfold get. rewrite Hvariant. unfold NamedUrlWizardView_get.
  rewrite Hstep, String.eqb_refl.
  unfold bind at 1, attempt. rewrite Hlast.
  unfold bind at 1, read. unfold bind at 1, read.
  unfold bind at 1, attempt. unfold Base.get_form. rewrite Hclass.
  unfold render_done. rewrite Hvariant.
  by destruct (decide (kwargs !! "step" = Some done_step_name)).
Qed.

(** The same request when the last step is declared with a dictionary:
    [get_form] raises [TypeError] and [render_done] is not reached. *)
Lemma done_address_grouped_last_step (w : Wizard) (url_name done_step_name : string)
    (request : Request) (kwargs : gmap string string) (world : World)
    (last : string) (d : gmap string FormClass) :
  variant w = NamedUrlWizardView url_name done_step_name ->
  kwargs !! "step" = Some done_step_name ->
  Base.steps_last w (storage world) = Ok last ->
  odict_get last (form_list w) = Some (SDict d) ->
  get w request kwargs world = (world, Raise TypeError).
Proof.
  intros Hvariant Hstep Hlast Hdict.
  unfold get. rewrite Hvariant. unfold NamedUrlWizardView_get.
  rewrite Hstep, String.eqb_refl.
  unfold bind at 1, attempt. rewrite Hlast.
  unfold bind at 1, read. unfold bind at 1, read.
  unfold bind at 1, attempt. unfold Base.get_form. by rewrite Hdict.
Qed.

Lemma unbound_is_not_valid (c : FormClass) (prefix : string) (initial : PyObj)
    (extra : gmap string PyObj) :
  is_valid (construct c (mkFormKwargs None None prefix initial extra)) = false.
Proof. reflexivity. Qed.

(** A step declared with a form class and without stored data or files is
    rebuilt as one unbound form, which fails revalidation. *)
Lemma unsubmitted_step_fails (w : Wizard) (st : WizardState) (step : string)
    (name : string) (base : FormBase) (fields : list (string * Field))
    (clean : FormKwargs -> bool) :
  odict_get step (form_list w) = Some (SClass (FormCls name base fields clean)) ->
  Storage.get_step_data (Some step) st = None ->
  Storage.get_step_files (Some step) st = None ->
  exists f, failing_form w st step = Some f.
Proof.
  intros Hstep Hdata Hfiles. unfold failing_form, stored_forms.
  rewrite Hdata, Hfiles. unfold get_forms. cbn [Res_bind]. rewrite Hstep.
  destruct base; simpl; eauto.
Qed.

(** The scenario of the steps ["a"] and ["b"], both declared with a form
    class: the stored data of ["a"] revalidates and nothing is stored for
    ["b"].  A GET of the address of the done view runs [render_done] on
    the storage as it is: it fails at ["b"], the answer is a redirect to
    the address of ["b"], the terminal callback is not called, and the
    stored current step is ["b"]. *)
Lemma done_address_redirects_to_unsubmitted_step
    (w : Wizard) (url_name done_step_name : string) (A : FormClass)
    (name : string) (base : FormBase) (fields : list (string * Field))
    (clean : FormKwargs -> bool)
    (request : Request) (kwargs : gmap string string) (world : World) :
  variant w = NamedUrlWizardView url_name done_step_name ->
  form_list w = [("a", SClass A); ("b", SClass (FormCls name base fields clean))] ->
  condition_dict w = ∅ ->
  kwargs !! "step" = Some done_step_name ->
  revalidates w (storage world) "a" = true ->
  Storage.get_step_data (Some "b") (storage world) = None ->
  Storage.get_step_files (Some "b") (storage world) = None ->
  get w request kwargs world = MultipleFormWizardView_render_done w kwargs world /\
  get w request kwargs world =
  (mkWorld (Storage.set_current_step (Some "b") (storage world)) (done_calls world),
   Ok (HttpResponseRedirect url_name "b" ∅)).
Proof.
  intros Hvariant Hlist Hcond Hstep Ha Hdata Hfiles.
  assert (Hactive : forall st, Base.get_form_list w st = form_list w).
  { intros st. unfold Base.get_form_list, Base.condition.
    rewrite Hlist, Hcond. simpl. by rewrite !lookup_empty. }
  assert (Hb : odict_get "b" (form_list w) = Some (SClass (FormCls name base fields clean))).
  { by rewrite Hlist. }
  assert (Hlast : Base.steps_last w (storage world) = Ok "b").
  { unfold Base.steps_last. by rewrite Hactive, Hlist. }
  pose proof (done_address_runs_render_done w url_name done_step_name request kwargs
                world "b" _ Hvariant Hstep Hlast Hb) as Hget.
  split; [done|]. rewrite Hget.
  destruct (unsubmitted_step_fails w (storage world) "b" name base fields clean
              Hb Hdata Hfiles) as [f Hf].
  rewrite render_done_cases. unfold render_done_outcome.
  rewrite Hactive, Hlist. simpl odict_keys.
  assert (Hvalid : forallb (revalidates w (storage world)) ["a"] = true).
  { simpl. by rewrite Ha. }
  pose proof (revalidate_first_failure w (storage world) ["a"] "b" [] f [] Hvalid Hf)
    as Hrev.
  change (["a"] ++ ["b"]) with ["a"; "b"] in Hrev. rewrite Hrev.
  by apply render_revalidation_failure_redirects with done_step_name.
Qed.

(** C8.  The URL-addressed wizard with the steps ["a"], a form class, and
    ["profile"], a dictionary of two forms; ["a"] was submitted with valid
    data and ["profile"] never was.  A GET of the address of the done view
    raises [TypeError] and leaves the storage as it is: [get] builds the
    form of the last step with [get_form], which takes one form class,
    before it calls [render_done].  [render_done] on the same storage, as
    [post] calls it, fails at ["profile"], the stored current step, and
    redirects to its address. *)
Theorem done_address_raises_for_grouped_last_step :
  get Examples.a_then_profile Examples.get_done Examples.kwargs_done
    (Examples.world_of Examples.a_submitted_at_profile) =
  (Examples.world_of Examples.a_submitted_at_profile, Raise TypeError) /\
  render_done Examples.a_then_profile Examples.kwargs_done
    (Examples.world_of Examples.a_submitted_at_profile) =
  (Examples.world_of Examples.a_submitted_at_profile,
   Ok (HttpResponseRedirect "signup" "profile" ∅)).
Proof. split; vm_compute; reflexivity. Qed.

(** ** More on [get_initkwargs] *)

Lemma odict_set_fresh {V} (k : string) (v : V) (d : list (string * V)) :
  k ∉ odict_keys d -> odict_set k v d = d ++ [(k, v)].
Proof.
  unfold odict_keys. induction d as [|[k' v'] d IH]; simpl; [done|].
  intros [Hne Hnotin]%not_elem_of_cons.
  apply String.eqb_neq in Hne. rewrite Hne. by rewrite IH.
Qed.

Lemma odict_set_existing {V} (k : string) (v : V) (d : list (string * V)) :
  k ∈ odict_keys d -> odict_keys (odict_set k v d) = odict_keys d.
Proof.
  intros Hk%odict_mem_keys. by rewrite odict_keys_set, Hk.
Qed.

Lemma add_step_NoDup (i : nat) (form : FormListEntry) (acc : list (string * FormStruct)) :
  NoDup (odict_keys acc) -> NoDup (odict_keys (add_step i form acc)).
Proof.
  intros Hnd. destruct form as [f|name [c|d]]; simpl;
    try by apply odict_keys_set_NoDup.
  destruct (issubclass_Form c); [by apply odict_keys_set_NoDup|done].
Qed.

Lemma walk_form_list_NoDup (i : nat) (l : list FormListEntry)
    (acc : list (string * FormStruct)) :
  NoDup (odict_keys acc) -> NoDup (odict_keys (walk_form_list i l acc)).
Proof.
  revert i acc. induction l as [|e l IH]; intros i acc Hnd; simpl; [done|].
  by apply IH, add_step_NoDup.
Qed.

Lemma list_or_spec {A} (arg attr : list A) :
  (arg ≠ [] -> list_or arg attr = arg) /\ (arg = [] -> list_or arg attr = attr).
Proof. by destruct arg. Qed.

Lemma dict_or_spec {V} (arg attr : gmap string V) :
  (arg ≠ ∅ -> dict_or arg attr = arg) /\ (arg = ∅ -> dict_or arg attr = attr).
Proof.
  unfold dict_or. split.
  - intros Hne. destruct (map_to_list arg) eqn:E; [|done].
    by apply map_to_list_empty_iff in E.
  - intros ->. by rewrite map_to_list_empty.
Qed.

(** X1.  A configuration that [get_initkwargs] returns.  Each of the
    form list and the three dictionaries is the argument of the call when
    that is not empty and the attribute of the view class otherwise.  The
    form list so chosen is not empty; the steps computed from it have
    pairwise different names and are at most as many as its elements. *)
Theorem configured_steps_have_distinct_names
    (cls : ViewClass) (l : list FormListEntry)
    (initial instance : gmap string PyObj) (cond : gmap string (WizardState -> bool))
    (ik : InitKwargs) :
  MultipleFormWizardView_get_initkwargs cls l initial instance cond = Ok ik ->
  (exists declared,
     declared ≠ [] /\
     (l ≠ [] -> declared = l) /\ (l = [] -> declared = cls_form_list cls) /\
     length (ik_form_list ik) <= length declared) /\
  NoDup (odict_keys (ik_form_list ik)) /\
  (initial ≠ ∅ -> ik_initial_dict ik = initial) /\
  (initial = ∅ -> ik_initial_dict ik = cls_initial_dict cls) /\
  (instance ≠ ∅ -> ik_instance_dict ik = instance) /\
  (instance = ∅ -> ik_instance_dict ik = cls_instance_dict cls) /\
  (cond ≠ ∅ -> ik_condition_dict ik = cond) /\
  (cond = ∅ -> ik_condition_dict ik = cls_condition_dict cls).
Proof.
  unfold MultipleFormWizardView_get_initkwargs, get_initkwargs.
  destruct (list_or_spec l (cls_form_list cls)) as [Hl Hl'].
  destruct (dict_or_spec initial (cls_initial_dict cls)) as [Hi Hi'].
  destruct (dict_or_spec instance (cls_instance_dict cls)) as [Hn Hn'].
  destruct (dict_or_spec cond (cls_condition_dict cls)) as [Hc Hc'].
  destruct (list_or l (cls_form_list cls)) as [|e declared] eqn:E; [done|].
  cbn [length Nat.ltb Nat.leb].
  destruct (check_steps (cls_file_storage cls) (compute_form_list (e :: declared)));
    [|done].
  intros [= <-]. cbn [ik_form_list ik_initial_dict ik_instance_dict ik_condition_dict].
  split_and!; try done.
  - exists (e :: declared). split_and!; try done; try (by intros H; symmetry; auto).
    apply (walk_form_list_length 0 (e :: declared) []).
  - apply walk_form_list_NoDup. constructor.
Qed.

Lemma configured_steps_have_distinct_names_witness :
  MultipleFormWizardView_get_initkwargs Examples.signup_view [] ∅ ∅ ∅ =
    Ok (mkInitKwargs
          [("contact", SClass Examples.AgeForm); ("1", SClass Examples.AgeForm)] ∅ ∅ ∅) /\
  NoDup ["contact"; "1"] /\
  2 <= length (cls_form_list Examples.signup_view).
Proof.
  assert (Hik : MultipleFormWizardView_get_initkwargs Examples.signup_view [] ∅ ∅ ∅ =
                Ok (mkInitKwargs
                      [("contact", SClass Examples.AgeForm); ("1", SClass Examples.AgeForm)]
                      ∅ ∅ ∅)) by (vm_compute; reflexivity).
  destruct (configured_steps_have_distinct_names Examples.signup_view [] ∅ ∅ ∅ _ Hik)
    as ((declared & _ & _ & Hcls & Hlen) & Hnd & _).
  split; [exact Hik|]. split; [exact Hnd|].
  rewrite <- (Hcls eq_refl). exact Hlen.
Defined.

Lemma walk_bare_forms (i : nat) (forms : list FormStruct)
    (acc : list (string * FormStruct)) :
  (forall j, i <= j -> pretty j ∉ odict_keys acc) ->
  walk_form_list i (Bare <$> forms) acc =
  acc ++ imap (fun j form => (pretty (i + j), form)) forms.
Proof.
  revert i acc. induction forms as [|form forms IH]; intros i acc Hfresh; simpl.
  - by rewrite app_nil_r.
  - rewrite odict_set_fresh by (apply Hfresh; lia).
    rewrite IH.
    + rewrite <- app_assoc. simpl. rewrite Nat.add_0_r. do 2 f_equal.
      apply imap_ext. intros j x _. simpl. f_equal. f_equal. lia.
    + intros j Hj. unfold odict_keys. rewrite fmap_app. simpl.
      fold (odict_keys acc). intros [Hin|Hin%list_elem_of_singleton]%elem_of_app.
      * apply (Hfresh j); [lia|done].
      * apply (inj pretty) in Hin. lia.
Qed.

(** X2.  Form classes and dictionaries declared without step names become
    the steps ["0"], ["1"], ... in the declared order. *)
Theorem unnamed_forms_are_numbered (forms : list FormStruct) :
  compute_form_list (Bare <$> forms) = imap (fun i form => (pretty i, form)) forms.
Proof.
  unfold compute_form_list. rewrite walk_bare_forms; [done|].
  intros j _ Hin. by apply elem_of_nil in Hin.
Qed.

(** X3.  A step name that is declared again does not add a step: the
    step keeps the position of its first declaration and takes the form of
    the later one; the other steps keep their forms. *)
Theorem redeclared_step_keeps_position
    (l : list FormListEntry) (step_name : string) (form : FormStruct) :
  match form with SClass c => issubclass_Form c = true | SDict _ => True end ->
  step_name ∈ odict_keys (compute_form_list l) ->
  let computed := compute_form_list (l ++ [Pair step_name form]) in
  odict_keys computed = odict_keys (compute_form_list l) /\
  odict_get step_name computed = Some form /\
  (forall k, k ≠ step_name -> odict_get k computed = odict_get k (compute_form_list l)).
Proof.
  intros Hform Hin computed.
  assert (Hc : computed = odict_set step_name form (compute_form_list l)).
  { unfold computed, compute_form_list. rewrite walk_form_list_app. simpl.
    destruct form as [c|d]; [|done]. by rewrite Hform. }
  rewrite Hc. split_and!.
  - by apply odict_set_existing.
  - apply odict_get_set_eq.
  - intros k Hk. by apply odict_get_set_ne.
Qed.

Lemma redeclared_step_keeps_position_witness :
  odict_keys
    (compute_form_list
       ([Pair "contact" (SClass Examples.ContactForm); Pair "age" (SClass Examples.AgeForm)]
        ++ [Pair "contact" (SClass Examples.UploadForm)])) = ["contact"; "age"] /\
  odict_get "contact"
    (compute_form_list
       ([Pair "contact" (SClass Examples.ContactForm); Pair "age" (SClass Examples.AgeForm)]
        ++ [Pair "contact" (SClass Examples.UploadForm)])) =
  Some (SClass Examples.UploadForm).
Proof.
  destruct (redeclared_step_keeps_position
              [Pair "contact" (SClass Examples.ContactForm);
               Pair "age" (SClass Examples.AgeForm)]
              "contact" (SClass Examples.UploadForm) eq_refl)
    as (Hkeys & Hget & _).
  - vm_compute. apply elem_of_cons. by left.
  - split; [rewrite Hkeys; reflexivity|exact Hget].
Defined.

Lemma check_fields_with_storage (fields : list (string * Field)) :
  check_fields true fields = Ok tt.
Proof.
  induction fields as [|[n f] fields IH]; simpl; [done|].
  by rewrite andb_false_r.
Qed.

Lemma check_forms_with_storage (fc : list FormClass) (e : exn) :
  check_forms true fc = Raise e -> e = AttributeError.
Proof.
  induction fc as [|c fc IH]; simpl; [done|].
  destruct c as [n b fields cl|n b item cl]; simpl.
  - rewrite check_fields_with_storage. exact IH.
  - by intros [= <-].
Qed.

Lemma check_steps_with_storage (cfl : list (string * FormStruct)) (e : exn) :
  check_steps true cfl = Raise e -> e = AttributeError.
Proof.
  induction cfl as [|[k s] cfl IH]; simpl; [done|].
  destruct (check_forms true (form_collection_of s)) as [|e'] eqn:E.
  - exact IH.
  - intros [= <-]. by apply check_forms_with_storage in E.
Qed.

(** X4.  A view class that has [file_storage] is never refused for a file
    field: [get_initkwargs] fails only on an empty list, with
    [AssertionError], or on a formset class in a place where a form class
    is expected, with [AttributeError]. *)
Theorem file_storage_accepts_file_fields
    (l : list FormListEntry) (initial instance : gmap string PyObj)
    (cond : gmap string (WizardState -> bool)) (e : exn) :
  get_initkwargs true l initial instance cond = Raise e ->
  (l = [] /\ e = AssertionError "at least one form is needed") \/
  (l ≠ [] /\ e = AttributeError).
Proof.
  unfold get_initkwargs. destruct l as [|entry l]; simpl.
  - intros [= <-]. by left.
  - destruct (check_steps true (compute_form_list (entry :: l))) as [|e'] eqn:E; [done|].
    intros [= <-]. right. split; [done|]. by apply check_steps_with_storage in E.
Qed.

Lemma file_storage_accepts_file_fields_witness :
  get_initkwargs true
    [Pair "upload" (SDict {["files" := Examples.UploadFormSet]})] ∅ ∅ ∅ =
  Raise AttributeError.
Proof.
  destruct (file_storage_accepts_file_fields
              [Pair "upload" (SDict {["files" := Examples.UploadFormSet]})] ∅ ∅ ∅
              AttributeError) as [[Hnil _]|[_ _]];
    [vm_compute; reflexivity|discriminate Hnil|vm_compute; reflexivity].
Defined.

Lemma check_fields_has_file_field (fields : list (string * Field)) :
  has_file_field fields = true -> check_fields false fields = Raise NoFileStorageConfigured.
Proof.
  unfold has_file_field. induction fields as [|[n f] fields IH]; simpl; [done|].
  destruct (is_FileField f); simpl; [done|]. exact IH.
Qed.

Lemma check_forms_refuses (fc : list FormClass) (name : string) (base : FormBase)
    (fields : list (string * Field)) (clean : FormKwargs -> bool) :
  FormCls name base fields clean ∈ fc ->
  has_file_field fields = true ->
  exists e, check_forms false fc = Raise e.
Proof.
  intros Hin Hfile. induction fc as [|c fc IH]; [by apply elem_of_nil in Hin|].
  simpl. destruct (base_fields_of c) as [fs|e] eqn:Hbase; [|by eexists].
  destruct (check_fields false fs) as [|e] eqn:Hcheck; [|by eexists].
  apply elem_of_cons in Hin as [<-|Hin]; [|by apply IH].
  simpl in Hbase. injection Hbase as <-.
  rewrite (check_fields_has_file_field _ Hfile) in Hcheck. discriminate.
Qed.

Lemma check_steps_refuses (cfl : list (string * FormStruct)) (k : string)
    (s : FormStruct) :
  odict_get k cfl = Some s ->
  (exists e, check_forms false (form_collection_of s) = Raise e) ->
  exists e, check_steps false cfl = Raise e.
Proof.
  intros Hget [e He]. induction cfl as [|[k' s'] cfl IH]; [done|].
  simpl in *. destruct (check_forms false (form_collection_of s')) as [|e'] eqn:E;
    [|by eexists].
  destruct (String.eqb k k'); [|by apply IH].
  injection Hget as ->. congruence.
Qed.

Lemma get_initkwargs_refuses (l : list FormListEntry)
    (initial instance : gmap string PyObj) (cond : gmap string (WizardState -> bool))
    (k : string) (s : FormStruct) :
  odict_get k (compute_form_list l) = Some s ->
  (exists e, check_forms false (form_collection_of s) = Raise e) ->
  exists e, get_initkwargs false l initial instance cond = Raise e.
Proof.
  intros Hget Hs. unfold get_initkwargs.
  destruct (0 <? length l)%nat; [|by eexists].
  destruct (check_steps_refuses _ _ _ Hget Hs) as [e ->]. by eexists.
Qed.

(** X5.  Without [file_storage], a step declared with a dictionary is
    refused when one of its form classes has a file field:
    [get_initkwargs] raises. *)
Theorem dictionary_step_file_field_is_refused
    (l : list FormListEntry) (initial instance : gmap string PyObj)
    (cond : gmap string (WizardState -> bool))
    (step : string) (d : gmap string FormClass) (tag name : string) (base : FormBase)
    (fields : list (string * Field)) (clean : FormKwargs -> bool) :
  odict_get step (compute_form_list l) = Some (SDict d) ->
  d !! tag = Some (FormCls name base fields clean) ->
  has_file_field fields = true ->
  exists e, get_initkwargs false l initial instance cond = Raise e.
Proof.
  intros Hstep Htag Hfile. apply (get_initkwargs_refuses _ _ _ _ step (SDict d) Hstep).
  apply (check_forms_refuses _ name base fields clean); [|done].
  simpl. apply list_elem_of_fmap. exists (tag, FormCls name base fields clean).
  split; [done|]. by apply elem_of_map_to_list.
Qed.

Lemma dictionary_step_file_field_is_refused_witness :
  exists e,
    get_initkwargs false
      [Bare (SClass Examples.ContactForm);
       Pair "papers" (SDict {["id" := Examples.PersonForm; "scan" := Examples.UploadForm]})]
      ∅ ∅ ∅ = Raise e.
Proof.
  apply (dictionary_step_file_field_is_refused _ ∅ ∅ ∅ "papers"
           {["id" := Examples.PersonForm; "scan" := Examples.UploadForm]}
           "scan" "UploadForm" Form_ [("title", CharField); ("document", FileField)]
           (Examples.requires "title")); vm_compute; reflexivity.
Defined.

(** X6.  Without [file_storage], a step declared with a formset class is
    refused when the item form of the formset has a file field. *)
Theorem formset_step_file_field_is_refused
    (l : list FormListEntry) (initial instance : gmap string PyObj)
    (cond : gmap string (WizardState -> bool))
    (step : string) (set_name : string) (set_base : FormSetBase)
    (set_clean : FormKwargs -> bool) (name : string) (base : FormBase)
    (fields : list (string * Field)) (clean : FormKwargs -> bool) :
  odict_get step (compute_form_list l) =
    Some (SClass (FormSetCls set_name set_base (FormCls name base fields clean) set_clean)) ->
  has_file_field fields = true ->
  exists e, get_initkwargs false l initial instance cond = Raise e.
Proof.
  intros Hstep Hfile.
  apply (get_initkwargs_refuses _ _ _ _ step _ Hstep).
  apply (check_forms_refuses _ name base fields clean); [|done].
  simpl. apply elem_of_cons. by left.
Qed.

Lemma formset_step_file_field_is_refused_witness :
  exists e,
    get_initkwargs false
      [Bare (SClass Examples.ContactForm); Bare (SClass Examples.UploadFormSet)]
      ∅ ∅ ∅ = Raise e.
Proof.
  apply (formset_step_file_field_is_refused _ ∅ ∅ ∅ "1" "UploadFormSet" BaseFormSet_
           (Examples.requires "TOTAL_FORMS") "UploadForm" Form_
           [("title", CharField); ("document", FileField)] (Examples.requires "title"));
    vm_compute; reflexivity.
Defined.

(** ** More on [get_forms] *)

(** The forms of a step depend on the data and files only by being bound
    to them. *)
Lemma build_tagged_forms_rebind (w : Wizard) (step : string)
    (data files data' files' : option QueryDict) (ini inst : PyObj)
    (items : list (string * FormClass)) :
  build_tagged_forms w step data' files' ini inst items =
  match build_tagged_forms w step data files ini inst items with
  | Ok forms => Ok (rebind data' files' <$> forms)
  | Raise e => Raise e
  end.
Proof.
  induction items as [|[form_name form_class] items IH]; simpl; [done|].
  destruct (get_if_truthy ini form_name) as [initial|]; simpl; [|done].
  destruct (get_if_truthy inst form_name) as [instance|]; simpl; [|done].
  destruct (accepts_instance form_class); simpl; [|done].
  rewrite IH.
  by destruct (build_tagged_forms w step data files ini inst items).
Qed.

Lemma get_forms_rebind (w : Wizard) (step : option string)
    (data files data' files' : option QueryDict) (st : WizardState) :
  get_forms w step data' files' st =
  match get_forms w step data files st with
  | Ok forms => Ok (rebind data' files' <$> forms)
  | Raise e => Raise e
  end.
Proof.
  unfold get_forms.
  destruct (match step with Some s => Ok s | None => Base.steps_current w st end)
    as [s|]; simpl; [|done].
  destruct (odict_get s (form_list w)) as [[c|d]|]; [| |done].
  - destruct (issubclass_ModelForm c || issubclass_BaseInlineFormSet c); [done|].
    destruct (issubclass_Form c); [done|].
    by destruct (issubclass_BaseModelFormSet c).
  - apply build_tagged_forms_rebind.
Qed.

Lemma get_forms_nil (w : Wizard) (step : option string)
    (data files data' files' : option QueryDict) (st : WizardState) :
  get_forms w step data files st = Ok [] -> get_forms w step data' files' st = Ok [].
Proof. intros H. by rewrite (get_forms_rebind w step data files), H. Qed.

Lemma get_forms_bound (w : Wizard) (step : option string)
    (data files : option QueryDict) (st : WizardState) (forms : list FormObj) :
  get_forms w step data files st = Ok forms ->
  Forall (fun f => kw_data (form_kwargs f) = data /\ kw_files (form_kwargs f) = files)
    forms.
Proof.
  intros H. pose proof (get_forms_rebind w step data files data files st) as R.
  rewrite H in R. injection R as R. rewrite R.
  apply Forall_fmap, Forall_true. by intros f.
Qed.

(** X7.  Forms built without data and without files are never valid: a
    step for which nothing is stored revalidates only if it has no form. *)
Theorem forms_without_data_are_not_valid
    (w : Wizard) (step : option string) (st : WizardState) (forms : list FormObj) :
  get_forms w step None None st = Ok forms ->
  Forall (fun f => is_valid f = false) forms /\
  (forms ≠ [] -> forallb is_valid forms = false).
Proof.
  intros H%get_forms_bound.
  assert (Hall : Forall (fun f => is_valid f = false) forms).
  { eapply Forall_impl; [exact H|]. intros f [Hd Hf].
    unfold is_valid, is_bound. by rewrite Hd, Hf. }
  split; [done|]. destruct Hall as [|f forms Hf _]; [done|].
  intros _. simpl. by rewrite Hf.
Qed.

Lemma forms_without_data_are_not_valid_witness :
  forallb is_valid [Examples.shipping_form; Examples.billing_form] = false.
Proof.
  apply (forms_without_data_are_not_valid Examples.two_addresses (Some "address")
           Storage.init [Examples.shipping_form; Examples.billing_form]);
    [vm_compute; reflexivity|discriminate].
Defined.

(** X8.  A step declared with a class gets at most one form.  It gets
    none when the class is a plain formset class; otherwise it gets one
    form of that class, without [_tag], bound to the given data and files,
    with the prefix of [get_form_prefix] and the initial values that
    [initial_dict] has for the step. *)
Theorem class_step_builds_at_most_one_form
    (w : Wizard) (step : string) (c : FormClass) (data files : option QueryDict)
    (st : WizardState) :
  odict_get step (form_list w) = Some (SClass c) ->
  exists forms,
    get_forms w (Some step) data files st = Ok forms /\
    (if is_plain_formset c then forms = []
     else exists extra,
       forms = [mkForm c
                  (mkFormKwargs data files (get_form_prefix w step c)
                     (Base.get_form_initial w step) extra) None]).
Proof.
  intros Hstep. unfold get_forms. simpl. rewrite Hstep.
  destruct c as [n [] fs cl|n [] item cl]; simpl; eauto.
Qed.

Lemma class_step_builds_at_most_one_form_witness :
  exists forms,
    get_forms
      (Examples.wizard_of MultipleFormWizardView
         [("uploads", SClass Examples.UploadFormSet)] Examples.done_ok)
      (Some "uploads") (Some ∅) None Storage.init = Ok forms /\
    forms = [].
Proof.
  destruct (class_step_builds_at_most_one_form
              (Examples.wizard_of MultipleFormWizardView
                 [("uploads", SClass Examples.UploadFormSet)] Examples.done_ok)
              "uploads" Examples.UploadFormSet (Some ∅) None Storage.init eq_refl)
    as (forms & Hforms & Hnil).
  exists forms. split; [exact Hforms|exact Hnil].
Defined.

(** X9.  The instance of a step.  A form of a [ModelForm] or inline
    formset class is constructed with the keyword [instance]: the value
    [get_form_kwargs] gives for it, else the entry of [instance_dict] for
    the step.  A model formset class gets the same under the keyword
    [queryset].  A [forms.Form] class gets from [instance_dict] nothing:
    its extra keywords are those of [get_form_kwargs]. *)
Theorem instance_is_a_default
    (w : Wizard) (step : string) (c : FormClass) (data files : option QueryDict)
    (st : WizardState) (f : FormObj) :
  odict_get step (form_list w) = Some (SClass c) ->
  get_forms w (Some step) data files st = Ok [f] ->
  let given := Base.other_kwargs (get_form_kwargs w step) in
  (issubclass_ModelForm c || issubclass_BaseInlineFormSet c = true ->
     kw_extra (form_kwargs f) !! "instance" =
       Some (default (Base.get_form_instance w step) (given !! "instance")) /\
     forall key, key ≠ "instance" -> kw_extra (form_kwargs f) !! key = given !! key) /\
  (issubclass_Form c = true -> kw_extra (form_kwargs f) = given) /\
  (issubclass_BaseModelFormSet c && negb (issubclass_BaseInlineFormSet c) = true ->
     kw_extra (form_kwargs f) !! "queryset" =
       Some (default (Base.get_form_instance w step) (given !! "queryset")) /\
     forall key, key ≠ "queryset" -> kw_extra (form_kwargs f) !! key = given !! key).
Proof.
  intros Hstep Hforms given. unfold get_forms in Hforms. simpl in Hforms.
  rewrite Hstep in Hforms.
  assert (Hdefault : forall key v,
            Base.setdefault key v given !! key = Some (default v (given !! key)) /\
            forall key', key' ≠ key -> Base.setdefault key v given !! key' = given !! key').
  { intros key v. unfold Base.setdefault.
    destruct (given !! key) as [x|] eqn:E; simpl.
    - by split.
    - split; [apply lookup_insert_eq|]. intros key' Hne. by apply lookup_insert_ne. }
  destruct c as [n [] fs cl|n [] item cl]; simpl in *; try discriminate Hforms;
    injection Hforms as <-; simpl;
    split_and!; try done; intros _; apply Hdefault.
Qed.

Lemma instance_is_a_default_witness :
  kw_extra
    (form_kwargs
       (mkForm Examples.PersonForm
          (mkFormKwargs None None "person" (PyDict PyNil) {["instance" := PyNone]}) None))
    !! "instance" = Some PyNone.
Proof.
  destruct (instance_is_a_default
              (Examples.wizard_of MultipleFormWizardView
                 [("person", SClass Examples.PersonForm)] Examples.done_ok)
              "person" Examples.PersonForm None None Storage.init
              (mkForm Examples.PersonForm
                 (mkFormKwargs None None "person" (PyDict PyNil) {["instance" := PyNone]})
                 None))
    as (Hmodel & _); [reflexivity|vm_compute; reflexivity|].
  destruct (Hmodel eq_refl) as [Hinst _]. exact Hinst.
Defined.

Lemma build_tagged_forms_kwargs (w : Wizard) (step : string)
    (data files : option QueryDict) (ini inst : PyObj)
    (items : list (string * FormClass)) (forms : list FormObj) :
  build_tagged_forms w step data files ini inst items = Ok forms ->
  Forall2 (fun item f =>
             exists initial instance,
               get_if_truthy ini item.1 = Ok initial /\
               get_if_truthy inst item.1 = Ok instance /\
               f = set_tag item.1
                     (construct item.2
                        (mkFormKwargs data files (get_form_prefix w step item.2) initial
                           (Base.setdefault "instance" instance
                              (Base.other_kwargs (get_form_kwargs w step))))))
          items forms.
Proof.
  revert forms. induction items as [|[form_name form_class] items IH]; intros forms; simpl.
  - intros [= <-]. constructor.
  - destruct (get_if_truthy ini form_name) as [initial|] eqn:Hi; simpl; [|done].
    destruct (get_if_truthy inst form_name) as [instance|] eqn:Hn; simpl; [|done].
    destruct (accepts_instance form_class); simpl; [|done].
    destruct (build_tagged_forms w step data files ini inst items) as [rest|]; simpl; [|done].
    intros [= <-]. constructor; [by exists initial, instance|]. by apply IH.
Qed.

Lemma get_if_truthy_dict (items : PyItems) (name : string) :
  get_if_truthy (PyDict items) name = Ok (default PyNone (py_lookup name items)).
Proof. by destruct items. Qed.

Lemma get_if_truthy_raise (d : PyObj) (name : string) (e : exn) :
  get_if_truthy d name = Raise e -> e = AttributeError /\ exists r, d = PyAtom r.
Proof.
  destruct d as [|r|[|k v rest]]; simpl; try done.
  intros [= <-]. eauto.
Qed.

(** X10.  In a step declared with a dictionary, the initial values and
    the instance of a form are looked up under the name of the form: in
    the dictionary that [initial_dict] has for the step, in the
    dictionary that [instance_dict] has for the step.  Without such an
    entry they are [None].  Every form of the step is constructed with the
    keyword [instance], unless [get_form_kwargs] gives one. *)
Theorem subform_initial_and_instance_by_name
    (w : Wizard) (step : string) (d : gmap string FormClass)
    (data files : option QueryDict) (st : WizardState) (forms : list FormObj)
    (f : FormObj) (tag : string) :
  odict_get step (form_list w) = Some (SDict d) ->
  get_forms w (Some step) data files st = Ok forms ->
  f ∈ forms -> _tag f = Some tag ->
  let given := Base.other_kwargs (get_form_kwargs w step) in
  (forall items, initial_dict w !! step = Some (PyDict items) ->
     kw_initial (form_kwargs f) = default PyNone (py_lookup tag items)) /\
  (initial_dict w !! step = None -> kw_initial (form_kwargs f) = PyNone) /\
  (forall items, instance_dict w !! step = Some (PyDict items) ->
     kw_extra (form_kwargs f) !! "instance" =
       Some (default (default PyNone (py_lookup tag items)) (given !! "instance"))) /\
  (instance_dict w !! step = None ->
     kw_extra (form_kwargs f) !! "instance" =
       Some (default PyNone (given !! "instance"))).
Proof.
  intros Hstep Hforms Hf Htag given.
  unfold get_forms in Hforms. simpl in Hforms. rewrite Hstep in Hforms.
  apply build_tagged_forms_kwargs in Hforms.
  apply list_elem_of_lookup in Hf as [i Hi].
  destruct (Forall2_lookup_r _ _ _ _ _ Hforms Hi)
    as ([tag' c] & _ & initial & instance & Hini & Hinst & ->).
  simpl in *. injection Htag as ->.
  assert (Hdefault : forall v,
            Base.setdefault "instance" v given !! "instance" =
            Some (default v (given !! "instance"))).
  { intros v. unfold Base.setdefault.
    destruct (given !! "instance") as [x|] eqn:E; simpl; [done|apply lookup_insert_eq]. }
  unfold Base.get_form_initial, Base.get_form_instance in *.
  split_and!.
  - intros items Hitems. rewrite Hitems in Hini. simpl in Hini.
    rewrite get_if_truthy_dict in Hini. by injection Hini as <-.
  - intros Hnone. rewrite Hnone in Hini. simpl in Hini. by injection Hini as <-.
  - intros items Hitems. rewrite Hitems in Hinst. simpl in Hinst.
    rewrite get_if_truthy_dict in Hinst. injection Hinst as <-. apply Hdefault.
  - intros Hnone. rewrite Hnone in Hinst. simpl in Hinst. injection Hinst as <-.
    apply Hdefault.
Qed.

Lemma subform_initial_and_instance_by_name_witness :
  kw_initial (form_kwargs Examples.billing_form) = PyNone /\
  kw_extra (form_kwargs Examples.billing_form) !! "instance" = Some PyNone.
Proof.
  destruct (subform_initial_and_instance_by_name Examples.two_addresses "address"
              {["billing" := Examples.AddressForm; "shipping" := Examples.AddressForm]}
              None None Storage.init [Examples.shipping_form; Examples.billing_form]
              Examples.billing_form "billing")
    as (_ & Hini & _ & Hinst);
    [vm_compute; reflexivity|vm_compute; reflexivity| |reflexivity|].
  - apply elem_of_cons. right. apply elem_of_cons. by left.
  - split; [apply Hini; reflexivity|apply Hinst; reflexivity].
Defined.

Lemma build_tagged_forms_raise (w : Wizard) (step : string)
    (data files : option QueryDict) (ini inst : PyObj)
    (items : list (string * FormClass)) (e : exn) :
  build_tagged_forms w step data files ini inst items = Raise e ->
  (e = AttributeError /\ exists r, ini = PyAtom r \/ inst = PyAtom r) \/
  (e = TypeError /\ exists item, item ∈ items /\ accepts_instance item.2 = false).
Proof.
  induction items as [|[form_name form_class] items IH]; simpl; [done|].
  destruct (get_if_truthy ini form_name) as [initial|e'] eqn:Hi; simpl.
  - destruct (get_if_truthy inst form_name) as [instance|e''] eqn:Hn; simpl.
    + destruct (accepts_instance form_class) eqn:Hacc; simpl.
      * destruct (build_tagged_forms w step data files ini inst items) as [rest|]; simpl;
          [done|]. intros [= <-].
        destruct IH as [IH|(-> & item & Hin & Hitem)]; [done|by left|right].
        split; [done|]. exists item. split; [by apply elem_of_cons; right|done].
      * intros [= <-]. right. split; [done|].
        exists (form_name, form_class). split; [by apply elem_of_cons; left|done].
    + intros [= <-]. apply get_if_truthy_raise in Hn as [-> [r ->]]. left. eauto.
  - intros [= <-]. apply get_if_truthy_raise in Hi as [-> [r ->]]. left. eauto.
Qed.

(** A dictionary step that holds a class which does not take [instance]
    cannot be built. *)
Lemma build_tagged_forms_refused (w : Wizard) (step : string)
    (data files : option QueryDict) (ini inst : PyObj)
    (items : list (string * FormClass)) (item : string * FormClass) :
  item ∈ items -> accepts_instance item.2 = false ->
  exists e, build_tagged_forms w step data files ini inst items = Raise e.
Proof.
  intros Hin Hacc. induction items as [|[form_name form_class] items IH]; simpl.
  - by apply elem_of_nil in Hin.
  - destruct (get_if_truthy ini form_name) as [initial|e']; simpl; [|by eexists].
    destruct (get_if_truthy inst form_name) as [instance|e'']; simpl; [|by eexists].
    apply elem_of_cons in Hin as [->|Hin]; simpl in *.
    + rewrite Hacc. by eexists.
    + destruct (accepts_instance form_class); simpl; [|by eexists].
      destruct (IH Hin) as [e ->]. by eexists.
Qed.

(** X11.  How [get_forms] for a named step fails, when [get_form_kwargs]
    is the framework's and adds no keyword.  A step that is not in the
    form list gives [KeyError].  A step declared with a dictionary gives
    [AttributeError] when the entry of [initial_dict] or of
    [instance_dict] for the step is an object that is not a dictionary,
    and [TypeError] when one of its classes does not take the keyword
    [instance], as a [forms.Form] class does not.  There is no other
    failure, and a dictionary step that holds such a class always
    fails. *)
Theorem get_forms_failures
    (w : Wizard) (step : string) (data files : option QueryDict) (st : WizardState) :
  get_form_kwargs w step = ∅ ->
  (forall e,
     get_forms w (Some step) data files st = Raise e ->
     (odict_get step (form_list w) = None /\ e = KeyError step) \/
     (exists d r,
        odict_get step (form_list w) = Some (SDict d) /\ e = AttributeError /\
        (initial_dict w !! step = Some (PyAtom r) \/
         instance_dict w !! step = Some (PyAtom r))) \/
     (exists d tag c,
        odict_get step (form_list w) = Some (SDict d) /\ e = TypeError /\
        d !! tag = Some c /\ accepts_instance c = false)) /\
  (forall d tag c,
     odict_get step (form_list w) = Some (SDict d) ->
     d !! tag = Some c -> accepts_instance c = false ->
     exists e, get_forms w (Some step) data files st = Raise e /\
               (e = TypeError \/ e = AttributeError)).
Proof.
  intros _. unfold get_forms. simpl.
  destruct (odict_get step (form_list w)) as [[c|d]|] eqn:Hstep.
  - split; [|done]. intros e.
    destruct c as [n [] fs cl|n [] item cl]; simpl; discriminate.
  - assert (Hfail : forall e,
              build_tagged_forms w step data files (Base.get_form_initial w step)
                (Base.get_form_instance w step) (map_to_list d) = Raise e ->
              (exists r, e = AttributeError /\
                 (initial_dict w !! step = Some (PyAtom r) \/
                  instance_dict w !! step = Some (PyAtom r))) \/
              (exists tag c, e = TypeError /\ d !! tag = Some c /\
                 accepts_instance c = false)).
    { intros e [[-> [r Hr]]|(-> & [tag c] & Hin & Hacc)]%build_tagged_forms_raise.
      - left. exists r. split; [done|].
        unfold Base.get_form_initial, Base.get_form_instance in Hr.
        destruct Hr as [Hr|Hr]; [left|right].
        + by destruct (initial_dict w !! step) as [o|]; simpl in Hr; [subst|].
        + by destruct (instance_dict w !! step) as [o|]; simpl in Hr; [subst|].
      - right. exists tag, c. split_and!; [done| |done].
        by apply elem_of_map_to_list in Hin. }
    split.
    + intros e [(r & -> & Hr)|(tag & c & -> & Hc & Hacc)]%Hfail; right; [left|right].
      * by exists d, r.
      * by exists d, tag, c.
    + intros d' tag c [= <-] Hc Hacc.
      destruct (build_tagged_forms_refused w step data files
                  (Base.get_form_initial w step) (Base.get_form_instance w step)
                  (map_to_list d) (tag, c)) as [e He]; [by apply elem_of_map_to_list|done|].
      exists e. split; [done|].
      destruct (Hfail e He) as [(r & -> & _)|(tag' & c' & -> & _)]; auto.
  - split; [|done]. intros e [= <-]. by left.
Qed.

Lemma get_forms_failures_witness :
  get_forms Examples.person_and_contact (Some "profile") None None Storage.init =
    Raise TypeError.
Proof.
  destruct (get_forms_failures Examples.person_and_contact "profile" None None
              Storage.init eq_refl) as [Hways _].
  destruct (Hways TypeError) as [[Hnone _]|[(d & r & _ & He & _)|_]];
    [vm_compute; reflexivity|discriminate Hnone|discriminate He|].
  vm_compute; reflexivity.
Defined.

(** ** More on [render_done] *)

Lemma get_forms_one_or_tagged (w : Wizard) (step : option string)
    (data files : option QueryDict) (st : WizardState) (forms : list FormObj) :
  get_forms w step data files st = Ok forms -> one_or_tagged forms.
Proof.
  unfold get_forms, one_or_tagged.
  destruct (match step with Some s => Ok s | None => Base.steps_current w st end)
    as [s|]; simpl; [|done].
  destruct (odict_get s (form_list w)) as [[c|d]|]; [| |done].
  - destruct c as [n [] fs cl|n [] item cl]; simpl; intros [= <-]; left; simpl; lia.
  - intros H%build_tagged_forms_Forall2. right.
    eapply Forall2_Forall_r; [exact H|]. apply Forall_true.
    intros item f (Ht & _). by rewrite Ht.
Qed.

Lemma collect_tagged_ok (forms : list FormObj) (acc : gmap string FormObj) :
  Forall (fun f => is_Some (_tag f)) forms -> exists m, collect_tagged forms acc = Ok m.
Proof.
  intros H. revert acc. induction H as [|f forms [t Ht] _ IH]; intros acc; simpl.
  - by eexists.
  - rewrite Ht. apply IH.
Qed.

Lemma collect_results_ok (ff : list (string * list FormObj))
    (acc : gmap string StepResult) :
  Forall (fun kv => one_or_tagged kv.2) ff -> exists rf, collect_results ff acc = Ok rf.
Proof.
  intros H. revert acc. induction H as [|[k forms] ff Hforms _ IH]; intros acc; simpl.
  - by eexists.
  - destruct forms as [|f1 [|f2 forms]]; [apply IH..|].
    destruct Hforms as [Hlen|Htagged]; [simpl in Hlen; lia|].
    destruct (collect_tagged_ok (f1 :: f2 :: forms) ∅ Htagged) as [m Hm].
    rewrite Hm. simpl. apply IH.
Qed.

Lemma odict_set_Forall {V} (P : V -> Prop) (k : string) (v : V) (d : list (string * V)) :
  Forall (fun kv => P kv.2) d -> P v -> Forall (fun kv => P kv.2) (odict_set k v d).
Proof.
  intros Hd Hv. induction Hd as [|[k' v'] d Hv' Hd IH]; simpl.
  - by constructor.
  - destruct (String.eqb k k'); by constructor.
Qed.

Lemma revalidate_all_valid (w : Wizard) (st : WizardState) (keys : list string)
    (acc : list (string * list FormObj)) :
  forallb (revalidates w st) keys = true ->
  Forall (fun kv => one_or_tagged kv.2) acc ->
  exists ff, revalidate w keys acc st = Ok (inr ff) /\
             Forall (fun kv => one_or_tagged kv.2) ff.
Proof.
  revert acc. induction keys as [|k keys IH]; intros acc Hvalid Hacc; simpl in *.
  - by exists acc.
  - apply andb_prop in Hvalid as [Hk Hkeys]. unfold revalidates, stored_forms in Hk.
    destruct (get_forms w (Some k) _ _ st) as [forms|] eqn:Hforms; [|done]. simpl.
    apply first_invalid_None in Hk. rewrite Hk.
    apply IH; [done|]. apply odict_set_Forall; [done|].
    by apply get_forms_one_or_tagged in Hforms.
Qed.

Lemma lookup_each_ok (rf : gmap string StepResult) (keys : list string) :
  Forall (fun k => is_Some (rf !! k)) keys -> exists fl, lookup_each rf keys = Ok fl.
Proof.
  induction 1 as [|k keys [r Hr] _ [fl IH]]; simpl; [by eexists|].
  rewrite Hr, IH. simpl. by eexists.
Qed.

Lemma result_list_ok (rf : gmap string StepResult) : exists fl, result_list rf = Ok fl.
Proof.
  apply lookup_each_ok, Forall_forall. intros k Hk.
  rewrite sorted_perm in Hk. apply list_elem_of_fmap in Hk as ([k' r] & -> & Hin).
  apply elem_of_map_to_list in Hin. by exists r.
Qed.

(** X12.  The terminal callback is called exactly when every active step
    revalidates, and then once. *)
Theorem callback_iff_all_steps_revalidate
    (w : Wizard) (kwargs : gmap string string) (world : World) :
  let out := MultipleFormWizardView_render_done w kwargs world in
  let keys := odict_keys (Base.get_form_list w (storage world)) in
  (forallb (revalidates w (storage world)) keys = true <->
   exists call, done_calls out.1 = done_calls world ++ [call]) /\
  (forallb (revalidates w (storage world)) keys = false ->
   done_calls out.1 = done_calls world).
Proof.
  intros out keys.
  assert (Hcalled : (exists call, done_calls out.1 = done_calls world ++ [call]) ->
                    forallb (revalidates w (storage world)) keys = true).
  { intros [call Hcall].
    destruct (render_done_calls w kwargs world)
      as [Hnone|(ff & rf & fl & Hrev & _)].
    - fold out in Hnone. rewrite Hnone in Hcall. by apply app_singleton_neq in Hcall.
    - destruct (revalidate_final_forms w _ _ [] ff Hrev) as [_ Hlook]; [constructor|].
      apply forallb_forall. intros k Hk%list_elem_of_In.
      destruct (Hlook k) as [Hfound _].
      destruct (Hfound Hk) as (forms & Hforms & Hvalid & _).
      unfold revalidates. by rewrite Hforms. }
  split; [split; [|done]|].
  - intros Hvalid. unfold out. rewrite render_done_cases. unfold render_done_outcome.
    destruct (revalidate_all_valid w (storage world) keys [] Hvalid) as (ff & Hrev & Hff);
      [constructor|].
    fold keys. rewrite Hrev.
    destruct (collect_results_ok ff ∅ Hff) as [rf ->].
    destruct (result_list_ok rf) as [fl ->].
    exists (mkDoneCall fl rf kwargs).
    by destruct (done w (mkDoneCall fl rf kwargs) (storage world)) as [st' [r|e]].
  - intros Hinvalid.
    destruct (render_done_calls w kwargs world) as [Hnone|(ff & rf & fl & _ & _ & _ & Hcall)];
      [done|].
    fold out in Hcall. rewrite Hcalled in Hinvalid; [done|by eexists].
Qed.

(** X13.  When the terminal callback is called, the name-keyed results
    have an entry exactly for the active steps that have a form; a step
    without forms is left out.  A step with one form has that form as its
    entry, valid and as rebuilt from the stored data. *)
Theorem results_cover_steps_with_forms
    (w : Wizard) (kwargs : gmap string string) (world : World) (call : DoneCall) :
  let out := MultipleFormWizardView_render_done w kwargs world in
  let keys := odict_keys (Base.get_form_list w (storage world)) in
  done_calls out.1 = done_calls world ++ [call] ->
  (forall k, is_Some (dc_form_dict call !! k) <->
     k ∈ keys /\ exists forms, stored_forms w (storage world) k = Ok forms /\ forms ≠ []) /\
  (forall k f, k ∈ keys -> stored_forms w (storage world) k = Ok [f] ->
     dc_form_dict call !! k = Some (RForm f) /\ is_valid f = true).
Proof.
  intros out keys Hcall.
  destruct (render_done_calls w kwargs world) as [Hnone|(ff & rf & fl & Hrev & Hrf & Hfl & Hcalls)].
  { fold out in Hnone. rewrite Hnone in Hcall. by apply app_singleton_neq in Hcall. }
  fold out in Hcalls. rewrite Hcalls in Hcall. apply app_inv_head in Hcall.
  injection Hcall as <-. simpl.
  destruct (revalidate_final_forms w _ _ [] ff Hrev) as [Hnd Hlook]; [constructor|].
  fold keys in Hlook.
  assert (Hentry : forall k, match odict_get k ff with
            | None | Some [] => rf !! k = None
            | Some [f] => rf !! k = Some (RForm f)
            | Some forms => exists d, collect_tagged forms ∅ = Ok d /\ rf !! k = Some (RForms d)
            end).
  { intros k. pose proof (collect_results_lookup ff ∅ rf k Hnd Hrf) as H.
    destruct (odict_get k ff) as [[|f1 [|f2 forms]]|]; by rewrite ?lookup_empty in H. }
  split.
  - intros k. specialize (Hentry k). destruct (Hlook k) as [Hin Hout].
    destruct (decide (k ∈ keys)) as [Hk|Hk].
    + destruct (Hin Hk) as (forms & Hforms & _ & Hff). rewrite Hff in Hentry.
      split.
      * intros Hsome. split; [done|]. exists forms. split; [done|].
        intros ->. rewrite Hentry in Hsome. by destruct Hsome.
      * intros (_ & forms' & Hforms' & Hne).
        assert (forms' = forms) as -> by congruence.
        destruct forms as [|f1 [|f2 forms]]; [done|by rewrite Hentry|].
        destruct Hentry as (d & _ & ->). done.
    + rewrite (Hout Hk) in Hentry. simpl in Hentry. rewrite Hentry.
      split; [by intros []|by intros []].
  - intros k f Hk Hforms. destruct (Hlook k) as [Hin _].
    destruct (Hin Hk) as (forms & Hforms' & Hvalid & Hff).
    assert (forms = [f]) as -> by congruence.
    specialize (Hentry k). rewrite Hff in Hentry. split; [done|].
    simpl in Hvalid. by rewrite andb_true_r in Hvalid.
Qed.

Lemma results_cover_steps_with_forms_witness :
  dc_form_dict Examples.call_a_b !! "a" = Some (RForm Examples.valid_a) /\
  is_valid Examples.valid_a = true.
Proof.
  destruct (results_cover_steps_with_forms Examples.steps_a_b_raising ∅
              (Examples.world_of Examples.both_submitted) Examples.call_a_b)
    as [_ Hone]; [vm_compute; reflexivity|].
  apply Hone; [|vm_compute; reflexivity].
  vm_compute. apply elem_of_cons. by left.
Defined.

Lemma insert_sorted_Sorted (k : string) (l : list string) :
  Sorted (fun a b => String.leb a b = true) l ->
  Sorted (fun a b => String.leb a b = true) (insert_sorted k l).
Proof.
  induction 1 as [|k' l Hl IH Hhd]; simpl.
  - repeat constructor.
  - destruct (String.leb k k') eqn:E.
    + constructor; [by constructor|]. by constructor.
    + constructor; [done|].
      assert (Hk' : String.leb k' k = true).
      { destruct (String.leb_total k k') as [H|H]; congruence. }
      destruct Hhd as [|k'' l' Hk'']; simpl; [by constructor|].
      destruct (String.leb k k''); by constructor.
Qed.

Lemma sorted_Sorted (l : list string) :
  Sorted (fun a b => String.leb a b = true) (sorted l).
Proof.
  induction l as [|k l IH]; simpl; [constructor|]. by apply insert_sorted_Sorted.
Qed.

(** X14.  The result list given to the terminal callback has one element
    per entry of the name-keyed results, in the ascending order of the
    step names as text. *)
Theorem result_list_in_name_order
    (w : Wizard) (kwargs : gmap string string) (world : World) (call : DoneCall) :
  let out := MultipleFormWizardView_render_done w kwargs world in
  done_calls out.1 = done_calls world ++ [call] ->
  exists names,
    names ≡ₚ (map_to_list (dc_form_dict call)).*1 /\
    Sorted (fun a b => String.leb a b = true) names /\
    Forall2 (fun name r => dc_form_dict call !! name = Some r) names (dc_form_list call) /\
    length (dc_form_list call) = size (dc_form_dict call).
Proof.
  intros out Hcall.
  destruct (render_done_calls w kwargs world) as [Hnone|(ff & rf & fl & Hrev & Hrf & Hfl & Hcalls)].
  { fold out in Hnone. rewrite Hnone in Hcall. by apply app_singleton_neq in Hcall. }
  fold out in Hcalls. rewrite Hcalls in Hcall. apply app_inv_head in Hcall.
  injection Hcall as <-. simpl.
  exists (sorted (map_to_list rf).*1).
  pose proof (lookup_each_Forall2 _ _ _ Hfl) as HF.
  split_and!; [apply sorted_perm|apply sorted_Sorted|done|].
  rewrite <- (Forall2_length _ _ _ HF), sorted_perm, length_fmap.
  apply length_map_to_list.
Qed.

Lemma result_list_in_name_order_witness :
  exists names,
    names ≡ₚ (map_to_list (dc_form_dict Examples.call_a_b)).*1 /\
    Sorted (fun a b => String.leb a b = true) names /\
    Forall2 (fun name r => dc_form_dict Examples.call_a_b !! name = Some r) names
      (dc_form_list Examples.call_a_b) /\
    length (dc_form_list Examples.call_a_b) = size (dc_form_dict Examples.call_a_b).
Proof.
  apply (result_list_in_name_order Examples.steps_a_b_raising ∅
           (Examples.world_of Examples.both_submitted) Examples.call_a_b).
  vm_compute; reflexivity.
Defined.

(** ** Requests *)

Lemma quiet_ret {A} (a : A) : quiet (ret a).
Proof. done. Qed.

Lemma quiet_raise {A} (e : exn) : quiet (@raise A e).
Proof. done. Qed.

Lemma quiet_read {A} (f : WizardState -> A) : quiet (read f).
Proof. done. Qed.

Lemma quiet_attempt {A} (f : WizardState -> Res A) : quiet (attempt f).
Proof. done. Qed.

Lemma quiet_bind {A B} (m : M A) (k : A -> M B) :
  quiet m -> (forall a, quiet (k a)) -> quiet (bind m k).
Proof.
  intros Hm Hk world. unfold bind. specialize (Hm world).
  destruct (m world) as [world' [a|e]]; simpl in *; subst; [apply Hk|done].
Qed.

Lemma quiet_render (w : Wizard) (forms : FormsArg) (kwargs : gmap string string) :
  quiet (render w forms kwargs).
Proof. intros world. apply render_world. Qed.

Lemma quiet_redirect_to_step (url_name : string) (step : option string)
    (query : QueryDict) :
  quiet (redirect_to_step url_name step query).
Proof. intros world. apply redirect_to_step_world. Qed.

(** After an update of the storage, a quiet continuation leaves the
    updated world. *)
Lemma update_then_quiet {A} (f : WizardState -> WizardState) (k : M A) (world : World) :
  quiet k ->
  (bind (update f) (fun _ => k) world).1 = mkWorld (f (storage world)) (done_calls world).
Proof. intros Hk. unfold bind, update. simpl. apply Hk. Qed.

Lemma steps_current_stored (w : Wizard) (st : WizardState) (s : string) :
  current_step st = Some s -> s ≠ "" -> Base.steps_current w st = Ok s.
Proof.
  intros Hs Hne. unfold Base.steps_current. rewrite Hs.
  apply String.eqb_neq in Hne. by rewrite Hne.
Qed.

Lemma get_forms_current (w : Wizard) (data files : option QueryDict)
    (st : WizardState) (s : string) :
  Base.steps_current w st = Ok s ->
  get_forms w None data files st = get_forms w (Some s) data files st.
Proof. intros Hs. unfold get_forms. by rewrite Hs. Qed.

(** [render] of a list of forms in [MultipleFormWizardView]. *)
Lemma render_template (w : Wizard) (forms : list FormObj) (kwargs : gmap string string)
    (world : World) (current : string) :
  variant w = MultipleFormWizardView ->
  Base.steps_current w (storage world) = Ok current ->
  (forms = [] -> get_forms w None None None (storage world) = Ok []) ->
  render w (FormList forms) kwargs world =
  (world,
   Ok (TemplateResponse
         (mkContext kwargs (extra_data (storage world)) (FormList forms) current))).
Proof.
  intros Hvariant Hcurrent Hnil. unfold render.
  assert (Hctx : forall fs,
            bind (get_context_data w fs kwargs)
              (fun context => ret (TemplateResponse context)) world =
            (world,
             Ok (TemplateResponse (mkContext kwargs (extra_data (storage world)) fs current)))).
  { intros fs. unfold get_context_data. rewrite Hvariant.
    unfold MultipleFormWizardView_get_context_data, bind, read, attempt, ret. simpl.
    by rewrite Hcurrent. }
  destruct forms as [|f forms]; simpl.
  - unfold bind at 1. unfold bind at 1, attempt, ret. rewrite Hnil by done. apply Hctx.
  - unfold bind at 1, ret at 1. apply Hctx.
Qed.

(** X15.  A GET of [MultipleFormWizardView] starts over.  The storage is
    reset, whatever it held; the first active step, as the conditions
    decide on the empty storage, becomes the stored current step; the
    response shows its forms, built without data, none of them valid.
    When no step is active the request raises with the storage reset. *)
Theorem get_starts_over
    (w : Wizard) (request : Request) (kwargs : gmap string string) (world : World) :
  variant w = MultipleFormWizardView ->
  (forall e, Base.steps_first w Storage.init = Raise e ->
     get w request kwargs world = (mkWorld Storage.init (done_calls world), Raise e)) /\
  (forall first forms,
     Base.steps_first w Storage.init = Ok first -> first ≠ "" ->
     get_forms w (Some first) None None
       (Storage.set_current_step (Some first) Storage.init) = Ok forms ->
     get w request kwargs world =
       (mkWorld (Storage.set_current_step (Some first) Storage.init) (done_calls world),
        Ok (TemplateResponse (mkContext ∅ ∅ (FormList forms) first))) /\
     Forall (fun f => is_valid f = false) forms).
Proof.
  intros Hvariant. unfold get. rewrite Hvariant. unfold MultipleFormWizardView_get.
  split.
  - intros e He. unfold bind, update, attempt. cbn [storage done_calls].
    unfold Storage.reset. by rewrite He.
  - intros first forms Hfirst Hne Hforms.
    set (st' := Storage.set_current_step (Some first) Storage.init) in *.
    assert (Hcurrent : Base.steps_current w st' = Ok first)
      by by apply steps_current_stored.
    split.
    + unfold bind at 1, update. cbn [storage done_calls]. unfold Storage.reset.
      unfold bind at 1, attempt. cbn [storage done_calls].
      rewrite Hfirst. unfold bind at 1, update. cbn [storage done_calls]. fold st'.
      unfold bind at 1, attempt. cbn [storage done_calls].
      rewrite (get_forms_current _ _ _ _ _ Hcurrent), Hforms.
      rewrite (render_template w forms ∅ (mkWorld st' (done_calls world)) first
                 Hvariant Hcurrent); [done|].
      intros ->. simpl. by rewrite (get_forms_current _ _ _ _ _ Hcurrent).
    + apply get_forms_bound in Hforms. eapply Forall_impl; [exact Hforms|].
      intros f [Hd Hf]. unfold is_valid, is_bound. by rewrite Hd, Hf.
Qed.

Lemma get_starts_over_witness :
  get Examples.contact_then_age Examples.get_done ∅
    (Examples.world_of Examples.contact_age_submitted) =
  (Examples.world_of (Storage.set_current_step (Some "contact") Storage.init),
   Ok (TemplateResponse
         (mkContext ∅ ∅
            (FormList
               [mkForm Examples.ContactForm
                  (mkFormKwargs None None "contact" (PyDict PyNil) ∅) None])
            "contact"))).
Proof.
  destruct (get_starts_over Examples.contact_then_age Examples.get_done ∅
              (Examples.world_of Examples.contact_age_submitted) eq_refl) as [_ Hget].
  apply (Hget "contact"); [vm_compute; reflexivity|discriminate|vm_compute; reflexivity].
Defined.

(** [wizard_goto_step] names an active step. *)
Lemma accepted_goto_known (w : Wizard) (request : Request) (st : WizardState)
    (goto_step : string) :
  POST request !! "wizard_goto_step" = Some goto_step ->
  goto_step ≠ "" ->
  goto_step ∈ odict_keys (Base.get_form_list w st) ->
  accepted_goto w request st = Some goto_step.
Proof.
  intros Hpost Hne Hin. unfold accepted_goto. rewrite Hpost.
  apply String.eqb_neq in Hne. rewrite Hne.
  apply odict_mem_keys in Hin. by rewrite Hin.
Qed.

Lemma post_goto (w : Wizard) (request : Request) (kwargs : gmap string string)
    (world : World) (goto_step : string) :
  accepted_goto w request (storage world) = Some goto_step ->
  post w request kwargs world = render_goto_step w goto_step world.
Proof.
  intros Hgoto. unfold post, MultipleFormWizardView_post.
  destruct (variant w); unfold bind at 1, read; by rewrite Hgoto.
Qed.

Lemma quiet_goto_rest (w : Wizard) :
  quiet (do current <- attempt (Base.steps_current w);
         do data <- read (Storage.get_step_data (Some current));
         do current <- attempt (Base.steps_current w);
         do files <- read (Storage.get_step_files (Some current));
         do forms <- attempt (get_forms w None data files);
         render w (FormList forms) ∅).
Proof.
  repeat (apply quiet_bind; [first [apply quiet_attempt|apply quiet_read]|intros ?]).
  apply quiet_render.
Qed.

(** X16.  A POST with [wizard_goto_step] naming an active step goes to
    that step without looking at the management form and without
    validating anything: the stored current step becomes the named step,
    the stored data and files stay, the terminal callback is not called.
    [MultipleFormWizardView] answers with the forms of the step built from
    its stored data and files, [NamedUrlWizardView] with a redirect to the
    address of the step. *)
Theorem goto_step_skips_validation
    (w : Wizard) (request : Request) (kwargs : gmap string string) (world : World)
    (goto_step : string) :
  POST request !! "wizard_goto_step" = Some goto_step ->
  goto_step ≠ "" ->
  goto_step ∈ odict_keys (Base.get_form_list w (storage world)) ->
  let st' := Storage.set_current_step (Some goto_step) (storage world) in
  (post w request kwargs world).1 = mkWorld st' (done_calls world) /\
  (forall url_name done_step_name,
     variant w = NamedUrlWizardView url_name done_step_name ->
     (post w request kwargs world).2 = Ok (HttpResponseRedirect url_name goto_step ∅)) /\
  (forall forms,
     variant w = MultipleFormWizardView ->
     get_forms w (Some goto_step)
       (Storage.get_step_data (Some goto_step) (storage world))
       (Storage.get_step_files (Some goto_step) (storage world)) st' = Ok forms ->
     (post w request kwargs world).2 =
       Ok (TemplateResponse
             (mkContext ∅ (extra_data (storage world)) (FormList forms) goto_step))).
Proof.
  intros Hpost Hne Hin st'.
  rewrite (post_goto w request kwargs world goto_step)
    by by apply accepted_goto_known.
  assert (Hcurrent : Base.steps_current w st' = Ok goto_step)
    by by apply steps_current_stored.
  unfold render_goto_step. split_and!.
  - destruct (variant w).
    + apply (update_then_quiet _ _ world), quiet_goto_rest.
    + apply (update_then_quiet _ _ world), quiet_redirect_to_step.
  - intros url_name done_step_name ->. reflexivity.
  - intros forms Hvariant Hforms. rewrite Hvariant.
    assert (Hforms' : get_forms w (Some goto_step)
              (Storage.get_step_data (Some goto_step) st')
              (Storage.get_step_files (Some goto_step) st') st' = Ok forms)
      by exact Hforms.
    unfold bind at 1, update. cbn [storage done_calls]. fold st'.
    unfold bind at 1, attempt. cbn [storage done_calls]. rewrite Hcurrent.
    unfold bind at 1, read. cbn [storage done_calls].
    unfold bind at 1, attempt. cbn [storage done_calls]. rewrite Hcurrent.
    unfold bind at 1, read. cbn [storage done_calls].
    unfold bind at 1, attempt. cbn [storage done_calls].
    rewrite (get_forms_current _ _ _ _ _ Hcurrent), Hforms'.
    rewrite (render_template w forms ∅ (mkWorld st' (done_calls world)) goto_step
               Hvariant Hcurrent); [done|].
    intros ->. simpl. rewrite (get_forms_current _ _ _ _ _ Hcurrent).
    by apply (get_forms_nil _ _ _ _ _ _ _ Hforms).
Qed.

Lemma goto_step_skips_validation_witness :
  post Examples.steps_a_b Examples.post_goto_a ∅
    (Examples.world_of Examples.both_submitted) =
  (Examples.world_of (Storage.set_current_step (Some "a") Examples.both_submitted),
   Ok (HttpResponseRedirect "signup" "a" ∅)).
Proof.
  destruct (goto_step_skips_validation Examples.steps_a_b Examples.post_goto_a ∅
              (Examples.world_of Examples.both_submitted) "a")
    as (Hworld & Hnamed & _).
  - vm_compute; reflexivity.
  - discriminate.
  - vm_compute. apply elem_of_cons. by left.
  - rewrite (surjective_pairing (post _ _ _ _)).
    by rewrite Hworld, (Hnamed "signup" "done" eq_refl).
Defined.

(** The valid path of [post]: the submitted data is stored under the
    current step, then the files are, unless the storage refuses them;
    then comes finalize or the next step. *)
Lemma post_valid_path (w : Wizard) (request : Request) (kwargs : gmap string string)
    (world : World) (declared current : string) (forms : list FormObj) :
  POST request !! "wizard_goto_step" = None ->
  Base.management_current_step w (POST request) = Some declared ->
  current_step (synced_storage w declared (storage world)) = Some current ->
  current ≠ "" ->
  get_forms w None (Some (POST request)) (Some (FILES request))
    (synced_storage w declared (storage world)) = Ok forms ->
  forallb is_valid forms = true ->
  forms ≠ [] ->
  post w request kwargs world =
  bind (update_or_raise (Storage.set_step_files (file_storage w) current (FILES request)))
    (fun _ =>
       bind (attempt (Base.steps_last w))
         (fun last_step =>
            if String.eqb current last_step then render_done w kwargs
            else render_next_step w))
    (mkWorld
       (Storage.set_step_data current (POST request)
          (synced_storage w declared (storage world)))
       (done_calls world)).
Proof.
  intros Hgoto Hmf Hcur Hne Hforms Hvalid Hnonempty.
  set (st1 := synced_storage w declared (storage world)) in *.
  assert (Hcurrent1 : Base.steps_current w st1 = Ok current)
    by by apply steps_current_stored.
  assert (Htracked : exists tracked, Base.steps_current w (storage world) = Ok tracked).
  { destruct (Base.steps_current w (storage world)) as [tracked|e] eqn:E; [by eexists|].
    exfalso. unfold st1, synced_storage in Hcurrent1. rewrite E in Hcurrent1. congruence. }
  destruct Htracked as [tracked Htracked].
  assert (Hlast : exists form, last forms = Some form /\
            kw_data (form_kwargs form) = Some (POST request) /\
            kw_files (form_kwargs form) = Some (FILES request)).
  { destruct (last forms) as [form|] eqn:E.
    - exists form. split; [done|].
      apply get_forms_bound in Hforms. rewrite Forall_forall in Hforms.
      apply Hforms. apply last_Some in E as [l' ->]. apply elem_of_app. right.
      apply elem_of_cons. by left.
    - by apply last_None in E. }
  destruct Hlast as (form & Hform & Hdata & Hfiles).
  assert (Hps : Base.process_step form = POST request).
  { unfold Base.process_step, form_data. by rewrite Hdata. }
  assert (Hpf : Base.process_step_files form = FILES request).
  { unfold Base.process_step_files, form_files. by rewrite Hfiles. }
  rewrite (post_without_goto _ _ _ _ Hgoto), Hmf.
  unfold bind at 1. rewrite sync_current_step_spec, Htracked. fold st1.
  unfold validate_and_store. unfold bind at 1, attempt. cbn [storage done_calls].
  rewrite Hforms, Hvalid, Hform.
  unfold bind at 1, attempt. cbn [storage done_calls]. rewrite Hcurrent1.
  unfold bind at 1, update. cbn [storage done_calls]. rewrite Hps.
  unfold bind at 1, attempt. cbn [storage done_calls].
  rewrite (steps_current_stored w _ current) by done.
  rewrite Hpf.
  assert (Hsame : forall st,
            current_step st = Some current ->
            (do current0 <- attempt (Base.steps_current w);
             do last_step <- attempt (Base.steps_last w);
             if String.eqb current0 last_step then render_done w kwargs
             else render_next_step w) (mkWorld st (done_calls world)) =
            (do last_step <- attempt (Base.steps_last w);
             if String.eqb current last_step then render_done w kwargs
             else render_next_step w) (mkWorld st (done_calls world))).
  { intros st Hst. unfold bind at 1, attempt. cbn [storage done_calls].
    by rewrite (steps_current_stored w _ current). }
  unfold bind at 1. unfold bind at 3.
  unfold update_or_raise. cbn [storage done_calls].
  destruct (Storage.set_step_files (file_storage w) current (FILES request)
              (Storage.set_step_data current (POST request) st1)) as [st2|e] eqn:E;
    [|done].
  apply Hsame. unfold Storage.set_step_files in E.
  destruct (negb (bool_decide (FILES request = ∅)) && negb (file_storage w));
    [done|]. by injection E as <-.
Qed.

(** The storage takes the files when there are none or the view has a
    file storage. *)
Lemma set_step_files_taken (file_storage : bool) (k : string) (f : QueryDict)
    (st : WizardState) :
  f = ∅ \/ file_storage = true ->
  Storage.set_step_files file_storage k f st = Ok (Storage.store_step_files k f st).
Proof.
  unfold Storage.set_step_files. intros [-> | ->].
  - by rewrite bool_decide_eq_true_2.
  - by rewrite andb_false_r.
Qed.

Lemma set_step_files_refused (k : string) (f : QueryDict) (st : WizardState) :
  f ≠ ∅ -> Storage.set_step_files false k f st = Raise NoFileStorageConfigured.
Proof.
  unfold Storage.set_step_files. intros Hne. by rewrite bool_decide_eq_false_2.
Qed.

(** For a named step, [get_forms] does not read the storage. *)
Lemma get_forms_named_state (w : Wizard) (step : string) (data files : option QueryDict)
    (st st' : WizardState) :
  get_forms w (Some step) data files st = get_forms w (Some step) data files st'.
Proof. reflexivity. Qed.

(** X17.  A POST without goto directive, with a valid management form and
    valid forms, for a step that is not the last, when the request has no
    files or the view has a file storage: the whole POST data is stored
    under the current step and the FILES are added to the files stored
    under it, the step after the current one becomes the stored current
    step, and the terminal callback is not called.  [NamedUrlWizardView]
    answers with a redirect to the address of that step;
    [MultipleFormWizardView] shows its forms, built from what is stored
    for it. *)
Theorem valid_submission_advances
    (w : Wizard) (request : Request) (kwargs : gmap string string) (world : World)
    (declared current last_step next_step : string) (forms : list FormObj) :
  POST request !! "wizard_goto_step" = None ->
  Base.management_current_step w (POST request) = Some declared ->
  let st1 := synced_storage w declared (storage world) in
  current_step st1 = Some current -> current ≠ "" ->
  get_forms w None (Some (POST request)) (Some (FILES request)) st1 = Ok forms ->
  forallb is_valid forms = true ->
  forms ≠ [] ->
  FILES request = ∅ \/ file_storage w = true ->
  let st2 :=
    Storage.store_step_files current (FILES request)
      (Storage.set_step_data current (POST request) st1) in
  Base.steps_last w st2 = Ok last_step -> current ≠ last_step ->
  Base.get_next_step w st2 = Ok (Some next_step) ->
  let st3 := Storage.set_current_step (Some next_step) st2 in
  (forall url_name done_step_name,
     variant w = NamedUrlWizardView url_name done_step_name ->
     post w request kwargs world =
       (mkWorld st3 (done_calls world), Ok (HttpResponseRedirect url_name next_step ∅))) /\
  (forall new_forms,
     variant w = MultipleFormWizardView -> next_step ≠ "" ->
     get_forms w (Some next_step) (Storage.get_step_data (Some next_step) st2)
       (Storage.get_step_files (Some next_step) st2) st2 = Ok new_forms ->
     post w request kwargs world =
       (mkWorld st3 (done_calls world),
        Ok (TemplateResponse
              (mkContext ∅ (extra_data (storage world)) (FormList new_forms) next_step)))).
Proof.
  intros Hgoto Hmf st1 Hcur Hne Hforms Hvalid Hnonempty Hfiles st2 Hlast Hnotlast Hnext st3.
  assert (Hpost : post w request kwargs world =
                  render_next_step w (mkWorld st2 (done_calls world))).
  { rewrite (post_valid_path w request kwargs world declared current forms
               Hgoto Hmf Hcur Hne Hforms Hvalid Hnonempty).
    fold st1. unfold bind at 1, update_or_raise. cbn [storage done_calls].
    rewrite (set_step_files_taken _ _ _ _ Hfiles). fold st2.
    unfold bind at 1, attempt. cbn [storage done_calls]. rewrite Hlast.
    apply String.eqb_neq in Hnotlast. by rewrite Hnotlast. }
  rewrite Hpost. unfold render_next_step. split.
  - intros url_name done_step_name ->.
    unfold bind at 1, attempt. cbn [storage done_calls]. by rewrite Hnext.
  - intros new_forms Hvariant Hnextne Hnew. rewrite Hvariant.
    unfold bind at 1, attempt. cbn [storage done_calls]. rewrite Hnext.
    unfold bind at 1, attempt. cbn [storage done_calls]. rewrite Hnew.
    unfold bind at 1, update. cbn [storage done_calls]. fold st3.
    assert (Hcurrent3 : Base.steps_current w st3 = Ok next_step)
      by by apply steps_current_stored.
    rewrite (render_template w new_forms ∅ (mkWorld st3 (done_calls world)) next_step
               Hvariant Hcurrent3).
    + cbn [storage]. do 4 f_equal.
      destruct (synced_storage_frame w declared (storage world)) as (_ & _ & Hextra).
      exact Hextra.
    + intros ->. cbn [storage]. rewrite (get_forms_current _ _ _ _ _ Hcurrent3).
      rewrite (get_forms_named_state w next_step None None st3 st2).
      by apply (get_forms_nil _ _ _ _ _ _ _ Hnew).
Qed.

Lemma valid_submission_advances_witness :
  post (Examples.upload_then_age true) Examples.post_upload ∅
    (Examples.world_of Examples.at_upload) =
  (Examples.world_of
     (mkState (Some "age") {["upload" := POST Examples.post_upload]}
        {["upload" := FILES Examples.post_upload]} ∅),
   Ok (TemplateResponse (mkContext ∅ ∅ (FormList [Examples.unbound_age]) "age"))).
Proof.
  destruct (valid_submission_advances (Examples.upload_then_age true)
              Examples.post_upload ∅ (Examples.world_of Examples.at_upload)
              "upload" "upload" "age" "age" [Examples.upload_form])
    as [_ Hplain];
    [vm_compute; reflexivity|vm_compute; reflexivity|vm_compute; reflexivity|discriminate
    |vm_compute; reflexivity|vm_compute; reflexivity|discriminate|by right
    |vm_compute; reflexivity|discriminate|vm_compute; reflexivity|].
  rewrite (Hplain [Examples.unbound_age] eq_refl);
    [vm_compute; reflexivity|discriminate|vm_compute; reflexivity].
Defined.

(** X18.  A POST without goto directive, with a valid management form and
    valid forms, for the last step, when the request has no files or the
    view has a file storage: the POST data is stored under the step and
    the FILES are added to the files stored under it; then
    [MultipleFormWizardView] finalizes on that storage, while
    [NamedUrlWizardView], asked under another address than the one of the
    done view, neither revalidates nor calls the terminal callback: it
    redirects to the address of the done view. *)
Theorem valid_last_step_finalizes
    (w : Wizard) (request : Request) (kwargs : gmap string string) (world : World)
    (declared current : string) (forms : list FormObj) :
  POST request !! "wizard_goto_step" = None ->
  Base.management_current_step w (POST request) = Some declared ->
  let st1 := synced_storage w declared (storage world) in
  current_step st1 = Some current -> current ≠ "" ->
  get_forms w None (Some (POST request)) (Some (FILES request)) st1 = Ok forms ->
  forallb is_valid forms = true ->
  forms ≠ [] ->
  FILES request = ∅ \/ file_storage w = true ->
  let st2 :=
    Storage.store_step_files current (FILES request)
      (Storage.set_step_data current (POST request) st1) in
  Base.steps_last w st2 = Ok current ->
  (variant w = MultipleFormWizardView ->
   post w request kwargs world =
     MultipleFormWizardView_render_done w kwargs (mkWorld st2 (done_calls world))) /\
  (forall url_name done_step_name,
     variant w = NamedUrlWizardView url_name done_step_name ->
     kwargs !! "step" ≠ Some done_step_name ->
     post w request kwargs world =
       (mkWorld st2 (done_calls world),
        Ok (HttpResponseRedirect url_name done_step_name ∅))).
Proof.
  intros Hgoto Hmf st1 Hcur Hne Hforms Hvalid Hnonempty Hfiles st2 Hlast.
  assert (Hpost : post w request kwargs world =
                  render_done w kwargs (mkWorld st2 (done_calls world))).
  { rewrite (post_valid_path w request kwargs world declared current forms
               Hgoto Hmf Hcur Hne Hforms Hvalid Hnonempty).
    fold st1. unfold bind at 1, update_or_raise. cbn [storage done_calls].
    rewrite (set_step_files_taken _ _ _ _ Hfiles). fold st2.
    unfold bind at 1, attempt. cbn [storage done_calls]. rewrite Hlast.
    by rewrite String.eqb_refl. }
  rewrite Hpost. unfold render_done. split.
  - by intros ->.
  - intros url_name done_step_name -> Hstep.
    by destruct (decide (kwargs !! "step" = Some done_step_name)).
Qed.

Lemma valid_last_step_finalizes_witness :
  post Examples.steps_a_b Examples.post_b_valid ∅
    (Examples.world_of Examples.a_stored_at_b) =
  (Examples.world_of Examples.a_b_stored, Ok (HttpResponseRedirect "signup" "done" ∅)).
Proof.
  destruct (valid_last_step_finalizes Examples.steps_a_b Examples.post_b_valid ∅
              (Examples.world_of Examples.a_stored_at_b) "b" "b"
              [mkForm Examples.AgeForm
                 (mkFormKwargs (Some (POST Examples.post_b_valid)) (Some ∅) "b"
                    (PyDict PyNil) ∅) None])
    as [_ Hnamed];
    [vm_compute; reflexivity|vm_compute; reflexivity|vm_compute; reflexivity|discriminate
    |vm_compute; reflexivity|vm_compute; reflexivity|discriminate|by left
    |vm_compute; reflexivity|].
  rewrite (Hnamed "signup" "done" eq_refl); [vm_compute; reflexivity|].
  vm_compute. discriminate.
Defined.

(** X24.  A POST without goto directive, with a valid management form and
    valid forms, that carries files to a view without file storage: the
    request raises [NoFileStorageConfigured] at request time, after the
    POST data was stored under the current step.  The stored files are
    those of before the request, the stored current step is the one the
    check of the management form left, and the terminal callback is not
    called. *)
Theorem files_without_file_storage_are_refused
    (w : Wizard) (request : Request) (kwargs : gmap string string) (world : World)
    (declared current : string) (forms : list FormObj) :
  POST request !! "wizard_goto_step" = None ->
  Base.management_current_step w (POST request) = Some declared ->
  let st1 := synced_storage w declared (storage world) in
  current_step st1 = Some current -> current ≠ "" ->
  get_forms w None (Some (POST request)) (Some (FILES request)) st1 = Ok forms ->
  forallb is_valid forms = true ->
  forms ≠ [] ->
  FILES request ≠ ∅ -> file_storage w = false ->
  post w request kwargs world =
    (mkWorld (Storage.set_step_data current (POST request) st1) (done_calls world),
     Raise NoFileStorageConfigured) /\
  step_files (Storage.set_step_data current (POST request) st1) =
    step_files (storage world) /\
  step_data (Storage.set_step_data current (POST request) st1) =
    <[current := POST request]> (step_data (storage world)).
Proof.
  intros Hgoto Hmf st1 Hcur Hne Hforms Hvalid Hnonempty Hfiles Hnone.
  destruct (synced_storage_frame w declared (storage world)) as (Hdata & Hstored & _).
  fold st1 in Hdata, Hstored.
  split_and!.
  - rewrite (post_valid_path w request kwargs world declared current forms
               Hgoto Hmf Hcur Hne Hforms Hvalid Hnonempty).
    fold st1. unfold bind at 1, update_or_raise. cbn [storage done_calls].
    by rewrite Hnone, (set_step_files_refused _ _ _ Hfiles).
  - exact Hstored.
  - unfold Storage.set_step_data. cbn [step_data]. by rewrite Hdata.
Qed.

Lemma files_without_file_storage_are_refused_witness :
  post (Examples.upload_then_age false) Examples.post_upload ∅
    (Examples.world_of Examples.at_upload) =
  (Examples.world_of
     (mkState (Some "upload") {["upload" := POST Examples.post_upload]} ∅ ∅),
   Raise NoFileStorageConfigured).
Proof.
  destruct (files_without_file_storage_are_refused (Examples.upload_then_age false)
              Examples.post_upload ∅ (Examples.world_of Examples.at_upload)
              "upload" "upload" [Examples.upload_form])
    as [Hpost _];
    [vm_compute; reflexivity|vm_compute; reflexivity|vm_compute; reflexivity|discriminate
    |vm_compute; reflexivity|vm_compute; reflexivity|discriminate
    |vm_compute; discriminate|reflexivity|].
  rewrite Hpost. vm_compute; reflexivity.
Defined.

Lemma synced_tracked (w : Wizard) (declared : string) (st : WizardState)
    (data files : option QueryDict) (forms : list FormObj) :
  get_forms w None data files (synced_storage w declared st) = Ok forms ->
  exists tracked, Base.steps_current w st = Ok tracked.
Proof.
  intros [current Hcurrent]%get_forms_current_step.
  destruct (Base.steps_current w st) as [tracked|e] eqn:E; [by eexists|].
  unfold synced_storage in Hcurrent. rewrite E in Hcurrent. congruence.
Qed.

(** X19.  A step that has no form cannot be submitted: a POST for it,
    without goto directive and with a valid management form, raises
    [UnboundLocalError], and nothing is stored for the step. *)
Theorem step_without_forms_cannot_be_submitted
    (w : Wizard) (request : Request) (kwargs : gmap string string) (world : World)
    (declared : string) :
  POST request !! "wizard_goto_step" = None ->
  Base.management_current_step w (POST request) = Some declared ->
  let st1 := synced_storage w declared (storage world) in
  get_forms w None (Some (POST request)) (Some (FILES request)) st1 = Ok [] ->
  post w request kwargs world = (mkWorld st1 (done_calls world), Raise UnboundLocalError) /\
  step_data st1 = step_data (storage world) /\
  step_files st1 = step_files (storage world).
Proof.
  intros Hgoto Hmf st1 Hforms.
  destruct (synced_tracked _ _ _ _ _ _ Hforms) as [tracked Htracked].
  destruct (synced_storage_frame w declared (storage world)) as (Hdata & Hfiles & _).
  split_and!; [|done|done].
  rewrite (post_without_goto _ _ _ _ Hgoto), Hmf.
  unfold bind at 1. rewrite sync_current_step_spec, Htracked. fold st1.
  unfold validate_and_store. unfold bind at 1, attempt. cbn [storage done_calls].
  by rewrite Hforms.
Qed.

Lemma step_without_forms_cannot_be_submitted_witness :
  post Examples.uploads_only Examples.post_uploads ∅ (Examples.world_of Storage.init) =
  (Examples.world_of Storage.init, Raise UnboundLocalError).
Proof.
  destruct (step_without_forms_cannot_be_submitted Examples.uploads_only
              Examples.post_uploads ∅ (Examples.world_of Storage.init) "uploads")
    as [Hpost _]; [vm_compute; reflexivity..|].
  rewrite Hpost. vm_compute; reflexivity.
Defined.

(** ** The URL-addressed view *)

(** X20.  A GET of [NamedUrlWizardView] without a step in the address
    redirects to the address of the current step and keeps the query
    parameters.  Without the parameter [reset] the storage is not
    touched; with it the storage is reset first and the first step
    becomes the stored current step. *)
Theorem get_without_step_redirects
    (w : Wizard) (url_name done_step_name : string) (request : Request)
    (kwargs : gmap string string) (world : World) :
  variant w = NamedUrlWizardView url_name done_step_name ->
  kwargs !! "step" = None ->
  (forall current,
     GET request !! "reset" = None ->
     Base.steps_current w (storage world) = Ok current ->
     get w request kwargs world =
       (world, Ok (HttpResponseRedirect url_name current (GET request)))) /\
  (forall first,
     is_Some (GET request !! "reset") ->
     Base.steps_first w Storage.init = Ok first -> first ≠ "" ->
     get w request kwargs world =
       (mkWorld (Storage.set_current_step (Some first) Storage.init) (done_calls world),
        Ok (HttpResponseRedirect url_name first (GET request)))).
Proof.
  intros Hvariant Hstep. unfold get. rewrite Hvariant.
  unfold NamedUrlWizardView_get. rewrite Hstep. split.
  - intros current Hreset Hcurrent. rewrite Hreset.
    rewrite bool_decide_eq_false_2 by by intros [].
    unfold bind at 1, ret at 1. unfold bind, attempt. rewrite Hcurrent.
    by destruct world.
  - intros first Hreset Hfirst Hne.
    rewrite bool_decide_eq_true_2 by done.
    unfold bind at 1. unfold bind at 1, update. cbn [storage done_calls].
    unfold Storage.reset.
    unfold bind at 1, attempt. cbn [storage done_calls]. rewrite Hfirst.
    unfold update. cbn [storage done_calls].
    unfold bind, attempt. cbn [storage done_calls].
    by rewrite (steps_current_stored w _ first).
Qed.

Lemma get_without_step_redirects_witness :
  get Examples.steps_a_b Examples.get_done ∅ (Examples.world_of Examples.both_submitted) =
  (Examples.world_of Examples.both_submitted, Ok (HttpResponseRedirect "signup" "b" ∅)).
Proof.
  destruct (get_without_step_redirects Examples.steps_a_b "signup" "done"
              Examples.get_done ∅ (Examples.world_of Examples.both_submitted))
    as [Hplain _]; [vm_compute; reflexivity..|].
  apply (Hplain "b"); vm_compute; reflexivity.
Defined.

(** X21.  A GET of [NamedUrlWizardView] for an address that is neither
    the done view, nor the current step, nor an active step: the first
    step becomes the stored current step and the answer is a redirect
    to the address of the first step.  The stored data, files and extra
    data stay. *)
Theorem unknown_address_goes_to_first_step
    (w : Wizard) (url_name done_step_name : string) (request : Request)
    (kwargs : gmap string string) (world : World)
    (step_url current first first' : string) :
  variant w = NamedUrlWizardView url_name done_step_name ->
  kwargs !! "step" = Some step_url ->
  step_url ≠ done_step_name ->
  Base.steps_current w (storage world) = Ok current ->
  step_url ≠ current ->
  step_url ∉ odict_keys (Base.get_form_list w (storage world)) ->
  Base.steps_first w (storage world) = Ok first ->
  let st' := Storage.set_current_step (Some first) (storage world) in
  Base.steps_first w st' = Ok first' ->
  get w request kwargs world =
    (mkWorld st' (done_calls world), Ok (HttpResponseRedirect url_name first' ∅)) /\
  step_data st' = step_data (storage world) /\
  step_files st' = step_files (storage world) /\
  extra_data st' = extra_data (storage world).
Proof.
  intros Hvariant Hstep Hdone Hcurrent Hne Hunknown Hfirst st' Hfirst'.
  split; [|done].
  unfold get. rewrite Hvariant. unfold NamedUrlWizardView_get. rewrite Hstep.
  apply String.eqb_neq in Hdone. rewrite Hdone.
  unfold bind at 1, attempt. rewrite Hcurrent.
  apply String.eqb_neq in Hne. rewrite Hne.
  unfold bind at 1, read.
  assert (odict_mem step_url (Base.get_form_list w (storage world)) = false) as ->.
  { destruct (odict_mem step_url _) eqn:E; [|done]. by apply odict_mem_keys in E. }
  unfold bind at 1, attempt. rewrite Hfirst.
  unfold bind at 1, update. cbn [storage done_calls]. fold st'.
  unfold bind, attempt. cbn [storage done_calls]. by rewrite Hfirst'.
Qed.

Lemma unknown_address_goes_to_first_step_witness :
  get Examples.steps_a_b Examples.get_done {["step" := "payment"]}
    (Examples.world_of Examples.both_submitted) =
  (Examples.world_of (Storage.set_current_step (Some "a") Examples.both_submitted),
   Ok (HttpResponseRedirect "signup" "a" ∅)).
Proof.
  destruct (unknown_address_goes_to_first_step Examples.steps_a_b "signup" "done"
              Examples.get_done {["step" := "payment"]}
              (Examples.world_of Examples.both_submitted) "payment" "b" "a" "a")
    as [Hget _];
    [vm_compute; reflexivity|vm_compute; reflexivity|discriminate
    |vm_compute; reflexivity|discriminate| |vm_compute; reflexivity
    |vm_compute; reflexivity|exact Hget].
  vm_compute. intros Hin.
  inversion Hin as [|? ? ? Hin2]; subst. inversion Hin2 as [|? ? ? Hin3]; subst.
  inversion Hin3.
Defined.

(** X22.  [NamedUrlWizardView] cannot show a step.  A GET for the address
    of a step of the wizard, the current one or another active one, with
    no keyword argument [form] in the address, raises [TypeError]:
    [render] calls [get_context_data] with the keyword [forms], and the
    method of the class requires [form].  The stored current step is by
    then the step of the address. *)
Theorem step_address_raises_TypeError
    (w : Wizard) (url_name done_step_name : string) (request : Request)
    (kwargs : gmap string string) (world : World) (step_url current : string) :
  variant w = NamedUrlWizardView url_name done_step_name ->
  kwargs !! "step" = Some step_url ->
  kwargs !! "form" = None ->
  step_url ≠ done_step_name -> step_url ≠ "" ->
  Base.steps_current w (storage world) = Ok current ->
  step_url = current \/ step_url ∈ odict_keys (Base.get_form_list w (storage world)) ->
  is_Some (odict_get step_url (form_list w)) ->
  (get w request kwargs world).2 = Raise TypeError /\
  (step_url ≠ current ->
   (get w request kwargs world).1 =
     mkWorld (Storage.set_current_step (Some step_url) (storage world)) (done_calls world)).
Proof.
  intros Hvariant Hstep _ Hdone Hne Hcurrent Hknown [struct Hstruct].
  assert (Hrender : forall world',
            Base.steps_current w (storage world') = Ok step_url ->
            render_stored_step w kwargs world' = (world', Raise TypeError)).
  { intros world' Hcur. unfold render_stored_step.
    unfold bind at 1, read. unfold bind at 1, read.
    unfold bind at 1, attempt. unfold Base.get_form. rewrite Hcur, Hstruct.
    destruct struct as [c|d]; [|done].
    unfold render. cbn [forms_truthy]. unfold bind at 1, ret at 1.
    unfold bind, get_context_data. by rewrite Hvariant. }
  assert (Hget : get w request kwargs world =
            (if String.eqb step_url current then world
             else mkWorld (Storage.set_current_step (Some step_url) (storage world))
                    (done_calls world),
             Raise TypeError)).
  { unfold get. rewrite Hvariant. unfold NamedUrlWizardView_get. rewrite Hstep.
    apply String.eqb_neq in Hdone. rewrite Hdone.
    unfold bind at 1, attempt. rewrite Hcurrent.
    destruct (String.eqb step_url current) eqn:E.
    - apply String.eqb_eq in E. subst current. by rewrite (Hrender world Hcurrent).
    - apply String.eqb_neq in E. destruct Hknown as [?|Hin]; [done|].
      unfold bind at 1, read. apply odict_mem_keys in Hin. rewrite Hin.
      unfold bind at 1, update. cbn [storage done_calls].
      rewrite Hrender; [done|]. by apply steps_current_stored. }
  rewrite Hget. split; [done|].
  intros E%String.eqb_neq. by rewrite E.
Qed.

Lemma step_address_raises_TypeError_witness :
  get Examples.steps_a_b Examples.get_done {["step" := "a"]}
    (Examples.world_of Examples.both_submitted) =
  (Examples.world_of (Storage.set_current_step (Some "a") Examples.both_submitted),
   Raise TypeError).
Proof.
  destruct (step_address_raises_TypeError Examples.steps_a_b "signup" "done"
              Examples.get_done {["step" := "a"]}
              (Examples.world_of Examples.both_submitted) "a" "b")
    as [Hraise Hworld];
    [vm_compute; reflexivity|vm_compute; reflexivity|vm_compute; reflexivity
    |discriminate|discriminate|vm_compute; reflexivity| | |].
  - right. vm_compute. apply elem_of_cons. by left.
  - by eexists.
  - rewrite (surjective_pairing (get _ _ _ _)), Hraise, Hworld; [reflexivity|discriminate].
Defined.

(** X23.  A configuration of [NamedUrlWizardView] has a URL name, its
    done view is named as asked or ["done"], and no step has the name of
    the done view; the form list is the one [get_initkwargs] of
    [MultipleFormWizardView] computes.  Without a URL name no
    configuration is returned. *)
Theorem named_url_configuration
    (has_file_storage : bool) (url_name done_step_name : option string)
    (l : list FormListEntry) (initial instance : gmap string PyObj)
    (cond : gmap string (WizardState -> bool)) (ik : InitKwargs) (v : Variant) :
  NamedUrlWizardView_get_initkwargs has_file_storage url_name done_step_name l
    initial instance cond = Ok (ik, v) ->
  exists name,
    url_name = Some name /\
    v = NamedUrlWizardView name (default "done" done_step_name) /\
    get_initkwargs has_file_storage l initial instance cond = Ok ik /\
    default "done" done_step_name ∉ odict_keys (ik_form_list ik).
Proof.
  unfold NamedUrlWizardView_get_initkwargs.
  destruct url_name as [name|]; [|done].
  destruct (get_initkwargs has_file_storage l initial instance cond) as [ik'|]; [|done].
  destruct (odict_mem (default "done" done_step_name) (ik_form_list ik')) eqn:E; [done|].
  intros [= <- <-]. exists name. split_and!; try done.
  intros Hin%odict_mem_keys. congruence.
Qed.

Lemma named_url_configuration_witness :
  exists name,
    Some "signup" = Some name /\
    NamedUrlWizardView "signup" "done" = NamedUrlWizardView name (default "done" None) /\
    get_initkwargs true [Pair "a" (SClass Examples.ContactForm)] ∅ ∅ ∅ =
      Ok (mkInitKwargs [("a", SClass Examples.ContactForm)] ∅ ∅ ∅) /\
    default "done" None ∉
      odict_keys (ik_form_list (mkInitKwargs [("a", SClass Examples.ContactForm)] ∅ ∅ ∅)).
Proof.
  apply (named_url_configuration true (Some "signup") None
           [Pair "a" (SClass Examples.ContactForm)] ∅ ∅ ∅).
  vm_compute; reflexivity.
Defined.
